(** * plugins-server: the Excel generator and the web page reader

    A shallow embedding of the two route modules of the repository,

    - the Excel generator (coordinate utility, cell formatter, layout
      engine, workbook builder, retention sweeper, [POST /generate]);
    - the web page reader ([GET /get-content]),

    together with the properties their specification states about them.

    Conventions of the embedding.

    - A JavaScript string is a [string]: a sequence of code units, each
      below 256.  [String.length] is the [.length] of the source.
    - Row and column numbers are integers; a row number may also be [NaN]
      (what [parseInt] returns on a string with no digits), so a row is an
      [option Z] with [None] for [NaN].  The integers involved stay far
      below 2^53, where the double-precision arithmetic of the source is
      exact (lemma [columnLetterToNumber_safe] gives the bound for the
      column computation).
    - A number stored in a cell is an IEEE 754 binary64 value, the
      [spec_float] of the standard library at precision 53 and maximal
      exponent 1024.
    - The ExcelJS worksheet is a record of the properties the source reads
      and writes; the cells of a merged range share the value of its
      top-left cell.  The checks ExcelJS itself performs on coordinates,
      sheet names and overlapping merges are outside the source and not
      part of the model.
    - Three operations of the JavaScript host are left open, as variables:
      the printing of a number, the [Date] constructor and the printing of
      a date.  No property below depends on what they return.
    - An exception is a result [None]; the effects of a handler (a file
      write started, a line logged, a response sent) are the list of them
      in the order they happen. *)

From Stdlib Require Import ZArith String Ascii List Lia Bool.
From Stdlib Require Import Floats.SpecFloat.
From stdpp Require Import gmap strings list fin_maps.

Local Open Scope string_scope.
Local Open Scope Z_scope.

(* ===================================================================== *)
(** * JavaScript strings and integers *)
(* ===================================================================== *)

Module Js.

(** [s.charCodeAt(i)] for the code unit [c] found there. *)
Definition charCode (c : ascii) : Z := Z.of_N (N_of_ascii c).

(** [s[0]]: the one-character string at index 0, [undefined] ([None]) on
    the empty string. *)
Definition index0 (s : string) : option string :=
  match s with
  | EmptyString => None
  | String c _ => Some (String c EmptyString)
  end.

(** [s.slice(1)]. *)
Definition slice1 (s : string) : string :=
  match s with
  | EmptyString => EmptyString
  | String _ rest => rest
  end.

(** The white space and line terminator code units below 256
    (StrWhiteSpaceChar): TAB, LF, VT, FF, CR, SP, NBSP. *)
Definition isWhiteSpace (c : ascii) : bool :=
  let n := charCode c in
  ((9 <=? n) && (n <=? 13)) || (n =? 32) || (n =? 160).

Fixpoint trimStart (s : string) : string :=
  match s with
  | EmptyString => EmptyString
  | String c rest => if isWhiteSpace c then trimStart rest else s
  end.

Definition isDecimalDigit (c : ascii) : bool :=
  (48 <=? charCode c) && (charCode c <=? 57).

(** The value of [c] as a digit: 0-9, then a-z and A-Z for 10..35. *)
Definition digitValue (c : ascii) : option Z :=
  let n := charCode c in
  if isDecimalDigit c then Some (n - 48)
  else if (97 <=? n) && (n <=? 122) then Some (n - 87)
  else if (65 <=? n) && (n <=? 90) then Some (n - 55)
  else None.

(** The longest prefix of [s] made of radix-[R] digits, as the integer it
    denotes; [acc] is [None] until a first digit is read. *)
Fixpoint parseDigits (R : Z) (acc : option Z) (s : string) : option Z :=
  match s with
  | EmptyString => acc
  | String c rest =>
      match digitValue c with
      | Some d =>
          if d <? R
          then parseDigits R (Some (match acc with Some a => a * R + d | None => d end)) rest
          else acc
      | None => acc
      end
  end.

(** An optional sign at the front of [s]: [true] for [-]. *)
Definition scanSign (s : string) : bool * string :=
  match s with
  | String c rest =>
      if Ascii.eqb c "-" then (true, rest)
      else if Ascii.eqb c "+" then (false, rest)
      else (false, s)
  | EmptyString => (false, s)
  end.

(** The radix a two-character prefix [0x], [0o] or [0b] (in either case)
    announces, with what follows the prefix. *)
Definition radixPrefix (s : string) : option (Z * string) :=
  match s with
  | String c0 (String c1 rest) =>
      if Ascii.eqb c0 "0" then
        if Ascii.eqb c1 "x" || Ascii.eqb c1 "X" then Some (16, rest)
        else if Ascii.eqb c1 "o" || Ascii.eqb c1 "O" then Some (8, rest)
        else if Ascii.eqb c1 "b" || Ascii.eqb c1 "B" then Some (2, rest)
        else None
      else None
  | _ => None
  end.

(** [parseInt(s)] with no radix argument: leading white space is skipped,
    a sign is read, a [0x] or [0X] prefix selects radix 16 and the longest
    digit prefix is converted.  [None] is [NaN]; the result is the integer
    read ([-0] is 0).  The source's number is the double nearest to that
    integer: the two are the same below 2^53, the range the statements
    about row numbers keep to. *)
Definition parseInt (s : string) : option Z :=
  let s1 := trimStart s in
  let '(neg, s2) := scanSign s1 in
  let '(R, s3) :=
    match radixPrefix s2 with
    | Some (16, rest) => (16, rest)
    | _ => (10, s2)
    end in
  match parseDigits R None s3 with
  | Some n => Some (if neg then - n else n)
  | None => None
  end.

(** ** Primitive values and numbers *)

(** The primitive values a request can put in a cell ([value] is a
    string, a number, a boolean or [null]; an absent key reads as
    [undefined]).  Numbers are binary64. *)
Inductive Prim :=
  | PUndefined
  | PNull
  | PBool (b : bool)
  | PNum (x : spec_float)
  | PStr (s : string).

Definition prec : Z := 53.
Definition emax : Z := 1024.

(** The number nearest to the integer [n] (ties to even). *)
Definition integerToNumber (n : Z) : spec_float :=
  binary_normalize prec emax n 0 false.

(** The number nearest to [m * 10^e10], signed by [neg]: an integer is
    rounded directly, a fraction is the correctly rounded quotient of two
    integers. *)
Definition decimalToNumber (neg : bool) (m : N) (e10 : Z) : spec_float :=
  match m with
  | N0 => S754_zero neg
  | Npos p =>
      if 0 <=? e10
      then binary_round prec emax neg (Z.to_pos (Zpos p * 10 ^ e10)) 0
      else SFdiv prec emax (S754_finite neg p 0)
                           (S754_finite false (Z.to_pos (10 ^ (- e10))) 0)
  end.

Definition trimEnd (s : string) : string :=
  string_of_list_ascii
    (rev (list_ascii_of_string
            (trimStart (string_of_list_ascii (rev (list_ascii_of_string s)))))).

Definition trim (s : string) : string := trimEnd (trimStart s).

(** Reads decimal digits from the front of [s]: the integer read so far,
    the number of digits read, and what is left. *)
Fixpoint scanDigits (s : string) (acc : Z) (count : Z) : Z * Z * string :=
  match s with
  | EmptyString => (acc, count, s)
  | String c rest =>
      if isDecimalDigit c
      then scanDigits rest (acc * 10 + (charCode c - 48)) (count + 1)
      else (acc, count, s)
  end.

(** StrUnsignedDecimalLiteral without [Infinity]: digits, an optional
    fraction, an optional exponent, and nothing after.  The result is the
    pair [(m, e)] of the literal's value [m * 10^e]; [None] when [s] is
    not such a literal. *)
Definition parseDecimal (s : string) : option (Z * Z) :=
  let '(ip, ni, s1) := scanDigits s 0 0 in
  let '(m, nf, s2) :=
    match s1 with
    | String "."%char rest => scanDigits rest ip 0
    | _ => (ip, 0, s1)
    end in
  if ni + nf =? 0 then None
  else
    match s2 with
    | EmptyString => Some (m, - nf)
    | String c rest =>
        if (charCode c =? 101) || (charCode c =? 69) then
          let '(eneg, r1) := scanSign rest in
          let '(ev, ne, r2) := scanDigits r1 0 0 in
          match r2 with
          | EmptyString =>
              if ne =? 0 then None
              else Some (m, (if eneg then - ev else ev) - nf)
          | _ => None
          end
        else None
    end.

(** All of [s] as radix-[R] digits, at least one. *)
Fixpoint parseAllDigits (R : Z) (acc : option Z) (s : string) : option Z :=
  match s with
  | EmptyString => acc
  | String c rest =>
      match digitValue c with
      | Some d =>
          if d <? R
          then parseAllDigits R (Some (match acc with Some a => a * R + d | None => d end)) rest
          else None
      | None => None
      end
  end.

(** [Number(s)] on a string (StringToNumber): white space is trimmed, the
    empty string is [+0], then [Infinity], a [0x], [0o] or [0b] integer,
    or a signed decimal literal; anything else is [NaN]. *)
Definition stringToNumber (s : string) : spec_float :=
  let t := trim s in
  match t with
  | EmptyString => S754_zero false
  | _ =>
      match radixPrefix t with
      | Some (R, rest) =>
          match parseAllDigits R None rest with
          | Some n => integerToNumber n
          | None => S754_nan
          end
      | None =>
          let '(neg, u) := scanSign t in
          if String.eqb u "Infinity" then S754_infinity neg
          else
            match parseDecimal u with
            | Some (m, e) => decimalToNumber neg (Z.to_N m) e
            | None => S754_nan
            end
      end
  end.

(** [Number(v)]. *)
Definition Number (v : Prim) : spec_float :=
  match v with
  | PUndefined => S754_nan
  | PNull => S754_zero false
  | PBool true => integerToNumber 1
  | PBool false => S754_zero false
  | PNum x => x
  | PStr s => stringToNumber s
  end.

(** [isNaN(x)] on a number. *)
Definition isNaN (x : spec_float) : bool :=
  match x with
  | S754_nan => true
  | _ => false
  end.

(** [floor(sm / 2^k + 1/2)]: the integer nearest to [sm / 2^k], a half
    going up. *)
Definition roundHalfUp (sm : Z) (k : Z) : Z :=
  (2 * sm + 2 ^ k) / 2 ^ (k + 1).

(** [Math.round(x)]: zeros, infinities and [NaN] are returned as they
    are, and so is a finite number that is already integral; otherwise the
    nearest integer, a half going towards +infinity, and a zero result
    keeps the sign of [x]. *)
Definition Math_round (x : spec_float) : spec_float :=
  match x with
  | S754_finite s m e =>
      if 0 <=? e then x
      else
        let n := roundHalfUp (cond_Zopp s (Zpos m)) (- e) in
        if n =? 0 then S754_zero s else integerToNumber n
  | _ => x
  end.

(** [Boolean(v)]: [undefined], [null], [false], [+0], [-0], [NaN] and the
    empty string are falsy, every other primitive is truthy. *)
Definition Boolean (v : Prim) : bool :=
  match v with
  | PUndefined | PNull => false
  | PBool b => b
  | PNum (S754_zero _) | PNum S754_nan => false
  | PNum _ => true
  | PStr EmptyString => false
  | PStr _ => true
  end.

(** [v != null]: neither [null] nor [undefined]. *)
Definition notNullish (v : Prim) : bool :=
  match v with
  | PUndefined | PNull => false
  | _ => true
  end.

End Js.

(* ===================================================================== *)
(** * Coordinate utility *)
(* ===================================================================== *)

Module Coordinate.
Import Js.

(** The loop of [columnLetterToNumber]: [column] is the accumulator and
    [letter] the characters still to be read.  The source computes on
    doubles; the integers written here are its values as long as they
    stay below 2^53, which they do on references of up to eleven letters,
    the range the statements about the function keep to. *)
Fixpoint columnLetterToNumber_loop (column : Z) (letter : string) : Z :=
  match letter with
  | EmptyString => column
  | String c rest =>
      columnLetterToNumber_loop (column * 26 + charCode c - charCode "A"%char + 1) rest
  end.

Definition columnLetterToNumber (letter : string) : Z :=
  columnLetterToNumber_loop 0 letter.

(** How [execGenExcelFuncs] reads the anchor of a table: the column from
    the first character only, the row from everything after it.  [None]
    is the [TypeError] raised when [startCell] is empty ([startCell[0]] is
    [undefined] and has no [length]). *)
Definition parseStartCell (startCell : string) : option (option Z * Z) :=
  match index0 startCell with
  | None => None
  | Some first => Some (parseInt (slice1 startCell), columnLetterToNumber first)
  end.

(** ** What the specification asks for *)

(** A column letter is one of [A]..[Z]. *)
Definition isColumnLetter (c : ascii) : bool :=
  (65 <=? charCode c) && (charCode c <=? 90).

Fixpoint allColumnLetters (s : string) : bool :=
  match s with
  | EmptyString => true
  | String c rest => isColumnLetter c && allColumnLetters rest
  end.

(** A valid column reference: one or more letters. *)
Definition validColumn (s : string) : bool :=
  match s with
  | EmptyString => false
  | _ => allColumnLetters s
  end.

(** The conventional column index, read positionally: the letter [c]
    counts [c - 'A' + 1] and stands at the power of 26 given by the number
    of letters to its right. *)
Fixpoint columnIndex (s : string) : Z :=
  match s with
  | EmptyString => 0
  | String c rest =>
      (charCode c - 64) * 26 ^ Z.of_nat (String.length rest) + columnIndex rest
  end.

(** The letter prefix and the rest of a cell reference. *)
Fixpoint splitLetters (s : string) : string * string :=
  match s with
  | EmptyString => (EmptyString, EmptyString)
  | String c rest =>
      if isColumnLetter c
      then let '(l, r) := splitLetters rest in (String c l, r)
      else (EmptyString, s)
  end.

Fixpoint allDigits (s : string) : bool :=
  match s with
  | EmptyString => true
  | String c rest => isDecimalDigit c && allDigits rest
  end.

(** The anchor as the specification describes it: the whole letter prefix
    gives the column, the whole digit suffix gives the row. *)
Definition cellReference (startCell : string) : option (Z * Z) :=
  let '(letters, digits) := splitLetters startCell in
  if validColumn letters && allDigits digits then
    match parseDigits 10 None digits with
    | Some r => Some (r, columnIndex letters)
    | None => None
    end
  else None.

End Coordinate.

(* ===================================================================== *)
(** * The Excel generator: data model *)
(* ===================================================================== *)

Module Excel.
Import Js Coordinate.

(** ** The request: sheets, tables, columns, cells *)

(** [{ name, type, format }]; an absent [type] or [format] is [None]. *)
Record Column := {
  col_name : string;
  col_type : option string;
  col_format : option string
}.

(** [{ type, value }]; an absent [type] is [None]. *)
Record CellData := {
  cd_type : option string;
  cd_value : Prim
}.

(** A table; an absent [startCell] or [title] is [None], absent [rows]
    and [columns] are the empty list their destructuring defaults to. *)
Record Table := {
  startCell : option string;
  title : option string;
  rows : list (list CellData);
  columns : list Column;
  skipHeader : bool
}.

Record SheetData := {
  sheetName : string;
  tables : list Table
}.

Record ExcelConfig := {
  fontFamily : string;
  tableTitleFontSize : Z;
  headerFontSize : Z;
  fontSize : Z;
  autoFitColumnWidth : bool;
  autoFilter : bool;
  borderStyle : option string;
  wrapText : bool
}.

(** ** The worksheet *)

(** What a cell holds: a primitive, a formula object [{ formula }] or a
    [Date] with its time value. *)
Inductive CellValue :=
  | VPrim (p : Prim)
  | VFormula (f : Prim)
  | VDate (t : Z).

Record Font := {
  font_name : string;
  font_bold : bool;
  font_size : Z
}.

Record Alignment := {
  al_horizontal : option string;
  al_vertical : option string;
  al_wrapText : bool
}.

(** The four sides of a border, each with its style or unset. *)
Record Border := {
  b_top : option string;
  b_left : option string;
  b_bottom : option string;
  b_right : option string
}.

(** A cell: [value] is [None] for [null] (nothing written). *)
Record Cell := {
  value : option CellValue;
  numFmt : option string;
  font : option Font;
  alignment : option Alignment;
  border : option Border
}.

Definition emptyCell : Cell :=
  {| value := None; numFmt := None; font := None; alignment := None; border := None |}.

(** [{ from: { row, column }, to: { row, column } }]. *)
Record AutoFilter := {
  from_row : option Z;
  from_column : Z;
  to_row : option Z;
  to_column : Z
}.

(** A merged range as [mergeCells(top, left, bottom, right)] received it. *)
Record Merge := {
  m_top : option Z;
  m_left : Z;
  m_bottom : option Z;
  m_right : Z
}.

(** The worksheet: its cells by (row, column), the merged ranges (latest
    first), the single [autoFilter] property and the column widths.  The
    model takes a cell at every position and a sheet under every name;
    what the library itself refuses (a row that is not a number, a
    position outside the sheet, a range that overlaps a merged one, a
    sheet name that is taken or too long) is outside it.  The properties
    of the layout are therefore stated for placements that return, or for
    anchors at a row and a column from 1 on and rows that no merged range
    reaches. *)
Record Worksheet := {
  ws_name : string;
  ws_cells : gmap (option Z * Z) Cell;
  ws_merges : list Merge;
  ws_autoFilter : option AutoFilter;
  ws_widths : gmap Z Z
}.

Definition addWorksheet (name : string) : Worksheet :=
  {| ws_name := name; ws_cells := ∅; ws_merges := []; ws_autoFilter := None;
     ws_widths := ∅ |}.

(** Row arithmetic: [NaN] stays [NaN]. *)
Definition rowAdd (r : option Z) (k : Z) : option Z :=
  match r with
  | Some z => Some (z + k)
  | None => None
  end.

(** The cell [(r, c)] lies in the merged range [m]. *)
Definition covers (m : Merge) (r : option Z) (c : Z) : bool :=
  match m_top m, m_bottom m, r with
  | Some t, Some b, Some z =>
      (Z.min t b <=? z) && (z <=? Z.max t b) &&
      (Z.min (m_left m) (m_right m) <=? c) && (c <=? Z.max (m_left m) (m_right m))
  | _, _, _ => false
  end.

(** The cell that holds the value of [(r, c)]: the top-left cell of the
    merged range that covers it, or the cell itself. *)
Definition master (ws : Worksheet) (r : option Z) (c : Z) : option Z * Z :=
  match List.find (fun m => covers m r c) (ws_merges ws) with
  | Some m =>
      (match m_top m, m_bottom m with
       | Some t, Some b => Some (Z.min t b)
       | _, _ => r
       end,
       Z.min (m_left m) (m_right m))
  | None => (r, c)
  end.

Definition cellAt (ws : Worksheet) (k : option Z * Z) : Cell :=
  default emptyCell (ws_cells ws !! k).

(** [worksheet.getCell(r, c).value]. *)
Definition getValue (ws : Worksheet) (r : option Z) (c : Z) : option CellValue :=
  value (cellAt ws (master ws r c)).

Definition updateCell (ws : Worksheet) (k : option Z * Z) (f : Cell -> Cell) : Worksheet :=
  {| ws_name := ws_name ws;
     ws_cells := <[k := f (cellAt ws k)]> (ws_cells ws);
     ws_merges := ws_merges ws;
     ws_autoFilter := ws_autoFilter ws;
     ws_widths := ws_widths ws |}.

(** [worksheet.getCell(r, c).value = v]: a cell of a merged range stores
    into the range's top-left cell. *)
Definition setValue (ws : Worksheet) (r : option Z) (c : Z) (v : CellValue) : Worksheet :=
  updateCell ws (master ws r c)
    (fun x => {| value := Some v; numFmt := numFmt x; font := font x;
                 alignment := alignment x; border := border x |}).

(** [cell.numFmt = f] ([None] assigns [undefined]). *)
Definition setNumFmt (ws : Worksheet) (r : option Z) (c : Z) (f : option string) : Worksheet :=
  updateCell ws (r, c)
    (fun x => {| value := value x; numFmt := f; font := font x;
                 alignment := alignment x; border := border x |}).

(** [cell.alignment = a; cell.font = f; cell.border = b]. *)
Definition setStyle (ws : Worksheet) (r : option Z) (c : Z)
    (a : Alignment) (f : Font) (b : Border) : Worksheet :=
  updateCell ws (r, c)
    (fun x => {| value := value x; numFmt := numFmt x; font := Some f;
                 alignment := Some a; border := Some b |}).

(** [worksheet.mergeCells(top, left, bottom, right)]. *)
Definition mergeCells (ws : Worksheet) (t : option Z) (l : Z) (b : option Z) (r : Z) : Worksheet :=
  {| ws_name := ws_name ws;
     ws_cells := ws_cells ws;
     ws_merges := {| m_top := t; m_left := l; m_bottom := b; m_right := r |} :: ws_merges ws;
     ws_autoFilter := ws_autoFilter ws;
     ws_widths := ws_widths ws |}.

(** [worksheet.autoFilter = af]. *)
Definition setAutoFilter (ws : Worksheet) (af : AutoFilter) : Worksheet :=
  {| ws_name := ws_name ws;
     ws_cells := ws_cells ws;
     ws_merges := ws_merges ws;
     ws_autoFilter := Some af;
     ws_widths := ws_widths ws |}.

(** [worksheet.getColumn(c).width = w]. *)
Definition setWidth (ws : Worksheet) (c : Z) (w : Z) : Worksheet :=
  {| ws_name := ws_name ws;
     ws_cells := ws_cells ws;
     ws_merges := ws_merges ws;
     ws_autoFilter := ws_autoFilter ws;
     ws_widths := <[c := w]> (ws_widths ws) |}.

(** [forEach] with the element's index: [f] receives the state, the
    element and its index, from index [i] on. *)
Fixpoint forEachIdx {A St : Type} (f : St -> A -> nat -> St) (l : list A) (i : nat) (s : St) : St :=
  match l with
  | [] => s
  | x :: rest => forEachIdx f rest (S i) (f s x i)
  end.

(** [x || d] on an optional string: the empty string is falsy. *)
Definition orElse (x : option string) (d : option string) : option string :=
  match x with
  | Some EmptyString | None => d
  | Some _ => x
  end.

Definition typeIs (valueType : option string) (t : string) : bool :=
  match valueType with
  | Some u => String.eqb u t
  | None => false
  end.

(** One entry of [columnFormats]. *)
Definition columnFormat (col : Column) : option string :=
  if typeIs (col_type col) "number" then orElse (col_format col) None
  else if typeIs (col_type col) "percent" then orElse (col_format col) (Some "0.00%")
  else if typeIs (col_type col) "currency" then orElse (col_format col) (Some "$#,##0")
  else if typeIs (col_type col) "date" then orElse (col_format col) None
  else None.

(** [String(o)] on a plain object. *)
Definition objectToString : string := "[object Object]".

(** The three style constants of [execGenExcelFuncs]. *)
Definition borderConfigs (cfg : ExcelConfig) : Border :=
  match orElse (borderStyle cfg) None with
  | Some st => {| b_top := Some st; b_left := Some st; b_bottom := Some st; b_right := Some st |}
  | None => {| b_top := None; b_left := None; b_bottom := None; b_right := None |}
  end.

Definition titleAlignment (cfg : ExcelConfig) : Alignment :=
  {| al_horizontal := Some "center"; al_vertical := Some "middle"; al_wrapText := wrapText cfg |}.
Definition titleFont (cfg : ExcelConfig) : Font :=
  {| font_name := fontFamily cfg; font_bold := true; font_size := tableTitleFontSize cfg |}.
Definition headerFont (cfg : ExcelConfig) : Font :=
  {| font_name := fontFamily cfg; font_bold := true; font_size := headerFontSize cfg |}.
Definition headerAlign (cfg : ExcelConfig) : Alignment :=
  {| al_horizontal := Some "center"; al_vertical := Some "middle"; al_wrapText := wrapText cfg |}.
Definition cellFont (cfg : ExcelConfig) : Font :=
  {| font_name := fontFamily cfg; font_bold := false; font_size := fontSize cfg |}.
Definition cellAlign (cfg : ExcelConfig) : Alignment :=
  {| al_horizontal := None; al_vertical := None; al_wrapText := wrapText cfg |}.

(** What one pass of the cell loop assigns: the value, and the number
    format when the branch assigns one ([Some None] assigns [undefined]). *)
Record CellWrite := {
  w_value : CellValue;
  w_numFmt : option (option string)
}.

(** What the code does to the outside world, in the order it does it:
    [workbook.xlsx.writeFile(filePath)] is called (the promise it returns
    is pending), a line is logged, a response is sent. *)
Inductive Effect (R : Type) :=
  | WriteFile (dir file : string) (workbook : list Worksheet)
  | Log (line : string)
  | Send (response : R).
Arguments WriteFile {R} dir file workbook.
Arguments Log {R} line.
Arguments Send {R} response.

(** ** The layout engine *)

Section Host.

(** Three operations of the JavaScript host that the source calls and
    the model leaves open: [Number.prototype.toString], the [Date]
    constructor with its validity test ([None] is an invalid date, [Some t]
    a date of time value [t]), and [Date.prototype.toString]. *)
Variable Number_toString : spec_float -> string.
Variable newDate : Prim -> option Z.
Variable Date_toString : Z -> string.

(** [String(v)] on a primitive. *)
Definition ToString (v : Prim) : string :=
  match v with
  | PUndefined => "undefined"
  | PNull => "null"
  | PBool true => "true"
  | PBool false => "false"
  | PNum x => Number_toString x
  | PStr s => s
  end.

(** [String(v)] on what a cell holds. *)
Definition valueToString (v : CellValue) : string :=
  match v with
  | VPrim p => ToString p
  | VFormula _ => objectToString
  | VDate t => Date_toString t
  end.

(** The cell formatter: the body of the cell loop, from the column's type
    and format and the request's cell to the value and number format it
    assigns. *)
Definition formatCell (valueType : option string) (format : option string)
    (cellData : CellData) : CellWrite :=
  let type := default "static_value" (cd_type cellData) in
  let value := cd_value cellData in
  let cellValue := if notNullish value then value else PStr "" in
  if String.eqb type "formula" then
    {| w_value := VFormula cellValue;
       w_numFmt :=
         if typeIs valueType "percent" || typeIs valueType "currency"
            || typeIs valueType "number" || typeIs valueType "date"
         then Some format else None |}
  else if typeIs valueType "number" then
    {| w_value :=
         if negb (isNaN (Number cellValue))
         then VPrim (PNum (Math_round (Number cellValue)))
         else VPrim cellValue;
       w_numFmt := Some (orElse format (Some "0")) |}
  else if typeIs valueType "boolean" then
    {| w_value := VPrim (PBool (Boolean cellValue)); w_numFmt := None |}
  else if typeIs valueType "date" then
    {| w_value :=
         match newDate cellValue with
         | Some t => VDate t
         | None => VPrim cellValue
         end;
       w_numFmt := Some (orElse format (Some "yyyy-mm-dd")) |}
  else if typeIs valueType "percent" || typeIs valueType "currency" then
    {| w_value :=
         if negb (isNaN (Number cellValue))
         then VPrim (PNum (Number cellValue))
         else VPrim cellValue;
       w_numFmt := Some format |}
  else
    {| w_value := VPrim (PStr (ToString cellValue)); w_numFmt := None |}.

Definition applyWrite (ws : Worksheet) (r : option Z) (c : Z) (w : CellWrite) : Worksheet :=
  let ws1 := setValue ws r c (w_value w) in
  match w_numFmt w with
  | Some f => setNumFmt ws1 r c f
  | None => ws1
  end.

(** The longest string of column [colIdx]: every row that has an entry at
    [colIdx] counts with [String] of that entry, which is the request's
    cell object; then the cell at [(startRow, startCol + colIdx)] counts
    with [String] of its value unless it is empty. *)
Definition columnMaxLength (ws : Worksheet) (startRow : option Z)
    (rows : list (list CellData)) (startCol : Z) (colIdx : nat) : Z :=
  let maxLength :=
    fold_left
      (fun maxLength (row : list CellData) =>
         match row !! colIdx with
         | Some cellValue => Z.max maxLength (Z.of_nat (String.length objectToString))
         | None => maxLength
         end)
      rows 0 in
  match getValue ws startRow (startCol + Z.of_nat colIdx) with
  | Some headerCell =>
      Z.max maxLength (Z.of_nat (String.length (valueToString headerCell)))
  | None => maxLength
  end.

Definition autoFitColumns (ws : Worksheet) (startRow : option Z)
    (rows : list (list CellData)) (numColumns : nat) (startCol : Z) : Worksheet :=
  fold_left
    (fun ws colIdx =>
       setWidth ws (startCol + Z.of_nat colIdx)
         (columnMaxLength ws startRow rows startCol colIdx + 2))
    (seq 0 numColumns) ws.

(** The title block of a table: value, merge, style, next row. *)
Definition placeTitle (cfg : ExcelConfig) (tbl : Table) (startCol : Z)
    (st : Worksheet * option Z) : Worksheet * option Z :=
  let '(ws, rowIndex) := st in
  match orElse (title tbl) None with
  | Some t =>
      let ws1 := setValue ws rowIndex startCol (VPrim (PStr t)) in
      let ws2 := mergeCells ws1 rowIndex startCol rowIndex
                   (startCol + Z.of_nat (length (columns tbl)) - 1) in
      (setStyle ws2 rowIndex startCol (titleAlignment cfg) (titleFont cfg) (borderConfigs cfg),
       rowAdd rowIndex 1)
  | None => st
  end.

(** The header block: [columns] is an array and so always truthy, the
    row advances whenever [skipHeader] is falsy. *)
Definition placeHeader (cfg : ExcelConfig) (tbl : Table) (startCol : Z)
    (st : Worksheet * option Z) : Worksheet * option Z :=
  let '(ws, rowIndex) := st in
  if negb (skipHeader tbl) then
    (forEachIdx
       (fun ws col colIdx =>
          let c := startCol + Z.of_nat colIdx in
          setStyle (setValue ws rowIndex c (VPrim (PStr (col_name col))))
            rowIndex c (headerAlign cfg) (headerFont cfg) (borderConfigs cfg))
       (columns tbl) 0%nat ws,
     rowAdd rowIndex 1)
  else st.

(** One data row. *)
Definition placeRow (cfg : ExcelConfig) (tbl : Table) (startCol : Z)
    (st : Worksheet * option Z) (rowData : list CellData) : Worksheet * option Z :=
  let '(ws, rowIndex) := st in
  let columnTypes := map col_type (columns tbl) in
  let columnFormats := map columnFormat (columns tbl) in
  (forEachIdx
     (fun ws cellData colIdx =>
        let valueType := mjoin (columnTypes !! colIdx) in
        let format := mjoin (columnFormats !! colIdx) in
        let c := startCol + Z.of_nat colIdx in
        setStyle (applyWrite ws rowIndex c (formatCell valueType format cellData))
          rowIndex c (cellAlign cfg) (cellFont cfg) (borderConfigs cfg))
     rowData 0%nat ws,
   rowAdd rowIndex 1).

(** The autofilter block. *)
Definition placeAutoFilter (cfg : ExcelConfig) (tbl : Table)
    (startRow : option Z) (startCol : Z)
    (st : Worksheet * option Z) : Worksheet * option Z :=
  let '(ws, rowIndex) := st in
  if autoFilter cfg then
    let lastCol := startCol + Z.of_nat (length (columns tbl)) - 1 in
    (setAutoFilter ws
       {| from_row := rowAdd startRow 1; from_column := startCol;
          to_row := rowAdd rowIndex (-1); to_column := lastCol |},
     rowIndex)
  else st.

(** The body of [tables.forEach]: one table placed on its worksheet.
    [None] is the exception raised on an empty [startCell]. *)
Definition placeTable (cfg : ExcelConfig) (ws : Worksheet) (tbl : Table) : option Worksheet :=
  match parseStartCell (default "A1" (startCell tbl)) with
  | None => None
  | Some (startRow, startCol) =>
      let st0 := (ws, startRow) in
      let st1 := placeTitle cfg tbl startCol st0 in
      let st2 := placeHeader cfg tbl startCol st1 in
      let st3 := fold_left (placeRow cfg tbl startCol) (rows tbl) st2 in
      let st4 := placeAutoFilter cfg tbl startRow startCol st3 in
      Some
        (if autoFitColumnWidth cfg
         then autoFitColumns (fst st4) startRow (rows tbl) (length (columns tbl)) startCol
         else fst st4)
  end.

(** The number of rows a table occupies: its title if it has one, its
    header unless skipped, its data rows. *)
Definition hasTitle (tbl : Table) : bool :=
  match orElse (title tbl) None with
  | Some _ => true
  | None => false
  end.

Definition tableHeight (tbl : Table) : Z :=
  (if hasTitle tbl then 1 else 0)
  + (if skipHeader tbl then 0 else 1)
  + Z.of_nat (length (rows tbl)).

(** The range the autofilter block computes for a table anchored at
    [(startRow, startCol)]. *)
Definition tableAutoFilter (tbl : Table) (startRow : option Z) (startCol : Z) : AutoFilter :=
  {| from_row := rowAdd startRow 1;
     from_column := startCol;
     to_row := rowAdd startRow (tableHeight tbl - 1);
     to_column := startCol + Z.of_nat (length (columns tbl)) - 1 |}.

(** The tables of one sheet, in order, on one worksheet. *)
Fixpoint placeTables (cfg : ExcelConfig) (ws : Worksheet) (tbls : list Table) : option Worksheet :=
  match tbls with
  | [] => Some ws
  | tbl :: rest =>
      match placeTable cfg ws tbl with
      | Some ws' => placeTables cfg ws' rest
      | None => None
      end
  end.

(** The body of [sheetsData.forEach]. *)
Definition placeSheet (cfg : ExcelConfig) (sheet : SheetData) : option Worksheet :=
  placeTables cfg (addWorksheet (sheetName sheet)) (tables sheet).

(** The workbook: one worksheet per sheet, in order. *)
Fixpoint buildWorkbook (cfg : ExcelConfig) (sheetsData : list SheetData) : option (list Worksheet) :=
  match sheetsData with
  | [] => Some []
  | sheet :: rest =>
      match placeSheet cfg sheet with
      | Some ws =>
          match buildWorkbook cfg rest with
          | Some wss => Some (ws :: wss)
          | None => None
          end
      | None => None
      end
  end.

(** [s.replace(/\D/gi, '')]: the decimal digits of [s]. *)
Fixpoint digitsOnly (s : string) : string :=
  match s with
  | EmptyString => EmptyString
  | String c rest =>
      if isDecimalDigit c then String c (digitsOnly rest) else digitsOnly rest
  end.

(** [execGenExcelFuncs]: the workbook is built, its serialization to
    [exportsDir/fileName] is started and the file name is returned at
    once.  [now] is [new Date().toISOString()]; [None] is an exception
    raised while the workbook is built. *)
Definition execGenExcelFuncs {R : Type} (exportsDir now : string)
    (sheetsData : list SheetData) (excelConfigs : ExcelConfig)
    : option (string * list (Effect R)) :=
  match buildWorkbook excelConfigs sheetsData with
  | None => None
  | Some workbook =>
      let fileName := "excel-file-" ++ digitsOnly now ++ ".xlsx" in
      Some (fileName, [WriteFile exportsDir fileName workbook])
  end.

End Host.

(** ** What the specification asks of the autofit and the autofilter *)

(** The width the specification gives a column: two more than the longest
    of the header text and the texts written in the column's data cells. *)
Definition specifiedWidth (header : string) (written : list string) : Z :=
  2 + fold_left Z.max (map (fun t => Z.of_nat (String.length t)) written)
        (Z.of_nat (String.length header)).


End Excel.

(* ===================================================================== *)
(** * The retention sweeper *)
(* ===================================================================== *)

Module Sweeper.

(** A directory entry as the sweep sees it: the modification time
    [fs.stat] reports, in milliseconds ([None] when [stat] fails), and
    whether [fs.unlink] succeeds on it. *)
Record Entry := {
  mtime : option Z;
  removable : bool
}.

Definition oneHour : Z := 60 * 60 * 1000.

(** The callback chain for one file: [stat], the age test, [unlink]. *)
Definition sweepFile (now : Z) (dir : gmap string Entry) (file : string) : gmap string Entry :=
  match dir !! file with
  | Some e =>
      match mtime e with
      | Some t =>
          if now - t >? oneHour
          then (if removable e then delete file dir else dir)
          else dir
      | None => dir
      end
  | None => dir
  end.

(** One run of the scheduled task at time [now]: [listing] is what
    [fs.readdir] yields ([None] on error), the entries are visited in
    that order. *)
Definition sweep (now : Z) (listing : option (list string)) (dir : gmap string Entry)
    : gmap string Entry :=
  match listing with
  | Some files => fold_left (sweepFile now) files dir
  | None => dir
  end.

(** [fs.readdir] on a readable directory: the names of its entries. *)
Definition readdir (dir : gmap string Entry) : option (list string) :=
  Some (fst <$> map_to_list dir).

(** What the callback chain decides for an entry: it goes when its age is
    known, exceeds one hour, and [unlink] succeeds. *)
Definition removed (now : Z) (e : Entry) : bool :=
  match mtime e with
  | Some t => (now - t >? oneHour) && removable e
  | None => false
  end.

End Sweeper.

(* ===================================================================== *)
(** * The request handlers *)
(* ===================================================================== *)

Module Http.
Import Js Excel.

(** The payload of a response envelope. *)
Inductive ResponseObject :=
  | RNull
  | RText (text : string)
  | RDownload (downloadUrl : string)
  | RContent (title content : string).

(** Modelled from the spec: the class [ServiceResponse] of
    [common/models/serviceResponse], which is not among the sources: the
    uniform response envelope carrying a status flag, a human message, an
    optional payload and an HTTP status code. *)
Record ServiceResponse := {
  success : bool;
  message : string;
  responseObject : ResponseObject;
  statusCode : Z
}.

(** Modelled from the spec: [handleServiceResponse] of
    [common/utils/httpHandlers], which is not among the sources: the
    envelope is sent to the client with its HTTP status code. *)
Definition handleServiceResponse (serviceResponse : ServiceResponse)
    : list (Effect ServiceResponse) :=
  [Send serviceResponse].

Definition BAD_REQUEST : Z := 400.
Definition OK : Z := 200.
Definition INTERNAL_SERVER_ERROR : Z := 500.

(** What a handler does and what it returns (a handler that returns an
    envelope without passing it to [handleServiceResponse] sends
    nothing). *)
Record Handled := {
  effects : list (Effect ServiceResponse);
  returned : option ServiceResponse
}.

Definition respond (r : ServiceResponse) : Handled :=
  {| effects := handleServiceResponse r; returned := None |}.

(** ** POST /excel-generator/generate *)

(** [excelConfigs] of the request body: every field optional. *)
Record ConfigOverrides := {
  o_fontFamily : option string;
  o_titleFontSize : option Z;
  o_headerFontSize : option Z;
  o_fontSize : option Z;
  o_autoFilter : option bool;
  o_borderStyle : option string;
  o_wrapText : option bool;
  o_autoFitColumnWidth : option bool
}.

Record GenerateBody := {
  sheetsData : option (list SheetData);
  excelConfigs : option ConfigOverrides
}.

Section Generate.

Variable Number_toString : spec_float -> string.
Variable newDate : Prim -> option Z.
Variable Date_toString : Z -> string.

(** The two fields of [DEFAULT_EXCEL_CONFIGS] that the sources cut off. *)
Variable DEFAULT_borderStyle : option string.
Variable DEFAULT_wrapText : bool.

(** The environment: the export directory, [RENDER_EXTERNAL_URL], and the
    message the engine gives the [TypeError] raised when the property
    named is read on [undefined]. *)
Variable exportsDir : string.
Variable RENDER_EXTERNAL_URL : option string.
Variable typeErrorMessage : string -> string.

Definition DEFAULT_EXCEL_CONFIGS : ExcelConfig :=
  {| fontFamily := "Calibri";
     tableTitleFontSize := 13;
     headerFontSize := 11;
     fontSize := 11;
     autoFitColumnWidth := true;
     autoFilter := false;
     borderStyle := DEFAULT_borderStyle;
     wrapText := DEFAULT_wrapText |}.

Definition serverUrl : string :=
  default "http://localhost:3000" (orElse RENDER_EXTERNAL_URL None).

(** The configuration the handler passes on: [??] keeps every value that
    is present, [||] also replaces an empty border style. *)
Definition mergeConfigs (o : ConfigOverrides) : ExcelConfig :=
  {| fontFamily := default (fontFamily DEFAULT_EXCEL_CONFIGS) (o_fontFamily o);
     tableTitleFontSize := default (tableTitleFontSize DEFAULT_EXCEL_CONFIGS) (o_titleFontSize o);
     headerFontSize := default (headerFontSize DEFAULT_EXCEL_CONFIGS) (o_headerFontSize o);
     fontSize := default (fontSize DEFAULT_EXCEL_CONFIGS) (o_fontSize o);
     autoFilter := default (autoFilter DEFAULT_EXCEL_CONFIGS) (o_autoFilter o);
     borderStyle := orElse (o_borderStyle o) (borderStyle DEFAULT_EXCEL_CONFIGS);
     wrapText := default (wrapText DEFAULT_EXCEL_CONFIGS) (o_wrapText o);
     autoFitColumnWidth :=
       default (autoFitColumnWidth DEFAULT_EXCEL_CONFIGS) (o_autoFitColumnWidth o) |}.

Definition validationError : ServiceResponse :=
  {| success := false;
     message := "[Validation Error] Sheets data is required!";
     responseObject :=
       RText "Please make sure you have sent the excel sheets content generated from TypingMind.";
     statusCode := BAD_REQUEST |}.

(** The response of the [catch] block to a [TypeError] on [property]
    (the apostrophe of the source's text is typographic). *)
Definition generationError (property : string) : ServiceResponse :=
  {| success := false;
     message := "Error " ++ typeErrorMessage property;
     responseObject := RText "Sorry, we couldn't generate the Excel file.";
     statusCode := INTERNAL_SERVER_ERROR |}.

Definition generated (fileName : string) : ServiceResponse :=
  {| success := true;
     message := "File generated successfully";
     responseObject := RDownload (serverUrl ++ "/excel-generator/downloads/" ++ fileName);
     statusCode := OK |}.

(** The handler of [POST /generate]; [now] is the clock reading used for
    the file name.  Two exceptions reach the [catch] block: the read of
    [excelConfigs.fontFamily] when the body has no [excelConfigs], and the
    read of [letter.length] in [columnLetterToNumber] for a table whose
    [startCell] is empty. *)
Definition generate (now : string) (body : GenerateBody) : Handled :=
  match sheetsData body with
  | None | Some [] => respond validationError
  | Some sheets =>
      match excelConfigs body with
      | None => respond (generationError "fontFamily")
      | Some o =>
          match execGenExcelFuncs Number_toString newDate Date_toString
                  exportsDir now sheets (mergeConfigs o) with
          | Some (fileName, started) =>
              {| effects := started ++ handleServiceResponse (generated fileName);
                 returned := None |}
          | None => respond (generationError "length")
          end
      end
  end.

End Generate.

(** ** The server between two turns of the event loop *)

(** The files whose write has been started and not finished, the files
    written, and the responses sent, latest first. *)
Record Server := {
  pendingWrites : list string;
  written : list string;
  sent : list ServiceResponse
}.

Definition idle : Server := {| pendingWrites := []; written := []; sent := [] |}.

Definition perform (st : Server) (e : Effect ServiceResponse) : Server :=
  match e with
  | WriteFile _ file _ =>
      {| pendingWrites := file :: pendingWrites st; written := written st; sent := sent st |}
  | Log _ => st
  | Send r =>
      {| pendingWrites := pendingWrites st; written := written st; sent := r :: sent st |}
  end.

(** A handler with no [await] runs to its end in one turn. *)
Definition runHandler (h : Handled) (st : Server) : Server :=
  fold_left perform (effects h) st.

(** A later turn: the write of [file] finishes. *)
Definition completeWrite (file : string) (st : Server) : Server :=
  {| pendingWrites := List.filter (fun f => negb (String.eqb f file)) (pendingWrites st);
     written := file :: written st;
     sent := sent st |}.

(** What the specification asks of the generate handler: when its turn
    ends with a success response sent, no write is still pending, the
    serialization has been awaited. *)
Definition awaitedWrite (st : Server) : Prop :=
  forall r, In r (sent st) -> success r = true -> pendingWrites st = [].

(** ** GET /web-page-reader/get-content *)

(** The [url] entry of the parsed query string. *)
Inductive QueryValue :=
  | QAbsent
  | QString (s : string)
  | QArray (l : list string)
  | QObject (fields : list (string * string)).

Section GetContent.

(** [fetchAndCleanContent]: the page is fetched and reduced to its title
    and text by libraries outside the sources; [inl] is the message of
    the error raised. *)
Variable fetchAndCleanContent : string -> string + string * string.

Definition getContent (url : QueryValue) : Handled :=
  match url with
  | QString u =>
      match fetchAndCleanContent u with
      | inr (title, content) =>
          respond {| success := true;
                     message := "Content fetched successfully";
                     responseObject := RContent title content;
                     statusCode := OK |}
      | inl msg =>
          let errorMessage := "Error fetching content " ++ msg in
          {| effects :=
               Log errorMessage ::
               handleServiceResponse
                 {| success := false; message := errorMessage;
                    responseObject := RNull; statusCode := INTERNAL_SERVER_ERROR |};
             returned := None |}
      end
  | _ =>
      {| effects := [];
         returned :=
           Some {| success := false; message := "URL must be a string";
                   responseObject := RNull; statusCode := BAD_REQUEST |} |}
  end.

End GetContent.

End Http.

(* ===================================================================== *)
(** * Sample requests *)
(* ===================================================================== *)

Module Samples.
Import Js Excel.

(** The default configuration, with the two switches as given. *)
Definition config (filter fit : bool) : ExcelConfig :=
  {| fontFamily := "Calibri"; tableTitleFontSize := 13; headerFontSize := 11;
     fontSize := 11; autoFitColumnWidth := fit; autoFilter := filter;
     borderStyle := None; wrapText := true |}.

Definition static (v : string) : CellData :=
  {| cd_type := Some "static_value"; cd_value := PStr v |}.

(** One text column "Name" with the single value "Al", anchored at A1,
    no title. *)
Definition namesTable : Table :=
  {| startCell := Some "A1"; title := None;
     rows := [[static "Al"]];
     columns := [{| col_name := "Name"; col_type := Some "text"; col_format := None |}];
     skipHeader := false |}.

(** The same table with a value of twenty characters. *)
Definition longNamesTable : Table :=
  {| startCell := Some "A1"; title := None;
     rows := [[static "Alexandria-Ocasio-Co"]];
     columns := [{| col_name := "Name"; col_type := Some "text"; col_format := None |}];
     skipHeader := false |}.

(** The table of the specification's end-to-end example: title "Sales",
    one number column "Qty", one row with the value "3", anchored at A1. *)
Definition salesTable : Table :=
  {| startCell := Some "A1"; title := Some "Sales";
     rows := [[static "3"]];
     columns := [{| col_name := "Qty"; col_type := Some "number"; col_format := None |}];
     skipHeader := false |}.

(** A title "T" over one column "Quantity" with no data row. *)
Definition quantityTable : Table :=
  {| startCell := Some "A1"; title := Some "T";
     rows := [];
     columns := [{| col_name := "Quantity"; col_type := Some "number"; col_format := None |}];
     skipHeader := false |}.


(** A second table for the same sheet, anchored at D5. *)
Definition stockTable : Table :=
  {| startCell := Some "D5"; title := None;
     rows := [[static "7"]; [static "9"]];
     columns := [{| col_name := "Stock"; col_type := Some "number"; col_format := None |}];
     skipHeader := false |}.

Definition reportSheet : SheetData :=
  {| sheetName := "Report"; tables := [salesTable; stockTable] |}.

(** A request body for [reportSheet] that overrides no setting. *)
Definition reportBody : Http.GenerateBody :=
  {| Http.sheetsData := Some [reportSheet];
     Http.excelConfigs :=
       Some {| Http.o_fontFamily := None; Http.o_titleFontSize := None;
               Http.o_headerFontSize := None; Http.o_fontSize := None;
               Http.o_autoFilter := None; Http.o_borderStyle := None;
               Http.o_wrapText := None; Http.o_autoFitColumnWidth := None |} |}.

End Samples.

(* ===================================================================== *)
(** * The clean-up of a fetched page *)
(* ===================================================================== *)

Module Reader.

(** A node of the parsed document as the clean-up sees it: an element
    with its tag name and its children, or a node without children (a
    text, a comment).  Attributes play no part. *)
#[local] Unset Elimination Schemes.
Inductive Node :=
  | Text (data : string)
  | Element (name : string) (children : list Node).
#[local] Set Elimination Schemes.

(** What is left of a node when the elements whose name satisfies
    [selected] are removed: nothing if the node is one of them, the node
    with its children cleaned otherwise. *)
Fixpoint removeIn (selected : string -> bool) (n : Node) : list Node :=
  match n with
  | Text data => [Text data]
  | Element name children =>
      if selected name then []
      else [Element name (flat_map (removeIn selected) children)]
  end.

(** [_cheerio(element).remove()]: every element of the document with the
    tag name [element] is taken out of its parent, with all it contains. *)
Definition remove (element : string) (doc : list Node) : list Node :=
  flat_map (removeIn (String.eqb element)) doc.

(** [elements.forEach((element) => _cheerio(element).remove())]. *)
Definition removeElements (elements : list string) (doc : list Node) : list Node :=
  fold_left (fun doc element => remove element doc) elements doc.

Definition elementsToRemove : list string :=
  ["footer"; "header"; "nav"; "script"; "style"; "link"; "meta"; "noscript";
   "img"; "picture"; "video"; "audio"; "iframe"; "object"; "embed"; "param";
   "track"; "source"; "canvas"; "map"; "area"; "svg"; "math"].

Definition removeUnwantedElements (doc : list Node) : list Node :=
  removeElements elementsToRemove doc.

(** An element whose name satisfies [selected] occurs in the node, at any
    depth. *)
Fixpoint occursIn (selected : string -> bool) (n : Node) : bool :=
  match n with
  | Text _ => false
  | Element name children => selected name || existsb (occursIn selected) children
  end.

(** The tag names of [elementsToRemove]. *)
Definition unwanted (name : string) : bool :=
  existsb (String.eqb name) elementsToRemove.

End Reader.

(* ===================================================================== *)
(** * The grid of a worksheet *)
(* ===================================================================== *)

Module Grid.
Import Js Coordinate Excel.

(** No merged range of the worksheet reaches row [row]: a cell of that
    row holds its own value. *)
Definition rowClear (ws : Worksheet) (row : Z) : Prop :=
  forall m col, In m (ws_merges ws) -> covers m (Some row) col = false.

(** The rows of a table above its data: the title row if it has a title,
    the header row unless it is skipped. *)
Definition headRows (tbl : Table) : Z :=
  (if hasTitle tbl then 1 else 0) + (if skipHeader tbl then 0 else 1).

(** The cell the body of the cell loop leaves at a position: the value and
    the number format of the write [w] (the old format when [w] assigns
    none) and the body style. *)
Definition bodyCell (cfg : ExcelConfig) (w : CellWrite) (old : Cell) : Cell :=
  {| value := Some (w_value w);
     numFmt := match w_numFmt w with Some f => f | None => numFmt old end;
     font := Some (cellFont cfg);
     alignment := Some (cellAlign cfg);
     border := Some (borderConfigs cfg) |}.

(** The cell the header loop leaves at a position. *)
Definition headerCell (cfg : ExcelConfig) (col : Column) (old : Cell) : Cell :=
  {| value := Some (VPrim (PStr (col_name col)));
     numFmt := numFmt old;
     font := Some (headerFont cfg);
     alignment := Some (headerAlign cfg);
     border := Some (borderConfigs cfg) |}.

(** The cell the title block leaves at the anchor. *)
Definition titleCell (cfg : ExcelConfig) (t : string) (old : Cell) : Cell :=
  {| value := Some (VPrim (PStr t));
     numFmt := numFmt old;
     font := Some (titleFont cfg);
     alignment := Some (titleAlignment cfg);
     border := Some (borderConfigs cfg) |}.


(** What the data rows add to the measured length of column [colIdx]:
    the length of "[object Object]" as soon as one row has an entry at
    [colIdx], whatever the entry holds. *)
Definition objectLength (rows : list (list CellData)) (colIdx : nat) : Z :=
  if existsb (fun row : list CellData => (colIdx <? length row)%nat) rows
  then Z.of_nat (String.length objectToString)
  else 0.

(** The anchor of the table reads as row [r], column [c], a position of
    the worksheet: rows and columns count from 1. *)
Definition anchored (tbl : Table) (r c : Z) : Prop :=
  parseStartCell (default "A1" (startCell tbl)) = Some (Some r, c)
  /\ 1 <= r /\ 1 <= c.


End Grid.

(* ===================================================================== *)
(** * Properties of the coordinate utility *)
(* ===================================================================== *)

Module CoordinateFacts.
Import Js Coordinate.

Lemma charCode_A : charCode "A"%char = 65.
Proof. reflexivity. Qed.

Lemma eqb_charCode (c d : ascii) : Ascii.eqb c d = true -> charCode c = charCode d.
Proof. intros H. apply Ascii.eqb_eq in H. now subst. Qed.

Lemma eqb_charCode_ne (c d : ascii) : charCode c <> charCode d -> Ascii.eqb c d = false.
Proof.
  intros H. destruct (Ascii.eqb c d) eqn:E; [|reflexivity].
  apply eqb_charCode in E. contradiction.
Qed.

(** The loop is Horner's scheme for the positional value. *)
Lemma columnLetterToNumber_loop_spec (s : string) :
  forall column,
    columnLetterToNumber_loop column s
    = column * 26 ^ Z.of_nat (String.length s) + columnIndex s.
Proof.
  induction s as [|c rest IH]; intros column; simpl columnLetterToNumber_loop.
  - simpl. lia.
  - rewrite IH, charCode_A.
    cbn [String.length columnIndex].
    rewrite Nat2Z.inj_succ, Z.pow_succ_r by lia. ring.
Qed.

Lemma columnIndex_bounds (s : string) :
  allColumnLetters s = true ->
  Z.of_nat (String.length s) <= columnIndex s
  /\ columnIndex s <= 2 * 26 ^ Z.of_nat (String.length s) - 2.
Proof.
  induction s as [|c rest IH]; intros Hs.
  - simpl. lia.
  - cbn [allColumnLetters] in Hs. apply andb_prop in Hs as [Hc Hrest].
    destruct (IH Hrest) as [Hlo Hhi].
    unfold isColumnLetter in Hc. apply andb_prop in Hc as [H1 H2].
    apply Z.leb_le in H1, H2.
    cbn [String.length columnIndex].
    rewrite Nat2Z.inj_succ, Z.pow_succ_r by lia.
    assert (Hp : 1 <= 26 ^ Z.of_nat (String.length rest))
      by (apply (Z.pow_le_mono_r 26 0); lia).
    nia.
Qed.

(** Up to eleven letters the value stays below 2^53: the double
    arithmetic of the source is exact there, intermediate values
    included. *)
Lemma columnLetterToNumber_safe (s : string) :
  validColumn s = true ->
  (String.length s <= 11)%nat ->
  1 <= columnLetterToNumber s < 2 ^ 53.
Proof.
  intros Hv Hlen.
  assert (Hall : allColumnLetters s = true) by (destruct s; [discriminate | exact Hv]).
  assert (Hne : (1 <= String.length s)%nat) by (destruct s; [discriminate | simpl; lia]).
  unfold columnLetterToNumber. rewrite columnLetterToNumber_loop_spec.
  destruct (columnIndex_bounds s Hall) as [Hlo Hhi].
  assert (Hp : 26 ^ Z.of_nat (String.length s) <= 26 ^ 11)
    by (apply Z.pow_le_mono_r; lia).
  change (26 ^ 11) with 3670344486987776 in Hp.
  change (2 ^ 53) with 9007199254740992.
  lia.
Qed.

Lemma parseDigits_acc_Some (s : string) :
  forall a, exists n, parseDigits 10 (Some a) s = Some n.
Proof.
  induction s as [|c rest IH]; intros a; simpl.
  - eauto.
  - destruct (digitValue c) as [d|]; [|eauto].
    destruct (d <? 10); eauto.
Qed.

(** Rewrites the code of a character literal in [H] to its number. *)
Ltac literal_codes H :=
  repeat match type of H with
  | context [charCode (Ascii ?a ?b ?c ?d ?e ?f ?g ?h)] =>
      let v := eval vm_compute in (charCode (Ascii a b c d e f g h)) in
      change (charCode (Ascii a b c d e f g h)) with v in H
  end.

(** Closes [Ascii.eqb d lit = false] for a [d] whose code is bounded away
    from the literal's by hypotheses on [charCode d]. *)
Ltac other_char :=
  apply eqb_charCode_ne;
  let E := fresh "E" in
  intros E; literal_codes E; lia.

Lemma digit_range (d : ascii) :
  isDecimalDigit d = true -> 48 <= charCode d <= 57.
Proof.
  unfold isDecimalDigit. intros H. apply andb_prop in H as [H1 H2].
  apply Z.leb_le in H1, H2. lia.
Qed.

Lemma digit_scanSign (d : ascii) (ds : string) :
  isDecimalDigit d = true -> scanSign (String d ds) = (false, String d ds).
Proof.
  intros Hd. apply digit_range in Hd. unfold scanSign.
  replace (Ascii.eqb d "-") with false by (symmetry; other_char).
  replace (Ascii.eqb d "+") with false by (symmetry; other_char).
  reflexivity.
Qed.

Lemma digits_radixPrefix (s : string) :
  allDigits s = true -> radixPrefix s = None.
Proof.
  destruct s as [|c0 [|c1 rest]]; try reflexivity.
  cbn [allDigits]. intros H.
  apply andb_prop in H as [_ H]. apply andb_prop in H as [H1 _].
  apply digit_range in H1. unfold radixPrefix.
  destruct (Ascii.eqb c0 "0"); [|reflexivity].
  replace (Ascii.eqb c1 "x") with false by (symmetry; other_char).
  replace (Ascii.eqb c1 "X") with false by (symmetry; other_char).
  replace (Ascii.eqb c1 "o") with false by (symmetry; other_char).
  replace (Ascii.eqb c1 "O") with false by (symmetry; other_char).
  replace (Ascii.eqb c1 "b") with false by (symmetry; other_char).
  replace (Ascii.eqb c1 "B") with false by (symmetry; other_char).
  reflexivity.
Qed.

(** [parseInt] on a non-empty string of decimal digits is the number the
    digits denote. *)
Lemma parseInt_digits (d : ascii) (ds : string) :
  allDigits (String d ds) = true ->
  parseInt (String d ds) = parseDigits 10 None (String d ds)
  /\ exists n, parseDigits 10 None (String d ds) = Some n.
Proof.
  intros Hall. pose proof Hall as Hall'.
  cbn [allDigits] in Hall. apply andb_prop in Hall as [Hd Hds].
  pose proof (digit_range d Hd) as Hr.
  assert (Hex : exists n, parseDigits 10 None (String d ds) = Some n).
  { cbn [parseDigits]. unfold digitValue. cbv zeta. rewrite Hd.
    replace (charCode d - 48 <? 10) with true by (symmetry; apply Z.ltb_lt; lia).
    apply parseDigits_acc_Some. }
  split; [|exact Hex].
  destruct Hex as [n Hn].
  unfold parseInt. cbn [trimStart].
  replace (isWhiteSpace d) with false.
  2:{ symmetry. unfold isWhiteSpace.
      repeat (apply orb_false_iff; split);
        [apply andb_false_iff; right; apply Z.leb_gt; lia
        | apply Z.eqb_neq; lia | apply Z.eqb_neq; lia]. }
  rewrite (digit_scanSign d ds Hd), (digits_radixPrefix _ Hall'), Hn.
  reflexivity.
Qed.

(** On a reference made of one letter and digits the source reads the
    anchor the specification describes. *)
Lemma parseStartCell_single_letter (c : ascii) (digits : string) :
  isColumnLetter c = true ->
  allDigits digits = true ->
  digits <> EmptyString ->
  exists r,
    cellReference (String c digits) = Some (r, charCode c - 64)
    /\ parseStartCell (String c digits) = Some (Some r, charCode c - 64).
Proof.
  intros Hc Hd Hne.
  destruct digits as [|d ds]; [congruence|].
  destruct (parseInt_digits d ds Hd) as [Hpi [n Hn]].
  assert (Hnl : isColumnLetter d = false).
  { cbn [allDigits] in Hd. apply andb_prop in Hd as [Hd0 _].
    apply digit_range in Hd0. unfold isColumnLetter.
    apply andb_false_iff. left. apply Z.leb_gt. lia. }
  exists n. split.
  - unfold cellReference. cbn [splitLetters]. rewrite Hc, Hnl.
    cbn [validColumn allColumnLetters]. rewrite Hc, Hd. cbn [andb].
    rewrite Hn. cbn [columnIndex String.length]. f_equal. f_equal. simpl. lia.
  - unfold parseStartCell. cbn [index0 slice1]. rewrite Hpi, Hn.
    f_equal. f_equal.
    unfold columnLetterToNumber. simpl. rewrite charCode_A. lia.
Qed.

(** A part of a string of letters is a string of letters. *)
Lemma allColumnLetters_app (p q : string) :
  allColumnLetters (p ++ q) = true ->
  allColumnLetters p = true /\ allColumnLetters q = true.
Proof.
  induction p as [|c p IH]; intros H; [now split|].
  change (String c p ++ q) with (String c (p ++ q)) in H.
  cbn [allColumnLetters] in H |- *. apply andb_prop in H as [Hc H].
  destruct (IH H) as [Hp Hq]. now rewrite Hc, Hp.
Qed.

Lemma length_append (p q : string) :
  String.length (p ++ q) = (String.length p + String.length q)%nat.
Proof.
  induction p as [|c p IH]; [reflexivity|].
  change (String c p ++ q) with (String c (p ++ q)).
  cbn [String.length]. now rewrite IH.
Qed.

(** C7.  On every valid column reference of up to eleven letters (the
    columns of a spreadsheet end at XFD, three letters)
    [columnLetterToNumber] returns the conventional 1-based column index:
    the base-26 positional value in which each letter counts
    [letter - 'A' + 1], so that A = 1, Z = 26, AA = 27, AZ = 52 and
    BA = 53.  On these references every number the loop computes, the
    value after each letter and the sums on the way to it, lies below
    2^53, where the source's double arithmetic is exact. *)
Theorem columnLetterToNumber_conventional :
  (forall letter : string,
     validColumn letter = true ->
     (String.length letter <= 11)%nat ->
     columnLetterToNumber letter = columnIndex letter
     /\ 1 <= columnLetterToNumber letter < 2 ^ 53
     /\ (forall read rest : string,
           letter = read ++ rest ->
           0 <= columnLetterToNumber read
           /\ columnLetterToNumber read + 64 < 2 ^ 53))
  /\ columnLetterToNumber "A" = 1
  /\ columnLetterToNumber "Z" = 26
  /\ columnLetterToNumber "AA" = 27
  /\ columnLetterToNumber "AZ" = 52
  /\ columnLetterToNumber "BA" = 53
  /\ columnLetterToNumber "XFD" = 16384.
Proof.
  split; [|repeat split; reflexivity].
  intros letter Hvalid Hlen.
  split; [|split].
  - unfold columnLetterToNumber. rewrite columnLetterToNumber_loop_spec. lia.
  - now apply columnLetterToNumber_safe.
  - intros read rest Hsplit.
    assert (Hall : allColumnLetters letter = true)
      by (destruct letter; [discriminate | exact Hvalid]).
    rewrite Hsplit in Hall, Hlen. apply allColumnLetters_app in Hall as [Hread _].
    rewrite length_append in Hlen.
    destruct (columnIndex_bounds read Hread) as [Hlo Hhi].
    assert (Hp : 26 ^ Z.of_nat (String.length read) <= 26 ^ 11)
      by (apply Z.pow_le_mono_r; lia).
    change (26 ^ 11) with 3670344486987776 in Hp.
    change (2 ^ 53) with 9007199254740992.
    unfold columnLetterToNumber. rewrite columnLetterToNumber_loop_spec. lia.
Qed.

Lemma letter_range (c : ascii) :
  isColumnLetter c = true -> 65 <= charCode c <= 90.
Proof.
  unfold isColumnLetter. intros H. apply andb_prop in H as [H1 H2].
  apply Z.leb_le in H1, H2. lia.
Qed.

(** [parseInt] on a string that starts with a letter is [NaN]. *)
Lemma parseInt_letter (c : ascii) (rest : string) :
  isColumnLetter c = true -> parseInt (String c rest) = None.
Proof.
  intros Hc. apply letter_range in Hc.
  unfold parseInt. cbn [trimStart].
  replace (isWhiteSpace c) with false.
  2:{ symmetry. unfold isWhiteSpace.
      repeat (apply orb_false_iff; split);
        [apply andb_false_iff; right; apply Z.leb_gt; lia
        | apply Z.eqb_neq; lia | apply Z.eqb_neq; lia]. }
  unfold scanSign.
  replace (Ascii.eqb c "-") with false by (symmetry; other_char).
  replace (Ascii.eqb c "+") with false by (symmetry; other_char).
  assert (Hrp : radixPrefix (String c rest) = None).
  { unfold radixPrefix. destruct rest as [|c1 rest']; [reflexivity|].
    replace (Ascii.eqb c "0") with false by (symmetry; other_char). reflexivity. }
  rewrite Hrp. cbn [parseDigits]. unfold digitValue. cbv zeta.
  replace (isDecimalDigit c) with false
    by (symmetry; unfold isDecimalDigit; apply andb_false_iff; right; apply Z.leb_gt; lia).
  replace ((97 <=? charCode c) && (charCode c <=? 122)) with false
    by (symmetry; apply andb_false_iff; left; apply Z.leb_gt; lia).
  replace ((65 <=? charCode c) && (charCode c <=? 90)) with true
    by (symmetry; apply andb_true_iff; split; apply Z.leb_le; lia).
  replace (charCode c - 55 <? 10) with false by (symmetry; apply Z.ltb_ge; lia).
  reflexivity.
Qed.

(** Every anchor with two letters or more is misread: the row is [NaN]
    and the column is that of the first letter alone. *)
Lemma parseStartCell_two_letters (c1 c2 : ascii) (rest : string) :
  isColumnLetter c2 = true ->
  parseStartCell (String c1 (String c2 rest)) = Some (None, charCode c1 - 64).
Proof.
  intros Hc2. unfold parseStartCell. cbn [index0 slice1].
  rewrite (parseInt_letter c2 rest Hc2). f_equal. f_equal.
  unfold columnLetterToNumber. simpl. rewrite charCode_A. lia.
Qed.

(** C1.  The anchor "AA3" is not read as the reference it is: the source
    takes the column from the first letter alone (1, not 27) and the row
    from the text after it, "A3", which has no leading digit ([NaN], not
    3). *)
Theorem parseStartCell_multi_letter :
  parseStartCell "AA3" = Some (None, 1)
  /\ cellReference "AA3" = Some (3, 27).
Proof. split; reflexivity. Qed.

End CoordinateFacts.

(* ===================================================================== *)
(** * Properties of the numbers *)
(* ===================================================================== *)

Module NumberFacts.
Import Js.

(** ** Integers below 2^53 are numbers *)

Lemma digits2_pos_iter (p k : positive) :
  digits2_pos (Pos.iter xO p k) = (digits2_pos p + k)%positive.
Proof.
  induction k as [|k IH] using Pos.peano_ind.
  - simpl. lia.
  - rewrite Pos.iter_succ. cbn [digits2_pos]. rewrite IH. lia.
Qed.

Lemma Zpos_iter_xO (p k : positive) :
  Zpos (Pos.iter xO p k) = Zpos p * 2 ^ Zpos k.
Proof.
  induction k as [|k IH] using Pos.peano_ind.
  - simpl. lia.
  - rewrite Pos.iter_succ, Pos2Z.inj_xO, IH, Pos2Z.inj_succ, Z.pow_succ_r by lia. ring.
Qed.

Lemma digits2_pos_lower (p : positive) :
  2 ^ (Zpos (digits2_pos p) - 1) <= Zpos p.
Proof.
  induction p as [p IH|p IH|]; cbn [digits2_pos].
  1,2: rewrite Pos2Z.inj_succ;
       replace (Z.succ (Zpos (digits2_pos p)) - 1)
         with (Z.succ (Zpos (digits2_pos p) - 1)) by lia;
       rewrite Z.pow_succ_r by lia; lia.
  simpl. lia.
Qed.

Lemma digits2_pos_le (p : positive) (b : Z) :
  0 <= b -> Zpos p < 2 ^ b -> Zpos (digits2_pos p) <= b.
Proof.
  intros Hb Hp. pose proof (digits2_pos_lower p) as Hl.
  destruct (Z_le_gt_dec (Zpos (digits2_pos p)) b) as [|Hgt]; [assumption|].
  exfalso.
  assert (2 ^ b <= 2 ^ (Zpos (digits2_pos p) - 1)) by (apply Z.pow_le_mono_r; lia).
  lia.
Qed.

(** A mantissa of exactly 53 bits with an exponent in range is left as
    it is. *)
Lemma binary_round_aux_canonical (s : bool) (m : positive) (e : Z) :
  digits2_pos m = 53%positive -> -1074 <= e <= 971 ->
  binary_round_aux prec emax s (Zpos m) e loc_Exact = S754_finite s m e.
Proof.
  intros Hd He.
  assert (Hshr : shr_fexp prec emax (Zpos m) e loc_Exact
                 = ({| shr_m := Zpos m; shr_r := false; shr_s := false |}, e)).
  { unfold shr_fexp. cbn [Zdigits2]. rewrite Hd.
    unfold fexp, emin, prec, emax.
    replace (Z.max (53 + e - 53) (3 - 1024 - 53) - e) with 0 by lia.
    reflexivity. }
  unfold binary_round_aux. rewrite Hshr. cbn [shr_m loc_of_shr_record round_nearest_even].
  rewrite Hshr. cbn [shr_m].
  unfold emax, prec. replace (e <=? 1024 - 53) with true by (symmetry; apply Z.leb_le; lia).
  reflexivity.
Qed.

Lemma binary_round_integer (s : bool) (p : positive) :
  Zpos p < 2 ^ 53 ->
  exists m e,
    binary_round prec emax s p 0 = S754_finite s m e
    /\ e <= 0 /\ Zpos m = Zpos p * 2 ^ (- e).
Proof.
  intros Hp.
  pose proof (digits2_pos_le p 53 ltac:(lia) Hp) as Hd.
  unfold binary_round.
  unfold fexp, emin, prec, emax.
  replace (Z.max (Zpos (digits2_pos p) + 0 - 53) (3 - 1024 - 53))
    with (Zpos (digits2_pos p) - 53) by lia.
  unfold shl_align.
  destruct (Zpos (digits2_pos p) - 53 - 0) as [|k|k] eqn:E; try lia.
  - exists p, 0. split; [|split; [lia | simpl; lia]].
    apply (binary_round_aux_canonical s p 0); [lia | lia].
  - exists (Pos.iter xO p k), (Zpos (digits2_pos p) - 53).
    split; [|split; [lia|]].
    + apply (binary_round_aux_canonical s); [rewrite digits2_pos_iter; lia | lia].
    + rewrite Zpos_iter_xO. f_equal. f_equal. lia.
Qed.

Lemma integerToNumber_exact (n : Z) :
  n <> 0 -> Z.abs n < 2 ^ 53 ->
  exists m e,
    integerToNumber n = S754_finite (n <? 0) m e
    /\ e <= 0 /\ cond_Zopp (n <? 0) (Zpos m) = n * 2 ^ (- e).
Proof.
  intros Hn Hb. unfold integerToNumber, binary_normalize.
  destruct n as [|p|p]; [congruence| |].
  - destruct (binary_round_integer false p ltac:(lia)) as (m & e & H1 & H2 & H3).
    exists m, e. split; [exact H1|]. split; [exact H2|]. simpl. exact H3.
  - destruct (binary_round_integer true p ltac:(lia)) as (m & e & H1 & H2 & H3).
    exists m, e. split; [exact H1|]. split; [exact H2|]. simpl cond_Zopp.
    change (Z.neg m) with (- Z.pos m). change (Z.neg p) with (- Z.pos p).
    rewrite H3. ring.
Qed.

(** The integer is what the number denotes: [integerToNumber n] is
    [m * 2^e] with [e <= 0] and [m = |n| * 2^(-e)], signed as [n]. *)
Example integerToNumber_43 :
  integerToNumber 43 = S754_finite false 6051711999279104 (-47)
  /\ 6051711999279104 = 43 * 2 ^ 47.
Proof. split; reflexivity. Qed.

(** ** Rounding *)

(** [floor(sm / 2^k + 1/2)] is the integer [n] with
    [n <= sm / 2^k + 1/2 < n + 1], here cleared of fractions. *)
Lemma roundHalfUp_spec (sm k : Z) :
  0 <= k ->
  let n := roundHalfUp sm k in
  n * 2 ^ (k + 1) <= 2 * sm + 2 ^ k < (n + 1) * 2 ^ (k + 1).
Proof.
  intros Hk n. subst n. unfold roundHalfUp.
  assert (Hpos : 0 < 2 ^ (k + 1)) by (apply Z.pow_pos_nonneg; lia).
  pose proof (Z.div_mod (2 * sm + 2 ^ k) (2 ^ (k + 1)) ltac:(lia)) as Hdm.
  pose proof (Z.mod_pos_bound (2 * sm + 2 ^ k) (2 ^ (k + 1)) Hpos) as Hb.
  nia.
Qed.

(** A half goes up, whatever the sign: 2.5 gives 3 and -2.5 gives -2. *)
Lemma roundHalfUp_half (q k : Z) :
  0 < k -> roundHalfUp (2 * q * 2 ^ (k - 1) + 2 ^ (k - 1)) k = q + 1.
Proof.
  intros Hk. unfold roundHalfUp.
  replace (k + 1) with (Z.succ k) by lia. rewrite Z.pow_succ_r by lia.
  assert (Hkk : 2 ^ k = 2 * 2 ^ (k - 1)).
  { replace k with (Z.succ (k - 1)) at 1 by lia. apply Z.pow_succ_r. lia. }
  assert (Hpos : 0 < 2 ^ (k - 1)) by (apply Z.pow_pos_nonneg; lia).
  rewrite Hkk.
  replace (2 * (2 * q * 2 ^ (k - 1) + 2 ^ (k - 1)) + 2 * 2 ^ (k - 1))
    with ((q + 1) * (2 * (2 * 2 ^ (k - 1)))) by ring.
  apply Z.div_mul. lia.
Qed.

(** The rounding of a 53-bit mantissa with a fraction fits 53 bits. *)
Lemma roundHalfUp_bound (sm k : Z) :
  0 < k -> Z.abs sm < 2 ^ 53 -> Z.abs (roundHalfUp sm k) < 2 ^ 53.
Proof.
  intros Hk Hsm.
  pose proof (roundHalfUp_spec sm k ltac:(lia)) as H. cbv zeta in H.
  replace (k + 1) with (Z.succ k) in H by lia. rewrite Z.pow_succ_r in H by lia.
  assert (HP : 2 <= 2 ^ k).
  { change 2 with (2 ^ 1) at 1. apply Z.pow_le_mono_r; lia. }
  set (P := 2 ^ k) in *. set (n := roundHalfUp sm k) in *.
  change (2 ^ 53) with 9007199254740992 in *.
  apply Z.abs_lt. apply Z.abs_lt in Hsm. split; nia.
Qed.

(** What [Math.round] returns on a finite number [x = sm * 2^e]: [x]
    itself when it is integral ([e >= 0]); otherwise the number of the
    integer [n = floor(x + 1/2)], and a zero of the sign of [x] when that
    integer is 0. *)
Lemma Math_round_finite (s : bool) (m : positive) (e : Z) :
  let sm := cond_Zopp s (Zpos m) in
  (0 <= e -> Math_round (S754_finite s m e) = S754_finite s m e)
  /\ (e < 0 ->
      exists n : Z,
        n * 2 ^ (- e + 1) <= 2 * sm + 2 ^ (- e) < (n + 1) * 2 ^ (- e + 1)
        /\ Math_round (S754_finite s m e)
           = if n =? 0 then S754_zero s else integerToNumber n).
Proof.
  intros sm. split; intros He; unfold Math_round.
  - replace (0 <=? e) with true by (symmetry; apply Z.leb_le; lia). reflexivity.
  - replace (0 <=? e) with false by (symmetry; apply Z.leb_gt; lia).
    exists (roundHalfUp sm (- e)). split; [|reflexivity].
    apply roundHalfUp_spec. lia.
Qed.

(** On a number with a fraction and a mantissa of at most 53 bits (every
    binary64 number has one), [Math.round] returns a zero or a number
    that denotes the rounded integer exactly. *)
Lemma Math_round_integral (s : bool) (m : positive) (e : Z) :
  Zpos m < 2 ^ 53 -> e < 0 ->
  let n := roundHalfUp (cond_Zopp s (Zpos m)) (- e) in
  (n = 0 /\ Math_round (S754_finite s m e) = S754_zero s)
  \/ (exists m' e',
        Math_round (S754_finite s m e) = S754_finite (n <? 0) m' e'
        /\ e' <= 0 /\ cond_Zopp (n <? 0) (Zpos m') = n * 2 ^ (- e')).
Proof.
  intros Hm He n. unfold Math_round.
  replace (0 <=? e) with false by (symmetry; apply Z.leb_gt; lia).
  fold n. destruct (Z.eqb_spec n 0) as [Hz|Hnz]; [left; now split|right].
  apply integerToNumber_exact; [exact Hnz|].
  apply roundHalfUp_bound; [lia|]. destruct s; simpl; lia.
Qed.

End NumberFacts.

(* ===================================================================== *)
(** * Properties of the cell formatter *)
(* ===================================================================== *)

Module FormatterFacts.
Import Js Excel NumberFacts.

(** A cell whose [type] is not "formula" takes the second branch of the
    cell loop. *)
Lemma static_type (type : option string) :
  type <> Some "formula" ->
  String.eqb (default "static_value" type) "formula" = false.
Proof.
  intros Hty. destruct type as [t|]; [|reflexivity]. simpl.
  apply String.eqb_neq. intros ->. now apply Hty.
Qed.

(** C6.  A cell that is not a formula, in a column of type number that
    names no format: the number format assigned is "0"; the value
    assigned is the raw literal when [Number] of it is [NaN], and
    otherwise [Math.round] of that number, which for a finite non-integral
    number [sm * 2^e] is the integer [n] with [n <= x + 1/2 < n + 1]
    (nearest integer, a half going up); "42.7" is stored as 43. *)
Theorem number_cell_rounded
    (Number_toString : spec_float -> string) (newDate : Prim -> option Z)
    (name : string) (type : option string) (value : Prim) :
  type <> Some "formula" ->
  let col := {| col_name := name; col_type := Some "number"; col_format := None |} in
  let cellValue := if notNullish value then value else PStr "" in
  let w := formatCell Number_toString newDate (col_type col) (columnFormat col)
             {| cd_type := type; cd_value := value |} in
  w_numFmt w = Some (Some "0")
  /\ (isNaN (Number cellValue) = true -> w_value w = VPrim cellValue)
  /\ (isNaN (Number cellValue) = false ->
      w_value w = VPrim (PNum (Math_round (Number cellValue))))
  /\ (forall s m e, Number cellValue = S754_finite s m e -> e < 0 ->
      exists n : Z,
        n * 2 ^ (- e + 1) <= 2 * cond_Zopp s (Zpos m) + 2 ^ (- e) < (n + 1) * 2 ^ (- e + 1)
        /\ w_value w = VPrim (PNum (if n =? 0 then S754_zero s else integerToNumber n)))
  /\ (value = PStr "42.7" -> w_value w = VPrim (PNum (integerToNumber 43))).
Proof.
  intros Hty col cellValue w.
  pose proof (static_type type Hty) as Hstatic.
  assert (Hw : w = {| w_value :=
                        if negb (isNaN (Number cellValue))
                        then VPrim (PNum (Math_round (Number cellValue)))
                        else VPrim cellValue;
                      w_numFmt := Some (Some "0") |}).
  { subst w. unfold formatCell. cbn [cd_type cd_value]. rewrite Hstatic. reflexivity. }
  rewrite Hw. cbn [w_value w_numFmt].
  split; [reflexivity|].
  split; [intros ->; reflexivity|].
  split; [intros ->; reflexivity|].
  split.
  - intros s m e Hx He. rewrite Hx. cbn [isNaN negb].
    destruct (Math_round_finite s m e) as [_ Hr].
    destruct (Hr He) as [n [Hn Heq]]. exists n. split; [exact Hn|]. now rewrite Heq.
  - intros ->. subst cellValue. vm_compute. reflexivity.
Qed.

Lemma number_cell_rounded_witness :
  exists w,
    w = formatCell (fun _ => "") (fun _ => None) (Some "number") None
          {| cd_type := Some "static_value"; cd_value := PStr "-2.5" |}
    /\ w_numFmt w = Some (Some "0")
    /\ w_value w = VPrim (PNum (integerToNumber (-2))).
Proof.
  eexists. split; [reflexivity|].
  pose proof (number_cell_rounded (fun _ => "") (fun _ => None) "Qty"
                (Some "static_value") (PStr "-2.5") ltac:(discriminate)) as H.
  cbv zeta in H. destruct H as [Hf [_ [Hv _]]].
  split; [exact Hf|].
  etransitivity; [apply Hv; reflexivity | reflexivity].
Defined.

(** C9.  A cell that is not a formula, in a column of type boolean: the
    value assigned is the truthiness of the input once [null] (and an
    absent value) has become the empty string.  Every non-empty string is
    stored as [true], "false" and "0" included; [null], the empty string
    and the number 0 are stored as [false]. *)
Theorem boolean_cell_truthiness
    (Number_toString : spec_float -> string) (newDate : Prim -> option Z)
    (format : option string) (type : option string) (value : Prim) :
  type <> Some "formula" ->
  let w := formatCell Number_toString newDate (Some "boolean") format
             {| cd_type := type; cd_value := value |} in
  w_value w = VPrim (PBool (Boolean (if notNullish value then value else PStr "")))
  /\ w_numFmt w = None
  /\ (forall s, value = PStr s -> s <> "" -> w_value w = VPrim (PBool true))
  /\ (value = PStr "false" \/ value = PStr "0" -> w_value w = VPrim (PBool true))
  /\ (value = PNull \/ value = PStr "" \/ value = PNum (S754_zero false) ->
      w_value w = VPrim (PBool false)).
Proof.
  intros Hty w.
  pose proof (static_type type Hty) as Hstatic.
  assert (Hw : w = {| w_value :=
                        VPrim (PBool (Boolean (if notNullish value then value else PStr "")));
                      w_numFmt := None |}).
  { subst w. unfold formatCell. cbn [cd_type cd_value]. rewrite Hstatic. reflexivity. }
  rewrite Hw. cbn [w_value w_numFmt].
  split; [reflexivity|]. split; [reflexivity|].
  split; [|split].
  - intros s -> Hs. destruct s; [congruence | reflexivity].
  - intros [-> | ->]; reflexivity.
  - intros [-> | [-> | ->]]; reflexivity.
Qed.

Lemma boolean_cell_truthiness_witness :
  w_value (formatCell (fun _ => "") (fun _ => None) (Some "boolean") None
             {| cd_type := Some "static_value"; cd_value := PStr "false" |})
  = VPrim (PBool true).
Proof.
  pose proof (boolean_cell_truthiness (fun _ => "") (fun _ => None) None
                (Some "static_value") (PStr "false") ltac:(discriminate)) as H.
  cbv zeta in H. destruct H as [_ [_ [_ [H _]]]].
  apply H. left. reflexivity.
Defined.

End FormatterFacts.

(* ===================================================================== *)
(** * Properties of the layout engine *)
(* ===================================================================== *)

Module LayoutFacts.
Import Js Coordinate Excel.

Lemma rowAdd_rowAdd (r : option Z) (a b : Z) :
  rowAdd (rowAdd r a) b = rowAdd r (a + b).
Proof. destruct r; simpl; [f_equal; lia | reflexivity]. Qed.

Lemma rowAdd_0 (r : option Z) : rowAdd r 0 = r.
Proof. destruct r; simpl; [f_equal; lia | reflexivity]. Qed.

Section Layout.

Variable Number_toString : spec_float -> string.
Variable newDate : Prim -> option Z.
Variable Date_toString : Z -> string.
Variable cfg : ExcelConfig.

(** ** The row cursor *)

Lemma placeTitle_row (tbl : Table) (startCol : Z) (st : Worksheet * option Z) :
  snd (placeTitle cfg tbl startCol st)
  = rowAdd (snd st) (if hasTitle tbl then 1 else 0).
Proof.
  destruct st as [ws r]. unfold placeTitle, hasTitle.
  destruct (orElse (title tbl) None); simpl; [reflexivity | now rewrite rowAdd_0].
Qed.

Lemma placeHeader_row (tbl : Table) (startCol : Z) (st : Worksheet * option Z) :
  snd (placeHeader cfg tbl startCol st)
  = rowAdd (snd st) (if skipHeader tbl then 0 else 1).
Proof.
  destruct st as [ws r]. unfold placeHeader.
  destruct (skipHeader tbl); simpl; [now rewrite rowAdd_0 | reflexivity].
Qed.

Lemma placeRows_row (tbl : Table) (startCol : Z) (rs : list (list CellData)) :
  forall st,
    snd (fold_left (placeRow Number_toString newDate cfg tbl startCol) rs st)
    = rowAdd (snd st) (Z.of_nat (length rs)).
Proof.
  induction rs as [|row rest IH]; intros [ws r].
  - simpl. now rewrite rowAdd_0.
  - cbn [fold_left]. rewrite IH. cbn [placeRow snd].
    rewrite rowAdd_rowAdd. f_equal. cbn [length]. lia.
Qed.

(** ** The autofilter property *)

Lemma autoFitColumns_autoFilter (startRow : option Z) (rs : list (list CellData))
    (startCol : Z) (n : nat) (ws : Worksheet) :
  ws_autoFilter (autoFitColumns Number_toString Date_toString ws startRow rs n startCol)
  = ws_autoFilter ws.
Proof.
  unfold autoFitColumns. generalize (seq 0 n) as l. intros l. revert ws.
  induction l as [|i l IH]; intros ws; [reflexivity|].
  cbn [fold_left]. now rewrite IH.
Qed.

(** Writing cells leaves the autofilter property as it is. *)
Lemma forEachIdx_autoFilter {A : Type} (f : Worksheet -> A -> nat -> Worksheet)
    (Hf : forall ws x i, ws_autoFilter (f ws x i) = ws_autoFilter ws) (l : list A) :
  forall i ws, ws_autoFilter (forEachIdx f l i ws) = ws_autoFilter ws.
Proof.
  induction l as [|x l IH]; intros i ws; [reflexivity|].
  cbn [forEachIdx]. now rewrite IH, Hf.
Qed.

Lemma applyWrite_autoFilter (ws : Worksheet) (r : option Z) (c : Z) (w : CellWrite) :
  ws_autoFilter (applyWrite ws r c w) = ws_autoFilter ws.
Proof. unfold applyWrite. destruct (w_numFmt w); reflexivity. Qed.

Lemma placeTitle_autoFilter (tbl : Table) (startCol : Z) (st : Worksheet * option Z) :
  ws_autoFilter (fst (placeTitle cfg tbl startCol st)) = ws_autoFilter (fst st).
Proof.
  destruct st as [ws r]. unfold placeTitle.
  destruct (orElse (title tbl) None); reflexivity.
Qed.

Lemma placeHeader_autoFilter (tbl : Table) (startCol : Z) (st : Worksheet * option Z) :
  ws_autoFilter (fst (placeHeader cfg tbl startCol st)) = ws_autoFilter (fst st).
Proof.
  destruct st as [ws r]. unfold placeHeader. destruct (skipHeader tbl); [reflexivity|].
  cbn [negb fst]. now apply forEachIdx_autoFilter.
Qed.

Lemma placeRows_autoFilter (tbl : Table) (startCol : Z) (rs : list (list CellData)) :
  forall st,
    ws_autoFilter (fst (fold_left (placeRow Number_toString newDate cfg tbl startCol) rs st))
    = ws_autoFilter (fst st).
Proof.
  induction rs as [|row rest IH]; intros [ws r]; [reflexivity|].
  cbn [fold_left]. rewrite IH. cbn [placeRow fst].
  apply forEachIdx_autoFilter. intros ws0 x i.
  cbn [setStyle updateCell ws_autoFilter]. apply applyWrite_autoFilter.
Qed.

Lemma placeAutoFilter_field (tbl : Table) (startRow : option Z) (startCol : Z)
    (st : Worksheet * option Z) :
  ws_autoFilter (fst (placeAutoFilter cfg tbl startRow startCol st))
  = if autoFilter cfg
    then Some {| from_row := rowAdd startRow 1;
                 from_column := startCol;
                 to_row := rowAdd (snd st) (-1);
                 to_column := startCol + Z.of_nat (length (columns tbl)) - 1 |}
    else ws_autoFilter (fst st).
Proof.
  destruct st as [ws r]. unfold placeAutoFilter.
  destruct (autoFilter cfg); reflexivity.
Qed.

(** What [placeTable] leaves in the autofilter property: the range of the
    table when [config.autoFilter] is set, and what was there before when
    it is not. *)
Lemma placeTable_autoFilter (ws ws' : Worksheet) (tbl : Table) :
  placeTable Number_toString newDate Date_toString cfg ws tbl = Some ws' ->
  exists startRow startCol,
    parseStartCell (default "A1" (startCell tbl)) = Some (startRow, startCol)
    /\ ws_autoFilter ws'
       = if autoFilter cfg
         then Some (tableAutoFilter tbl startRow startCol)
         else ws_autoFilter ws.
Proof.
  unfold placeTable.
  destruct (parseStartCell (default "A1" (startCell tbl))) as [[startRow startCol]|];
    [|discriminate].
  intros H. apply (inj Some) in H. rewrite <- H. clear H.
  exists startRow, startCol. split; [reflexivity|].
  assert (Hfit : forall w : Worksheet,
             ws_autoFilter
               (if autoFitColumnWidth cfg
                then autoFitColumns Number_toString Date_toString w startRow
                       (rows tbl) (length (columns tbl)) startCol
                else w)
             = ws_autoFilter w).
  { intros w. destruct (autoFitColumnWidth cfg);
      [apply autoFitColumns_autoFilter | reflexivity]. }
  rewrite Hfit, placeAutoFilter_field.
  rewrite placeRows_row, placeHeader_row, placeTitle_row.
  rewrite placeRows_autoFilter, placeHeader_autoFilter, placeTitle_autoFilter.
  cbn [fst snd]. destruct (autoFilter cfg); [|reflexivity].
  unfold tableAutoFilter, tableHeight. rewrite !rowAdd_rowAdd.
  do 3 f_equal. lia.
Qed.


(** ** The autofit pass *)

(** The rows count in [columnMaxLength] through their shape alone: two
    grids whose rows have the same lengths give the same length, whatever
    their cells hold. *)
Lemma columnMaxLength_shape (ws : Worksheet) (startRow : option Z) (startCol : Z)
    (colIdx : nat) (rs rs' : list (list CellData)) :
  map length rs = map length rs' ->
  columnMaxLength Number_toString Date_toString ws startRow rs startCol colIdx
  = columnMaxLength Number_toString Date_toString ws startRow rs' startCol colIdx.
Proof.
  intros Hshape. unfold columnMaxLength.
  match goal with
  | |- match _ with Some _ => Z.max (fold_left ?f rs ?a) _ | None => _ end = _ =>
      assert (Hfold : forall acc, fold_left f rs acc = fold_left f rs' acc)
  end.
  { revert rs' Hshape.
    induction rs as [|row rest IH]; intros [|row' rest'] Hshape acc;
      try discriminate; [reflexivity|].
    cbn [map] in Hshape. injection Hshape as Hlen Hrest.
    cbn [fold_left].
    assert (Hrow : is_Some (row !! colIdx) <-> is_Some (row' !! colIdx))
      by (rewrite !lookup_lt_is_Some, Hlen; reflexivity).
    destruct (row !! colIdx) as [x|] eqn:E, (row' !! colIdx) as [x'|] eqn:E'.
    - now apply IH.
    - destruct Hrow as [Hrow _]. destruct (Hrow ltac:(eauto)) as [? ?]. discriminate.
    - destruct Hrow as [_ Hrow]. destruct (Hrow ltac:(eauto)) as [? ?]. discriminate.
    - now apply IH. }
  rewrite Hfold. reflexivity.
Qed.


Lemma autoFitColumns_shape (ws : Worksheet) (startRow : option Z) (startCol : Z)
    (n : nat) (rs rs' : list (list CellData)) :
  map length rs = map length rs' ->
  autoFitColumns Number_toString Date_toString ws startRow rs n startCol
  = autoFitColumns Number_toString Date_toString ws startRow rs' n startCol.
Proof.
  intros Hshape. unfold autoFitColumns. generalize (seq 0 n) as l. intros l. revert ws.
  induction l as [|i l IH]; intros ws; [reflexivity|].
  cbn [fold_left]. rewrite (columnMaxLength_shape ws startRow startCol i rs rs' Hshape).
  apply IH.
Qed.

End Layout.

Import Samples.

(** C2.  The autofit width is not two more than the longest text of the
    column.  For the column "Name" holding "Al" the source sets the width
    17 where the specification gives 6, and for a value of twenty
    characters it still sets 17 where the specification gives 22: what is
    measured in a data row is the request's cell object, whose string is
    "[object Object]", and never the value written. *)
Theorem autoFit_measures_cell_objects :
  (forall Number_toString newDate Date_toString,
     (fun ws => ws_widths ws !! 1) <$>
       placeTable Number_toString newDate Date_toString
         (config false true) (addWorksheet "Report") namesTable
     = Some (Some 17))
  /\ specifiedWidth "Name" ["Al"] = 6
  /\ (forall Number_toString newDate Date_toString,
        (fun ws => ws_widths ws !! 1) <$>
          placeTable Number_toString newDate Date_toString
            (config false true) (addWorksheet "Report") longNamesTable
        = Some (Some 17))
  /\ specifiedWidth "Name" ["Alexandria-Ocasio-Co"] = 22.
Proof.
  split; [|split; [|split]]; try reflexivity.
Qed.

(** Under a title the cell measured as the header is the title: the
    header is one row below [startRow], where the pass reads.  The column
    "Quantity" under the title "T" gets the width 3, not 10. *)
Lemma autoFit_measures_title_row :
  (forall Number_toString newDate Date_toString,
     (fun ws => ws_widths ws !! 1) <$>
       placeTable Number_toString newDate Date_toString
         (config false true) (addWorksheet "Report") quantityTable
     = Some (Some 3))
  /\ specifiedWidth "Quantity" [] = 10.
Proof. split; reflexivity. Qed.






End LayoutFacts.

(* ===================================================================== *)
(** * Properties of the retention sweeper *)
(* ===================================================================== *)

Module SweeperFacts.
Import Sweeper.

(** What [sweepFile] does to the entry it visits, and that it touches no
    other. *)
Lemma sweepFile_same (now : Z) (dir : gmap string Entry) (file : string) :
  sweepFile now dir file !! file
  = match dir !! file with
    | Some e => if removed now e then None else Some e
    | None => None
    end.
Proof.
  unfold sweepFile, removed.
  destruct (dir !! file) as [e|] eqn:E; [|exact E].
  destruct (mtime e) as [t|]; [|exact E].
  destruct (now - t >? oneHour); [|exact E].
  destruct (removable e); [apply lookup_delete_eq | exact E].
Qed.

Lemma sweepFile_other (now : Z) (dir : gmap string Entry) (file other : string) :
  file <> other -> sweepFile now dir file !! other = dir !! other.
Proof.
  intros Hne. unfold sweepFile.
  destruct (dir !! file) as [e|]; [|reflexivity].
  destruct (mtime e) as [t|]; [|reflexivity].
  destruct (now - t >? oneHour); [|reflexivity].
  destruct (removable e); [now apply lookup_delete_ne | reflexivity].
Qed.

(** After the visits of [files], an entry that was listed is as
    [sweepFile] leaves it, and an entry that was not is as before. *)
Lemma sweep_files_lookup (now : Z) (files : list string) (file : string) :
  forall dir,
    fold_left (sweepFile now) files dir !! file
    = if decide (file ∈ files)
      then match dir !! file with
           | Some e => if removed now e then None else Some e
           | None => None
           end
      else dir !! file.
Proof.
  induction files as [|f files IH]; intros dir; cbn [fold_left].
  - destruct (decide (file ∈ [])) as [Hin|]; [|reflexivity].
    now apply elem_of_nil in Hin.
  - rewrite IH. destruct (decide (f = file)) as [->|Hne].
    + rewrite sweepFile_same.
      destruct (decide (file ∈ file :: files)) as [_|Hout];
        [|exfalso; apply Hout; left].
      destruct (dir !! file) as [e|]; [|now destruct (decide (file ∈ files))].
      destruct (removed now e) eqn:R; destruct (decide (file ∈ files));
        try reflexivity.
      now rewrite R.
    + rewrite (sweepFile_other now dir f file Hne).
      destruct (decide (file ∈ files)) as [Hin|Hout],
               (decide (file ∈ f :: files)) as [Hin'|Hout']; try reflexivity.
      * exfalso. apply Hout'. now right.
      * exfalso. apply elem_of_cons in Hin' as [->|Hin']; [now apply Hne | now apply Hout].
Qed.

Lemma readdir_lists (dir : gmap string Entry) (file : string) (e : Entry) :
  dir !! file = Some e -> exists files, readdir dir = Some files /\ file ∈ files.
Proof.
  intros H. eexists. split; [reflexivity|].
  apply list_elem_of_fmap. exists (file, e). split; [reflexivity|].
  now apply elem_of_map_to_list.
Qed.

(** C8.  One sweep of the output directory at time [now]: a file whose
    modification time [t] is read and which can be unlinked is deleted if
    and only if [now - t] exceeds one hour, 3,600,000 ms; a file modified
    61 minutes ago goes, a file modified 59 minutes ago (or exactly one
    hour ago) stays. *)
Theorem sweep_deletes_after_one_hour (now t : Z) (dir : gmap string Entry) (file : string) :
  dir !! file = Some {| mtime := Some t; removable := true |} ->
  oneHour = 3600000
  /\ (sweep now (readdir dir) dir !! file = None <-> now - t > 3600000)
  /\ (now - t <= 3600000 ->
      sweep now (readdir dir) dir !! file = Some {| mtime := Some t; removable := true |})
  /\ (t = now - 61 * 60000 -> sweep now (readdir dir) dir !! file = None)
  /\ (t = now - 59 * 60000 ->
      sweep now (readdir dir) dir !! file = Some {| mtime := Some t; removable := true |}).
Proof.
  intros Hfile.
  destruct (readdir_lists dir file _ Hfile) as (files & -> & Hin).
  cbn [sweep]. rewrite sweep_files_lookup, Hfile.
  destruct (decide (file ∈ files)) as [_|Hout]; [|contradiction].
  unfold removed. cbn [mtime removable]. rewrite andb_true_r.
  change oneHour with 3600000.
  destruct (now - t >? 3600000) eqn:E.
  - apply Z.gtb_gt in E. repeat split; try reflexivity; intros; try lia.
  - assert (now - t <= 3600000).
    { destruct (Z.gtb_spec (now - t) 3600000); [discriminate | lia]. }
    repeat split; try reflexivity; intros; try discriminate; try lia.
Qed.

Lemma sweep_deletes_after_one_hour_witness :
  let old := {| mtime := Some (10000000 - 61 * 60000); removable := true |} in
  let recent := {| mtime := Some (10000000 - 59 * 60000); removable := true |} in
  let dir : gmap string Entry :=
    <["excel-file-1.xlsx" := old]> (<["excel-file-2.xlsx" := recent]> ∅) in
  sweep 10000000 (readdir dir) dir !! "excel-file-1.xlsx" = None
  /\ sweep 10000000 (readdir dir) dir !! "excel-file-2.xlsx" = Some recent.
Proof.
  intros old recent dir. split.
  - apply (sweep_deletes_after_one_hour 10000000 (10000000 - 61 * 60000) dir
             "excel-file-1.xlsx" eq_refl).
    reflexivity.
  - apply (sweep_deletes_after_one_hour 10000000 (10000000 - 59 * 60000) dir
             "excel-file-2.xlsx" eq_refl).
    reflexivity.
Defined.

(** A file whose [stat] fails, or whose [unlink] fails, stays whatever its
    age; and nothing is deleted when the directory cannot be listed. *)
Lemma sweep_keeps_on_failure (now : Z) (dir : gmap string Entry) (file : string) (e : Entry) :
  dir !! file = Some e ->
  mtime e = None \/ removable e = false ->
  sweep now (readdir dir) dir !! file = Some e.
Proof.
  intros Hfile Hfail.
  destruct (readdir_lists dir file _ Hfile) as (files & -> & Hin).
  cbn [sweep]. rewrite sweep_files_lookup, Hfile.
  destruct (decide (file ∈ files)) as [_|Hout]; [|contradiction].
  unfold removed. destruct Hfail as [-> | Hr]; [reflexivity|].
  rewrite Hr. destruct (mtime e); [rewrite andb_false_r|]; reflexivity.
Qed.

End SweeperFacts.

(* ===================================================================== *)
(** * Properties of the request handlers *)
(* ===================================================================== *)

Module HttpFacts.
Import Js Excel Http Samples.

(** C3.  A request to the read-content endpoint whose [url] is missing
    gets no response at all: the handler builds the 400 envelope and
    returns it, and nothing is sent to the client.  The same holds for
    every [url] that is not a string. *)
Theorem getContent_sends_nothing_without_url
    (fetchAndCleanContent : string -> string + string * string) :
  sent (runHandler (getContent fetchAndCleanContent QAbsent) idle) = []
  /\ effects (getContent fetchAndCleanContent QAbsent) = []
  /\ (statusCode <$> returned (getContent fetchAndCleanContent QAbsent)) = Some 400
  /\ (forall url,
        match url with
        | QString _ => True
        | _ => sent (runHandler (getContent fetchAndCleanContent url) idle) = []
        end).
Proof.
  repeat split. intros [| |l|fields]; first [exact I | reflexivity].
Qed.

(** With a string for [url] a response is always sent: 200 or 500. *)
Lemma getContent_string_responds
    (fetchAndCleanContent : string -> string + string * string) (u : string) :
  exists r,
    sent (runHandler (getContent fetchAndCleanContent (QString u)) idle) = [r]
    /\ (statusCode r = 200 \/ statusCode r = 500).
Proof.
  unfold getContent.
  destruct (fetchAndCleanContent u) as [msg|[title content]]; eexists;
    (split; [reflexivity|]); [right | left]; reflexivity.
Qed.

Section Generate.

Variable Number_toString : spec_float -> string.
Variable newDate : Prim -> option Z.
Variable Date_toString : Z -> string.
Variable DEFAULT_borderStyle : option string.
Variable DEFAULT_wrapText : bool.
Variable exportsDir : string.
Variable RENDER_EXTERNAL_URL : option string.
Variable typeErrorMessage : string -> string.

Abbreviation handler :=
  (generate Number_toString newDate Date_toString DEFAULT_borderStyle
     DEFAULT_wrapText exportsDir RENDER_EXTERNAL_URL typeErrorMessage).

(** Every run of the handler sends exactly one response; when that
    response is the success, the write of the file it points to has been
    started in the same turn and has not finished. *)
Lemma generate_runs (now : string) (body : GenerateBody) :
  let st := runHandler (handler now body) idle in
  exists r,
    sent st = [r] /\ written st = []
    /\ (success r = true ->
        exists fileName,
          r = generated RENDER_EXTERNAL_URL fileName
          /\ pendingWrites st = [fileName]).
Proof.
  unfold generate.
  assert (Hfail : forall r : ServiceResponse,
             success r = false ->
             exists r',
               sent (runHandler (respond r) idle) = [r']
               /\ written (runHandler (respond r) idle) = []
               /\ (success r' = true ->
                   exists fileName,
                     r' = generated RENDER_EXTERNAL_URL fileName
                     /\ pendingWrites (runHandler (respond r) idle) = [fileName])).
  { intros r Hr. exists r. split; [reflexivity|]. split; [reflexivity|].
    intros Hs. rewrite Hs in Hr. discriminate. }
  destruct (sheetsData body) as [[|sheet sheets]|];
    [now apply Hfail | | now apply Hfail].
  destruct (excelConfigs body) as [o|]; [|now apply Hfail].
  unfold execGenExcelFuncs.
  match goal with
  | |- context [buildWorkbook ?n ?d ?t ?c ?l] =>
      destruct (buildWorkbook n d t c l) as [workbook|]
  end; [|now apply Hfail].
  eexists. split; [reflexivity|]. split; [reflexivity|].
  intros _. eexists. split; reflexivity.
Qed.

End Generate.

(** Whenever the generate handler sends a success response, it does so in
    the turn in which it has started the serialization of the workbook,
    without waiting for it: the response carries the download URL of the
    file, the write of that file is pending and nothing has been written
    yet. *)
Lemma generate_sends_while_write_pending
    (Number_toString : spec_float -> string) (newDate : Prim -> option Z)
    (Date_toString : Z -> string)
    (DEFAULT_borderStyle : option string) (DEFAULT_wrapText : bool)
    (exportsDir : string) (RENDER_EXTERNAL_URL : option string)
    (typeErrorMessage : string -> string) (now : string)
    (body : GenerateBody) (r : ServiceResponse) :
  let st :=
    runHandler
      (generate Number_toString newDate Date_toString DEFAULT_borderStyle
         DEFAULT_wrapText exportsDir RENDER_EXTERNAL_URL typeErrorMessage now body)
      idle in
  In r (sent st) ->
  success r = true ->
  exists fileName,
    r = generated RENDER_EXTERNAL_URL fileName
    /\ statusCode r = 200
    /\ pendingWrites st = [fileName]
    /\ written st = [].
Proof.
  intros st Hin Hok.
  destruct (generate_runs Number_toString newDate Date_toString DEFAULT_borderStyle
              DEFAULT_wrapText exportsDir RENDER_EXTERNAL_URL typeErrorMessage now body)
    as (r' & Hsent & Hwritten & Hfile).
  fold st in Hsent, Hwritten, Hfile.
  rewrite Hsent in Hin. destruct Hin as [<- | []].
  destruct (Hfile Hok) as (fileName & -> & Hpending).
  exists fileName. repeat split; assumption.
Qed.

Lemma generate_sends_while_write_pending_witness :
  let st :=
    runHandler
      (generate (fun _ => "") (fun _ => None) (fun _ => "") None true
         "excel-exports" None (fun _ => "") "2024-05-01T10:20:30.456Z" reportBody)
      idle in
  exists fileName,
    fileName = "excel-file-20240501102030456.xlsx"
    /\ sent st = [generated None fileName]
    /\ pendingWrites st = [fileName]
    /\ written st = [].
Proof.
  intros st.
  destruct (generate_sends_while_write_pending
              (fun _ => "") (fun _ => None) (fun _ => "") None true
              "excel-exports" None (fun _ => "") "2024-05-01T10:20:30.456Z" reportBody
              (generated None "excel-file-20240501102030456.xlsx")
              (or_introl eq_refl) eq_refl)
    as (fileName & Hr & _ & Hpending & Hwritten).
  exists fileName.
  assert (Hname : fileName = "excel-file-20240501102030456.xlsx").
  { apply (f_equal responseObject) in Hr. cbn in Hr. injection Hr as Hr.
    now symmetry. }
  split; [exact Hname|]. split; [rewrite Hname; reflexivity|]. split; assumption.
Defined.

(** For the sample request the handler's turn ends with the success
    response sent and the write of [excel-file-<digits>.xlsx] still
    pending: the serialization is not awaited. *)
Lemma generate_does_not_await :
  ~ (forall (Number_toString : spec_float -> string) (newDate : Prim -> option Z)
            (Date_toString : Z -> string)
            (DEFAULT_borderStyle : option string) (DEFAULT_wrapText : bool)
            (exportsDir : string) (RENDER_EXTERNAL_URL : option string)
            (typeErrorMessage : string -> string) (now : string),
       awaitedWrite
         (runHandler
            (generate Number_toString newDate Date_toString DEFAULT_borderStyle
               DEFAULT_wrapText exportsDir RENDER_EXTERNAL_URL typeErrorMessage
               now reportBody)
            idle)).
Proof.
  intros H.
  specialize (H (fun _ => "") (fun _ => None) (fun _ => "") None true
                "excel-exports" None (fun _ => "") "2024-05-01T10:20:30.456Z"
                (generated None "excel-file-20240501102030456.xlsx")
                (or_introl eq_refl) eq_refl).
  discriminate H.
Qed.

(** C4.  The handler of the generate endpoint does not wait for the
    workbook to be written.  For the sample request, on every host and at
    every time, it sends the success response "File generated
    successfully", with the download URL of the file, in the turn in
    which the write of that file is started: when the response goes out
    the write is pending and no file has been written; the file is there
    only after a later turn. *)
Theorem generate_responds_before_write_completes
    (Number_toString : spec_float -> string) (newDate : Prim -> option Z)
    (Date_toString : Z -> string)
    (DEFAULT_borderStyle : option string) (DEFAULT_wrapText : bool)
    (exportsDir : string) (RENDER_EXTERNAL_URL : option string)
    (typeErrorMessage : string -> string) (now : string) :
  let fileName := "excel-file-" ++ digitsOnly now ++ ".xlsx" in
  let st :=
    runHandler
      (generate Number_toString newDate Date_toString DEFAULT_borderStyle
         DEFAULT_wrapText exportsDir RENDER_EXTERNAL_URL typeErrorMessage
         now reportBody)
      idle in
  sent st = [generated RENDER_EXTERNAL_URL fileName]
  /\ statusCode (generated RENDER_EXTERNAL_URL fileName) = 200
  /\ message (generated RENDER_EXTERNAL_URL fileName) = "File generated successfully"
  /\ pendingWrites st = [fileName]
  /\ written st = []
  /\ written (completeWrite fileName st) = [fileName].
Proof.
  repeat split.
Qed.

End HttpFacts.

(* ===================================================================== *)
(** * Further properties of the coordinate utility *)
(* ===================================================================== *)

Module CoordinateProps.
Import Js Coordinate CoordinateFacts.

Lemma columnLetterToNumber_loop_app (s t : string) :
  forall column,
    columnLetterToNumber_loop column (s ++ t)
    = columnLetterToNumber_loop (columnLetterToNumber_loop column s) t.
Proof.
  induction s as [|c s IH]; intros column; [reflexivity|].
  cbn [String.append columnLetterToNumber_loop]. apply IH.
Qed.

(** X1.  Reading a reference of up to eleven letters in two parts: the
    column of [s ++ t] is the column of [s] shifted by one base-26 place
    per letter of [t], plus the column of [t]; in particular one more
    letter [c] at the end gives [26 * column + (c - 'A' + 1)]. *)
Theorem columnLetterToNumber_app (s t : string) :
  allColumnLetters (s ++ t) = true ->
  (String.length (s ++ t) <= 11)%nat ->
  columnLetterToNumber (s ++ t)
  = columnLetterToNumber s * 26 ^ Z.of_nat (String.length t) + columnLetterToNumber t
  /\ (forall c : ascii,
        t = String c EmptyString ->
        columnLetterToNumber (s ++ t) = 26 * columnLetterToNumber s + (charCode c - 64))
  /\ 0 <= columnLetterToNumber (s ++ t) < 2 ^ 53.
Proof.
  intros Hall Hlen.
  assert (Happ : columnLetterToNumber (s ++ t)
                 = columnLetterToNumber s * 26 ^ Z.of_nat (String.length t)
                   + columnLetterToNumber t).
  { unfold columnLetterToNumber.
    rewrite columnLetterToNumber_loop_app.
    rewrite (columnLetterToNumber_loop_spec t (columnLetterToNumber_loop 0 s)).
    rewrite (columnLetterToNumber_loop_spec t 0). lia. }
  split; [exact Happ|]. split.
  - intros c ->. rewrite Happ. unfold columnLetterToNumber at 2.
    cbn [columnLetterToNumber_loop String.length]. rewrite charCode_A.
    change (26 ^ Z.of_nat 1) with 26. lia.
  - destruct (columnIndex_bounds (s ++ t) Hall) as [Hlo Hhi].
    assert (Hp : 26 ^ Z.of_nat (String.length (s ++ t)) <= 26 ^ 11)
      by (apply Z.pow_le_mono_r; lia).
    change (26 ^ 11) with 3670344486987776 in Hp.
    change (2 ^ 53) with 9007199254740992.
    unfold columnLetterToNumber. rewrite columnLetterToNumber_loop_spec. lia.
Qed.

Lemma columnLetterToNumber_app_witness :
  columnLetterToNumber "XFD" = columnLetterToNumber "X" * 26 ^ 2 + columnLetterToNumber "FD"
  /\ columnLetterToNumber "AZ" = 26 * columnLetterToNumber "A" + 26.
Proof.
  split.
  - exact (proj1 (columnLetterToNumber_app "X" "FD" eq_refl ltac:(simpl; lia))).
  - exact (proj1 (proj2 (columnLetterToNumber_app "A" "Z" eq_refl ltac:(simpl; lia)))
             "Z"%char eq_refl).
Defined.

(** The references of [n] letters fill the interval from [(26^n - 1) / 25]
    to [(26^(n+1) - 26) / 25]. *)
Lemma columnIndex_range (s : string) :
  allColumnLetters s = true ->
  26 ^ Z.of_nat (String.length s) - 1 <= 25 * columnIndex s
  /\ 25 * columnIndex s <= 26 * 26 ^ Z.of_nat (String.length s) - 26.
Proof.
  induction s as [|c rest IH]; intros Hs.
  - simpl. lia.
  - cbn [allColumnLetters] in Hs. apply andb_prop in Hs as [Hc Hrest].
    destruct (IH Hrest) as [Hlo Hhi]. apply letter_range in Hc.
    cbn [String.length columnIndex].
    rewrite Nat2Z.inj_succ, Z.pow_succ_r by lia.
    assert (Hp : 1 <= 26 ^ Z.of_nat (String.length rest))
      by (apply (Z.pow_le_mono_r 26 0); lia).
    nia.
Qed.

Lemma charCode_inj (c d : ascii) : charCode c = charCode d -> c = d.
Proof.
  unfold charCode. intros H. apply N2Z.inj in H.
  rewrite <- (ascii_N_embedding c), <- (ascii_N_embedding d). now rewrite H.
Qed.

Lemma columnIndex_inj_same_length (s : string) :
  forall t,
    String.length s = String.length t ->
    allColumnLetters s = true -> allColumnLetters t = true ->
    columnIndex s = columnIndex t -> s = t.
Proof.
  induction s as [|c s IH]; intros [|d t] Hlen Hs Ht Heq; try discriminate;
    [reflexivity|].
  cbn [String.length] in Hlen. injection Hlen as Hlen.
  cbn [allColumnLetters] in Hs, Ht.
  apply andb_prop in Hs as [Hc Hs]. apply andb_prop in Ht as [Hd Ht].
  cbn [columnIndex] in Heq. rewrite <- Hlen in Heq.
  pose proof (columnIndex_range s Hs) as [Hslo Hshi].
  pose proof (columnIndex_range t Ht) as [Htlo Hthi].
  rewrite <- Hlen in Htlo, Hthi.
  assert (Hp : 1 <= 26 ^ Z.of_nat (String.length s))
    by (apply (Z.pow_le_mono_r 26 0); lia).
  assert (Hcd : charCode c = charCode d) by nia.
  assert (Hidx : columnIndex s = columnIndex t) by nia.
  f_equal; [now apply charCode_inj | now apply IH].
Qed.

(** X2.  Among the references of up to eleven letters, one with fewer
    letters names an earlier column: every one-letter column comes before
    every two-letter column, and so on. *)
Theorem columnLetterToNumber_shorter_first (s t : string) :
  allColumnLetters s = true -> allColumnLetters t = true ->
  (String.length s < String.length t)%nat ->
  (String.length t <= 11)%nat ->
  columnLetterToNumber s < columnLetterToNumber t.
Proof.
  intros Hs Ht Hlen _.
  unfold columnLetterToNumber. rewrite !columnLetterToNumber_loop_spec.
  pose proof (columnIndex_range s Hs) as [_ Hshi].
  pose proof (columnIndex_range t Ht) as [Htlo _].
  assert (Hp : 26 * 26 ^ Z.of_nat (String.length s) <= 26 ^ Z.of_nat (String.length t)).
  { rewrite <- Z.pow_succ_r by lia. apply Z.pow_le_mono_r; lia. }
  lia.
Qed.

Lemma columnLetterToNumber_shorter_first_witness :
  columnLetterToNumber "Z" < columnLetterToNumber "AA".
Proof.
  apply (columnLetterToNumber_shorter_first "Z" "AA");
    [reflexivity | reflexivity | simpl; lia | simpl; lia].
Defined.

(** The column number tells the reference: on strings of letters, equal
    values come from equal strings. *)
Lemma columnIndex_inj (s t : string) :
  allColumnLetters s = true -> allColumnLetters t = true ->
  columnIndex s = columnIndex t -> s = t.
Proof.
  intros Hs Ht Hidx.
  pose proof (columnIndex_range s Hs) as [Hslo Hshi].
  pose proof (columnIndex_range t Ht) as [Htlo Hthi].
  apply columnIndex_inj_same_length; try assumption.
  destruct (Nat.lt_trichotomy (String.length s) (String.length t)) as [Hlt|[Heq|Hgt]];
    [exfalso | exact Heq | exfalso].
  - assert (26 * 26 ^ Z.of_nat (String.length s) <= 26 ^ Z.of_nat (String.length t)).
    { rewrite <- Z.pow_succ_r by lia. apply Z.pow_le_mono_r; lia. }
    lia.
  - assert (26 * 26 ^ Z.of_nat (String.length t) <= 26 ^ Z.of_nat (String.length s)).
    { rewrite <- Z.pow_succ_r by lia. apply Z.pow_le_mono_r; lia. }
    lia.
Qed.

(** X3.  Two different column references of up to eleven letters never
    name the same column. *)
Theorem columnLetterToNumber_injective (s t : string) :
  allColumnLetters s = true -> allColumnLetters t = true ->
  (String.length s <= 11)%nat -> (String.length t <= 11)%nat ->
  s <> t ->
  columnLetterToNumber s <> columnLetterToNumber t.
Proof.
  intros Hs Ht _ _ Hne Heq. apply Hne.
  unfold columnLetterToNumber in Heq. rewrite !columnLetterToNumber_loop_spec in Heq.
  apply columnIndex_inj; [assumption | assumption | lia].
Qed.

Lemma columnLetterToNumber_injective_witness :
  columnLetterToNumber "AZ" <> columnLetterToNumber "BA"
  /\ columnLetterToNumber "Z" <> columnLetterToNumber "AA".
Proof.
  split.
  - apply (columnLetterToNumber_injective "AZ" "BA");
      [reflexivity | reflexivity | simpl; lia | simpl; lia | discriminate].
  - apply (columnLetterToNumber_injective "Z" "AA");
      [reflexivity | reflexivity | simpl; lia | simpl; lia | discriminate].
Defined.

Lemma digitValue_nonneg (c : ascii) (d : Z) : digitValue c = Some d -> 0 <= d.
Proof.
  unfold digitValue. cbv zeta.
  destruct (isDecimalDigit c) eqn:E1.
  { intros H. apply (inj Some) in H. apply digit_range in E1. lia. }
  destruct ((97 <=? charCode c) && (charCode c <=? 122)) eqn:E2.
  { intros H. apply (inj Some) in H. apply andb_prop in E2 as [E2 _].
    apply Z.leb_le in E2. lia. }
  destruct ((65 <=? charCode c) && (charCode c <=? 90)) eqn:E3; [|discriminate].
  intros H. apply (inj Some) in H. apply andb_prop in E3 as [E3 _].
  apply Z.leb_le in E3. lia.
Qed.

Lemma parseDigits_nonneg (s : string) :
  forall acc n,
    (forall a, acc = Some a -> 0 <= a) ->
    parseDigits 10 acc s = Some n -> 0 <= n.
Proof.
  induction s as [|c rest IH]; intros acc n Hacc H; cbn [parseDigits] in H.
  - now apply Hacc.
  - destruct (digitValue c) as [d|] eqn:Ed; [|now apply Hacc].
    destruct (d <? 10); [|now apply Hacc].
    apply (IH _ n) in H; [exact H|].
    intros a Ha. apply (inj Some) in Ha. subst a.
    pose proof (digitValue_nonneg c d Ed).
    destruct acc as [a0|]; [|lia].
    pose proof (Hacc a0 eq_refl). lia.
Qed.

(** The number a string of decimal digits denotes has no more digits
    than the string. *)
Lemma parseDigits_decimal_bound (s : string) :
  forall a n,
    allDigits s = true -> 0 <= a ->
    parseDigits 10 (Some a) s = Some n ->
    n < (a + 1) * 10 ^ Z.of_nat (String.length s).
Proof.
  induction s as [|c rest IH]; intros a n Hall Ha H.
  - cbn in H. apply (inj Some) in H. subst n. cbn. lia.
  - cbn [allDigits] in Hall. apply andb_prop in Hall as [Hc Hrest].
    pose proof (digit_range c Hc) as Hr.
    cbn [parseDigits] in H. unfold digitValue in H. cbv zeta in H. rewrite Hc in H.
    replace (charCode c - 48 <? 10) with true in H by (symmetry; apply Z.ltb_lt; lia).
    apply (IH _ n Hrest) in H; [|lia].
    cbn [String.length]. rewrite Nat2Z.inj_succ, Z.pow_succ_r by lia.
    assert (Hp : 1 <= 10 ^ Z.of_nat (String.length rest))
      by (apply (Z.pow_le_mono_r 10 0); lia).
    nia.
Qed.

(** X4.  An anchor made of one column letter and a row number of up to
    fifteen decimal digits is read as the conventional cell reference:
    the column is the letter's position in the alphabet, 1 to 26, the row
    is the number the digits denote, which lies below 2^53 where the
    source's numbers are exact. *)
Theorem single_letter_anchor (c : ascii) (digits : string) :
  isColumnLetter c = true ->
  allDigits digits = true ->
  digits <> EmptyString ->
  (String.length digits <= 15)%nat ->
  exists r,
    parseStartCell (String c digits) = Some (Some r, charCode c - 64)
    /\ cellReference (String c digits) = Some (r, charCode c - 64)
    /\ parseDigits 10 None digits = Some r
    /\ 0 <= r < 2 ^ 53
    /\ 1 <= charCode c - 64 <= 26.
Proof.
  intros Hc Hd Hne Hlen.
  destruct (parseStartCell_single_letter c digits Hc Hd Hne) as (r & Hcell & Hparse).
  exists r. split; [exact Hparse|]. split; [exact Hcell|].
  assert (Hr : parseDigits 10 None digits = Some r).
  { destruct digits as [|d ds]; [congruence|].
    destruct (parseInt_digits d ds Hd) as [Hpi [n Hn]].
    unfold parseStartCell in Hparse. cbn [index0 slice1] in Hparse.
    rewrite Hpi, Hn in Hparse. rewrite Hn. congruence. }
  split; [exact Hr|]. split; [split|].
  - apply (parseDigits_nonneg digits None r); [discriminate | exact Hr].
  - destruct digits as [|d ds]; [congruence|].
    pose proof Hd as Hd'. cbn [allDigits] in Hd'. apply andb_prop in Hd' as [Hd0 Hds].
    pose proof (digit_range d Hd0) as Hrange.
    cbn [parseDigits] in Hr. unfold digitValue in Hr. cbv zeta in Hr. rewrite Hd0 in Hr.
    replace (charCode d - 48 <? 10) with true in Hr by (symmetry; apply Z.ltb_lt; lia).
    apply (parseDigits_decimal_bound ds _ r Hds) in Hr; [|lia].
    cbn [String.length] in Hlen.
    assert (Hp : 10 ^ Z.of_nat (String.length ds) <= 10 ^ 14)
      by (apply Z.pow_le_mono_r; lia).
    change (10 ^ 14) with 100000000000000 in Hp.
    change (2 ^ 53) with 9007199254740992.
    nia.
  - pose proof (letter_range c Hc). lia.
Qed.

Lemma single_letter_anchor_witness :
  parseStartCell "B12" = Some (Some 12, 2) /\ cellReference "B12" = Some (12, 2).
Proof.
  destruct (single_letter_anchor "B" "12" eq_refl eq_refl ltac:(discriminate)
              ltac:(simpl; lia))
    as (r & Hparse & Hcell & Hr & _).
  vm_compute in Hr. apply (inj Some) in Hr. subst r.
  split; [exact Hparse | exact Hcell].
Defined.

End CoordinateProps.

(* ===================================================================== *)
(** * Further properties of the cell formatter *)
(* ===================================================================== *)

Module FormatterProps.
Import Js Excel FormatterFacts.

Section Formatter.

Variable Number_toString : spec_float -> string.
Variable newDate : Prim -> option Z.

Abbreviation format_cell := (formatCell Number_toString newDate).

Lemma cellValue_notNullish (value : Prim) :
  notNullish (if notNullish value then value else PStr "") = true.
Proof. destruct value; reflexivity. Qed.

(** The five column types are told apart by their names. *)
Lemma typeIs_exclusive (valueType : option string) (t u : string) :
  t <> u -> typeIs valueType t = true -> typeIs valueType u = false.
Proof.
  intros Hne Ht. destruct valueType as [v|]; [|discriminate]. cbn in *.
  apply String.eqb_eq in Ht. subst v. now apply String.eqb_neq.
Qed.

End Formatter.

(** X5.  Whatever the column and the cell, what the formatter stores is
    never [null] or [undefined]: a missing value has become the empty
    string before any branch runs, also inside a formula object. *)
Theorem formatCell_never_null
    (Number_toString : spec_float -> string) (newDate : Prim -> option Z)
    (valueType format : option string) (cellData : CellData) :
  match w_value (formatCell Number_toString newDate valueType format cellData) with
  | VPrim p | VFormula p => notNullish p = true
  | VDate _ => True
  end.
Proof.
  unfold formatCell.
  pose proof (cellValue_notNullish (cd_value cellData)) as Hcv.
  set (cellValue := if notNullish (cd_value cellData) then cd_value cellData else PStr "") in *.
  destruct (String.eqb (default "static_value" (cd_type cellData)) "formula");
    [exact Hcv|].
  destruct (typeIs valueType "number").
  { cbn [w_value]. destruct (negb (isNaN (Number cellValue))); [reflexivity | exact Hcv]. }
  destruct (typeIs valueType "boolean"); [reflexivity|].
  destruct (typeIs valueType "date").
  { cbn [w_value]. destruct (newDate cellValue); [exact I | exact Hcv]. }
  destruct (typeIs valueType "percent" || typeIs valueType "currency").
  { cbn [w_value]. destruct (negb (isNaN (Number cellValue))); [reflexivity | exact Hcv]. }
  reflexivity.
Qed.

(** X6.  A formula cell keeps its expression in every column: the value
    stored is the formula object, never a coerced literal.  It takes the
    column's number format in a percent, currency, number or date column
    (for percent and currency the default "0.00%" and "$#,##0" when the
    column names none) and is given no number format in any other
    column. *)
Theorem formula_cell_keeps_expression
    (Number_toString : spec_float -> string) (newDate : Prim -> option Z)
    (col : Column) (value : Prim) :
  let w := formatCell Number_toString newDate (col_type col) (columnFormat col)
             {| cd_type := Some "formula"; cd_value := value |} in
  w_value w = VFormula (if notNullish value then value else PStr "")
  /\ (typeIs (col_type col) "percent" = true ->
      w_numFmt w = Some (orElse (col_format col) (Some "0.00%")))
  /\ (typeIs (col_type col) "currency" = true ->
      w_numFmt w = Some (orElse (col_format col) (Some "$#,##0")))
  /\ (typeIs (col_type col) "number" = true \/ typeIs (col_type col) "date" = true ->
      w_numFmt w = Some (orElse (col_format col) None))
  /\ (typeIs (col_type col) "percent" = false -> typeIs (col_type col) "currency" = false ->
      typeIs (col_type col) "number" = false -> typeIs (col_type col) "date" = false ->
      w_numFmt w = None).
Proof.
  intros w. subst w. unfold formatCell. cbn [cd_type cd_value default].
  change (String.eqb "formula" "formula") with true. cbn [w_value w_numFmt].
  split; [reflexivity|]. unfold columnFormat.
  split; [|split; [|split]].
  - intros Hp.
    rewrite (typeIs_exclusive _ "percent" "number" ltac:(discriminate) Hp), Hp.
    reflexivity.
  - intros Hc.
    rewrite (typeIs_exclusive _ "currency" "number" ltac:(discriminate) Hc).
    rewrite (typeIs_exclusive _ "currency" "percent" ltac:(discriminate) Hc), Hc.
    reflexivity.
  - intros [Hn | Hd].
    + rewrite Hn, !orb_true_r. reflexivity.
    + rewrite (typeIs_exclusive _ "date" "number" ltac:(discriminate) Hd).
      rewrite (typeIs_exclusive _ "date" "percent" ltac:(discriminate) Hd).
      rewrite (typeIs_exclusive _ "date" "currency" ltac:(discriminate) Hd), Hd.
      rewrite !orb_true_r. reflexivity.
  - intros -> -> -> ->. reflexivity.
Qed.

(** X7.  A percent or currency cell that is not a formula stores
    [Number(value)] as it is, with no rounding and no scaling (so "12.5"
    stays 12.5, where a number column would store 13), keeps the raw
    literal when the value is not numeric, and always gets the column's
    format, "0.00%" or "$#,##0" by default. *)
Theorem percent_currency_cell_unrounded
    (Number_toString : spec_float -> string) (newDate : Prim -> option Z)
    (col : Column) (type : option string) (value : Prim) :
  type <> Some "formula" ->
  typeIs (col_type col) "percent" = true \/ typeIs (col_type col) "currency" = true ->
  let cellValue := if notNullish value then value else PStr "" in
  let w := formatCell Number_toString newDate (col_type col) (columnFormat col)
             {| cd_type := type; cd_value := value |} in
  (isNaN (Number cellValue) = false -> w_value w = VPrim (PNum (Number cellValue)))
  /\ (isNaN (Number cellValue) = true -> w_value w = VPrim cellValue)
  /\ (value = PStr "12.5" ->
      w_value w = VPrim (PNum (S754_finite false 7036874417766400 (-49)))
      /\ 7036874417766400 * 2 = 25 * 2 ^ 49)
  /\ w_numFmt w
     = Some (orElse (col_format col)
               (Some (if typeIs (col_type col) "percent" then "0.00%" else "$#,##0"))).
Proof.
  intros Hty Hcol cellValue w.
  pose proof (static_type type Hty) as Hstatic.
  assert (Hbranch : typeIs (col_type col) "number" = false
                    /\ typeIs (col_type col) "boolean" = false
                    /\ typeIs (col_type col) "date" = false).
  { destruct Hcol as [H|H]; repeat split;
      (eapply typeIs_exclusive; [|exact H]; discriminate). }
  destruct Hbranch as (Hn & Hb & Hd).
  assert (Hor : typeIs (col_type col) "percent" || typeIs (col_type col) "currency" = true)
    by (destruct Hcol as [-> | ->]; [reflexivity | apply orb_true_r]).
  assert (Hw : w = {| w_value :=
                        if negb (isNaN (Number cellValue))
                        then VPrim (PNum (Number cellValue))
                        else VPrim cellValue;
                      w_numFmt := Some (columnFormat col) |}).
  { subst w. unfold formatCell. cbn [cd_type cd_value].
    rewrite Hstatic, Hn, Hb, Hd, Hor. reflexivity. }
  rewrite Hw. cbn [w_value w_numFmt].
  split; [intros ->; reflexivity|]. split; [intros ->; reflexivity|].
  split.
  - intros ->. subst cellValue. split; reflexivity.
  - unfold columnFormat. rewrite Hn. destruct Hcol as [Hp | Hc].
    + rewrite Hp. reflexivity.
    + rewrite (typeIs_exclusive _ "currency" "percent" ltac:(discriminate) Hc), Hc.
      reflexivity.
Qed.

Lemma percent_currency_cell_unrounded_witness :
  w_numFmt
    (formatCell (fun _ => "") (fun _ => None) (Some "percent")
       (columnFormat {| col_name := "Share"; col_type := Some "percent"; col_format := None |})
       {| cd_type := Some "static_value"; cd_value := PStr "12.5" |})
  = Some (Some "0.00%").
Proof.
  pose proof (percent_currency_cell_unrounded (fun _ => "") (fun _ => None)
                {| col_name := "Share"; col_type := Some "percent"; col_format := None |}
                (Some "static_value") (PStr "12.5")
                ltac:(discriminate) (or_introl eq_refl)) as H.
  cbv zeta in H. destruct H as (_ & _ & _ & H). exact H.
Defined.

(** X8.  A date cell that is not a formula stores the [Date] when the
    value makes a valid one and keeps the raw literal when it does not;
    either way it is formatted, with "yyyy-mm-dd" unless the column names
    a format. *)
Theorem date_cell_falls_back
    (Number_toString : spec_float -> string) (newDate : Prim -> option Z)
    (col : Column) (type : option string) (value : Prim) :
  type <> Some "formula" ->
  typeIs (col_type col) "date" = true ->
  let cellValue := if notNullish value then value else PStr "" in
  let w := formatCell Number_toString newDate (col_type col) (columnFormat col)
             {| cd_type := type; cd_value := value |} in
  (forall t, newDate cellValue = Some t -> w_value w = VDate t)
  /\ (newDate cellValue = None -> w_value w = VPrim cellValue)
  /\ w_numFmt w = Some (orElse (col_format col) (Some "yyyy-mm-dd")).
Proof.
  intros Hty Hcol cellValue w.
  pose proof (static_type type Hty) as Hstatic.
  assert (Hn : typeIs (col_type col) "number" = false)
    by (eapply typeIs_exclusive; [|exact Hcol]; discriminate).
  assert (Hb : typeIs (col_type col) "boolean" = false)
    by (eapply typeIs_exclusive; [|exact Hcol]; discriminate).
  assert (Hp : typeIs (col_type col) "percent" = false)
    by (eapply typeIs_exclusive; [|exact Hcol]; discriminate).
  assert (Hc : typeIs (col_type col) "currency" = false)
    by (eapply typeIs_exclusive; [|exact Hcol]; discriminate).
  subst w. unfold formatCell. cbn [cd_type cd_value].
  rewrite Hstatic, Hn, Hb, Hcol. cbn [w_value w_numFmt]. fold cellValue.
  split; [intros t ->; reflexivity|]. split; [intros ->; reflexivity|].
  unfold columnFormat. rewrite Hn, Hp, Hc, Hcol.
  destruct (col_format col) as [[|c f]|]; reflexivity.
Qed.

Lemma date_cell_falls_back_witness :
  w_value
    (formatCell (fun _ => "") (fun _ => None) (Some "date")
       (columnFormat {| col_name := "Day"; col_type := Some "date"; col_format := None |})
       {| cd_type := Some "static_value"; cd_value := PStr "not-a-date" |})
  = VPrim (PStr "not-a-date").
Proof.
  pose proof (date_cell_falls_back (fun _ => "") (fun _ => None)
                {| col_name := "Day"; col_type := Some "date"; col_format := None |}
                (Some "static_value") (PStr "not-a-date")
                ltac:(discriminate) eq_refl) as H.
  cbv zeta in H. destruct H as (_ & H & _). apply H. reflexivity.
Defined.

(** X9.  In a column of any other type (text, an unknown name, no type at
    all, or a position past the last column) a cell that is not a formula
    is stored as a string: a string as it is, a missing value as the empty
    string; no number format is assigned. *)
Theorem text_cell_is_string
    (Number_toString : spec_float -> string) (newDate : Prim -> option Z)
    (valueType format : option string) (type : option string) (value : Prim) :
  type <> Some "formula" ->
  typeIs valueType "number" = false -> typeIs valueType "boolean" = false ->
  typeIs valueType "date" = false -> typeIs valueType "percent" = false ->
  typeIs valueType "currency" = false ->
  let w := formatCell Number_toString newDate valueType format
             {| cd_type := type; cd_value := value |} in
  (exists s, w_value w = VPrim (PStr s))
  /\ (forall s, value = PStr s -> w_value w = VPrim (PStr s))
  /\ (notNullish value = false -> w_value w = VPrim (PStr ""))
  /\ w_numFmt w = None.
Proof.
  intros Hty Hn Hb Hd Hp Hc w.
  pose proof (static_type type Hty) as Hstatic.
  subst w. unfold formatCell. cbn [cd_type cd_value].
  rewrite Hstatic, Hn, Hb, Hd, Hp, Hc. cbn [orb w_value w_numFmt].
  split; [eauto|]. split; [intros s ->; reflexivity|].
  split; [intros ->; reflexivity | reflexivity].
Qed.

Lemma text_cell_is_string_witness :
  w_value
    (formatCell (fun _ => "") (fun _ => None) None None
       {| cd_type := None; cd_value := PNull |})
  = VPrim (PStr "").
Proof.
  pose proof (text_cell_is_string (fun _ => "") (fun _ => None) None None None PNull
                ltac:(discriminate) eq_refl eq_refl eq_refl eq_refl eq_refl) as H.
  cbv zeta in H. destruct H as (_ & _ & H & _). apply H. reflexivity.
Defined.

End FormatterProps.

(* ===================================================================== *)
(** * Further properties of the layout engine *)
(* ===================================================================== *)

Module LayoutProps.
Import Js Coordinate Excel Grid LayoutFacts.

(** ** Reading and writing single cells *)

Lemma master_clear (ws : Worksheet) (row col : Z) :
  rowClear ws row -> master ws (Some row) col = (Some row, col).
Proof.
  intros Hclear. unfold master.
  destruct (List.find (fun m => covers m (Some row) col) (ws_merges ws)) as [m|] eqn:E;
    [|reflexivity].
  apply List.find_some in E as [Hin Hcov].
  rewrite (Hclear m col Hin) in Hcov. discriminate.
Qed.

Lemma cellAt_updateCell (ws : Worksheet) (k k' : option Z * Z) (f : Cell -> Cell) :
  cellAt (updateCell ws k f) k'
  = if decide (k = k') then f (cellAt ws k) else cellAt ws k'.
Proof.
  unfold cellAt at 1. cbn [updateCell ws_cells].
  destruct (decide (k = k')) as [->|Hne].
  - now rewrite lookup_insert_eq.
  - now rewrite lookup_insert_ne.
Qed.

(** One pass of the cell loop at a position of a clear row. *)
Lemma bodyWrite_cells (cfg : ExcelConfig) (ws : Worksheet) (row col : Z) (w : CellWrite)
    (k : option Z * Z) :
  rowClear ws row ->
  cellAt (setStyle (applyWrite ws (Some row) col w) (Some row) col
            (cellAlign cfg) (cellFont cfg) (borderConfigs cfg)) k
  = if decide (k = (Some row, col)) then bodyCell cfg w (cellAt ws k) else cellAt ws k.
Proof.
  intros Hclear. unfold setStyle, applyWrite, setValue, setNumFmt, bodyCell.
  rewrite (master_clear ws row col Hclear).
  destruct (decide (k = (Some row, col))) as [->|Hne].
  - rewrite cellAt_updateCell, decide_True by reflexivity.
    destruct (w_numFmt w) as [f|].
    + rewrite !cellAt_updateCell, !decide_True by reflexivity. reflexivity.
    + rewrite !cellAt_updateCell, !decide_True by reflexivity. reflexivity.
  - rewrite cellAt_updateCell, decide_False by congruence.
    destruct (w_numFmt w) as [f|].
    + rewrite !cellAt_updateCell, !decide_False by congruence. reflexivity.
    + rewrite !cellAt_updateCell, !decide_False by congruence. reflexivity.
Qed.

Lemma headerWrite_cells (cfg : ExcelConfig) (ws : Worksheet) (row col : Z) (c : Column)
    (k : option Z * Z) :
  rowClear ws row ->
  cellAt (setStyle (setValue ws (Some row) col (VPrim (PStr (col_name c))))
            (Some row) col (headerAlign cfg) (headerFont cfg) (borderConfigs cfg)) k
  = if decide (k = (Some row, col)) then headerCell cfg c (cellAt ws k) else cellAt ws k.
Proof.
  intros Hclear. unfold setStyle, setValue.
  rewrite (master_clear ws row col Hclear).
  destruct (decide (k = (Some row, col))) as [->|Hne].
  - rewrite !cellAt_updateCell, !decide_True by reflexivity. reflexivity.
  - rewrite !cellAt_updateCell, !decide_False by congruence. reflexivity.
Qed.

(** ** A row of writes *)

Section RowWrites.

Context {A : Type}.
Variable g : Worksheet -> A -> nat -> Worksheet.
Variable G : A -> nat -> Cell -> Cell.
Variable row col : Z.

Hypothesis g_merges : forall ws x i, ws_merges (g ws x i) = ws_merges ws.
Hypothesis g_cells :
  forall ws x i k,
    rowClear ws row ->
    cellAt (g ws x i) k
    = if decide (k = (Some row, col + Z.of_nat i)) then G x i (cellAt ws k) else cellAt ws k.

Lemma forEachIdx_merges (l : list A) :
  forall i ws, ws_merges (forEachIdx g l i ws) = ws_merges ws.
Proof.
  induction l as [|x l IH]; intros i ws; [reflexivity|].
  cbn [forEachIdx]. now rewrite IH, g_merges.
Qed.

Lemma rowClear_g (ws : Worksheet) (x : A) (i : nat) (r : Z) :
  rowClear ws r -> rowClear (g ws x i) r.
Proof. unfold rowClear. now rewrite g_merges. Qed.

(** A position the loop does not visit keeps its cell. *)
Lemma forEachIdx_frame (l : list A) (k : option Z * Z) :
  forall i ws,
    rowClear ws row ->
    (forall j, (i <= j < i + length l)%nat -> k <> (Some row, col + Z.of_nat j)) ->
    cellAt (forEachIdx g l i ws) k = cellAt ws k.
Proof.
  induction l as [|x l IH]; intros i ws Hclear Hout; [reflexivity|].
  cbn [forEachIdx]. rewrite IH.
  - rewrite g_cells by assumption. rewrite decide_False; [reflexivity|].
    apply Hout. cbn [length]. lia.
  - now apply rowClear_g.
  - intros j Hj. apply Hout. cbn [length]. lia.
Qed.

(** The position of the [j]-th element holds what its write leaves. *)
Lemma forEachIdx_written (l : list A) :
  forall i ws j x,
    rowClear ws row ->
    l !! j = Some x ->
    cellAt (forEachIdx g l i ws) (Some row, col + Z.of_nat (i + j))
    = G x (i + j)%nat (cellAt ws (Some row, col + Z.of_nat (i + j))).
Proof.
  induction l as [|y l IH]; intros i ws j x Hclear Hj; [discriminate|].
  cbn [forEachIdx]. destruct j as [|j].
  - cbn in Hj. injection Hj as ->. rewrite Nat.add_0_r.
    rewrite forEachIdx_frame.
    + rewrite g_cells by assumption. now rewrite decide_True.
    + now apply rowClear_g.
    + intros j' Hj' E. injection E as E. lia.
  - cbn in Hj. replace (i + S j)%nat with (S i + j)%nat by lia.
    rewrite (IH (S i) (g ws y i) j x (rowClear_g ws y i row Hclear) Hj).
    rewrite g_cells by assumption. rewrite decide_False; [reflexivity|].
    intros E. injection E as E. lia.
Qed.

End RowWrites.

(** ** What each block of a table touches *)

Lemma forEachIdx_keeps {A B : Type} (P : Worksheet -> B)
    (g : Worksheet -> A -> nat -> Worksheet)
    (Hg : forall ws x i, P (g ws x i) = P ws) (l : list A) :
  forall i ws, P (forEachIdx g l i ws) = P ws.
Proof.
  induction l as [|x l IH]; intros i ws; [reflexivity|].
  cbn [forEachIdx]. now rewrite IH, Hg.
Qed.

Lemma cellAt_cells (ws ws' : Worksheet) (k : option Z * Z) :
  ws_cells ws' = ws_cells ws -> cellAt ws' k = cellAt ws k.
Proof. unfold cellAt. now intros ->. Qed.

Lemma rowClear_merges (ws ws' : Worksheet) (r : Z) :
  ws_merges ws' = ws_merges ws -> rowClear ws r -> rowClear ws' r.
Proof. unfold rowClear. now intros ->. Qed.

Section Blocks.

Variable Number_toString : spec_float -> string.
Variable newDate : Prim -> option Z.
Variable Date_toString : Z -> string.
Variable cfg : ExcelConfig.
Variable tbl : Table.
Variable startCol : Z.

Abbreviation place_row := (placeRow Number_toString newDate cfg tbl startCol).

(** The write the cell loop makes at column index [i]. *)
Abbreviation write_at i cellData :=
  (formatCell Number_toString newDate
     (mjoin (map col_type (columns tbl) !! i))
     (mjoin (map columnFormat (columns tbl) !! i)) cellData).

Lemma applyWrite_merges (ws : Worksheet) (r : option Z) (c : Z) (w : CellWrite) :
  ws_merges (applyWrite ws r c w) = ws_merges ws.
Proof. unfold applyWrite. destruct (w_numFmt w); reflexivity. Qed.

Lemma applyWrite_widths (ws : Worksheet) (r : option Z) (c : Z) (w : CellWrite) :
  ws_widths (applyWrite ws r c w) = ws_widths ws.
Proof. unfold applyWrite. destruct (w_numFmt w); reflexivity. Qed.

Lemma applyWrite_name (ws : Worksheet) (r : option Z) (c : Z) (w : CellWrite) :
  ws_name (applyWrite ws r c w) = ws_name ws.
Proof. unfold applyWrite. destruct (w_numFmt w); reflexivity. Qed.

(** *** The merged ranges, the widths and the name *)

Lemma placeHeader_merges (st : Worksheet * option Z) :
  ws_merges (fst (placeHeader cfg tbl startCol st)) = ws_merges (fst st).
Proof.
  destruct st as [ws r]. unfold placeHeader. destruct (skipHeader tbl); [reflexivity|].
  cbn [negb fst]. now apply (forEachIdx_keeps ws_merges).
Qed.

Lemma placeHeader_widths (st : Worksheet * option Z) :
  ws_widths (fst (placeHeader cfg tbl startCol st)) = ws_widths (fst st).
Proof.
  destruct st as [ws r]. unfold placeHeader. destruct (skipHeader tbl); [reflexivity|].
  cbn [negb fst]. now apply (forEachIdx_keeps ws_widths).
Qed.

Lemma placeHeader_name (st : Worksheet * option Z) :
  ws_name (fst (placeHeader cfg tbl startCol st)) = ws_name (fst st).
Proof.
  destruct st as [ws r]. unfold placeHeader. destruct (skipHeader tbl); [reflexivity|].
  cbn [negb fst]. now apply (forEachIdx_keeps ws_name).
Qed.

Lemma placeRow_merges (st : Worksheet * option Z) (rowData : list CellData) :
  ws_merges (fst (place_row st rowData)) = ws_merges (fst st).
Proof.
  destruct st as [ws r]. cbn [placeRow fst].
  apply (forEachIdx_keeps ws_merges). intros ws0 x i.
  cbn [setStyle updateCell ws_merges]. apply applyWrite_merges.
Qed.

Lemma placeRow_widths (st : Worksheet * option Z) (rowData : list CellData) :
  ws_widths (fst (place_row st rowData)) = ws_widths (fst st).
Proof.
  destruct st as [ws r]. cbn [placeRow fst].
  apply (forEachIdx_keeps ws_widths). intros ws0 x i.
  cbn [setStyle updateCell ws_widths]. apply applyWrite_widths.
Qed.

Lemma placeRow_name (st : Worksheet * option Z) (rowData : list CellData) :
  ws_name (fst (place_row st rowData)) = ws_name (fst st).
Proof.
  destruct st as [ws r]. cbn [placeRow fst].
  apply (forEachIdx_keeps ws_name). intros ws0 x i.
  cbn [setStyle updateCell ws_name]. apply applyWrite_name.
Qed.

Lemma fold_keeps {B : Type} (P : Worksheet -> B)
    (HP : forall st rowData, P (fst (place_row st rowData)) = P (fst st))
    (rs : list (list CellData)) :
  forall st, P (fst (fold_left place_row rs st)) = P (fst st).
Proof.
  induction rs as [|row rest IH]; intros st; [reflexivity|].
  cbn [fold_left]. now rewrite IH, HP.
Qed.

Lemma placeAutoFilter_fields (startRow : option Z) (st : Worksheet * option Z) :
  ws_cells (fst (placeAutoFilter cfg tbl startRow startCol st)) = ws_cells (fst st)
  /\ ws_merges (fst (placeAutoFilter cfg tbl startRow startCol st)) = ws_merges (fst st)
  /\ ws_widths (fst (placeAutoFilter cfg tbl startRow startCol st)) = ws_widths (fst st)
  /\ ws_name (fst (placeAutoFilter cfg tbl startRow startCol st)) = ws_name (fst st).
Proof.
  destruct st as [ws r]. unfold placeAutoFilter.
  destruct (autoFilter cfg); repeat split.
Qed.

Lemma autoFitColumns_fields (startRow : option Z) (rs : list (list CellData)) (n : nat)
    (ws : Worksheet) :
  ws_cells (autoFitColumns Number_toString Date_toString ws startRow rs n startCol)
  = ws_cells ws
  /\ ws_merges (autoFitColumns Number_toString Date_toString ws startRow rs n startCol)
     = ws_merges ws
  /\ ws_name (autoFitColumns Number_toString Date_toString ws startRow rs n startCol)
     = ws_name ws.
Proof.
  unfold autoFitColumns. generalize (seq 0 n) as l. intros l. revert ws.
  induction l as [|i l IH]; intros ws; [repeat split|].
  cbn [fold_left]. destruct (IH (setWidth ws (startCol + Z.of_nat i)
    (columnMaxLength Number_toString Date_toString ws startRow rs startCol i + 2)))
    as (Hc & Hm & Hn).
  rewrite Hc, Hm, Hn. repeat split.
Qed.

(** *** The cells *)

Lemma placeHeader_written (ws : Worksheet) (row : Z) (i : nat) (col : Column) :
  rowClear ws row ->
  skipHeader tbl = false ->
  columns tbl !! i = Some col ->
  cellAt (fst (placeHeader cfg tbl startCol (ws, Some row))) (Some row, startCol + Z.of_nat i)
  = headerCell cfg col (cellAt ws (Some row, startCol + Z.of_nat i)).
Proof.
  intros Hclear Hskip Hcol. unfold placeHeader. rewrite Hskip. cbn [negb fst].
  apply (forEachIdx_written
           (fun ws col colIdx =>
              setStyle (setValue ws (Some row) (startCol + Z.of_nat colIdx)
                          (VPrim (PStr (col_name col))))
                (Some row) (startCol + Z.of_nat colIdx)
                (headerAlign cfg) (headerFont cfg) (borderConfigs cfg))
           (fun col _ old => headerCell cfg col old) row startCol
           ltac:(reflexivity)
           ltac:(intros; now apply headerWrite_cells)
           (columns tbl) 0%nat ws i col Hclear Hcol).
Qed.

Lemma placeHeader_frame (ws : Worksheet) (row : Z) (k : option Z * Z) :
  rowClear ws row ->
  fst k <> Some row ->
  cellAt (fst (placeHeader cfg tbl startCol (ws, Some row))) k = cellAt ws k.
Proof.
  intros Hclear Hk. unfold placeHeader. destruct (skipHeader tbl); [reflexivity|].
  cbn [negb fst].
  apply (forEachIdx_frame
           (fun ws col colIdx =>
              setStyle (setValue ws (Some row) (startCol + Z.of_nat colIdx)
                          (VPrim (PStr (col_name col))))
                (Some row) (startCol + Z.of_nat colIdx)
                (headerAlign cfg) (headerFont cfg) (borderConfigs cfg))
           (fun col _ old => headerCell cfg col old) row startCol
           ltac:(reflexivity)
           ltac:(intros; now apply headerWrite_cells)
           (columns tbl) k 0%nat ws Hclear).
  intros j _ ->. now apply Hk.
Qed.

Lemma placeRow_written (ws : Worksheet) (row : Z) (rowData : list CellData)
    (i : nat) (cellData : CellData) :
  rowClear ws row ->
  rowData !! i = Some cellData ->
  cellAt (fst (place_row (ws, Some row) rowData)) (Some row, startCol + Z.of_nat i)
  = bodyCell cfg (write_at i cellData) (cellAt ws (Some row, startCol + Z.of_nat i)).
Proof.
  intros Hclear Hcell. cbn [placeRow fst].
  apply (forEachIdx_written
           (fun ws cellData colIdx =>
              setStyle (applyWrite ws (Some row) (startCol + Z.of_nat colIdx)
                          (write_at colIdx cellData))
                (Some row) (startCol + Z.of_nat colIdx)
                (cellAlign cfg) (cellFont cfg) (borderConfigs cfg))
           (fun cellData colIdx old => bodyCell cfg (write_at colIdx cellData) old)
           row startCol
           ltac:(intros; cbn [setStyle updateCell ws_merges]; apply applyWrite_merges)
           ltac:(intros; now apply bodyWrite_cells)
           rowData 0%nat ws i cellData Hclear Hcell).
Qed.

Lemma placeRow_frame (ws : Worksheet) (row : Z) (rowData : list CellData)
    (k : option Z * Z) :
  rowClear ws row ->
  fst k <> Some row ->
  cellAt (fst (place_row (ws, Some row) rowData)) k = cellAt ws k.
Proof.
  intros Hclear Hk. cbn [placeRow fst].
  apply (forEachIdx_frame
           (fun ws cellData colIdx =>
              setStyle (applyWrite ws (Some row) (startCol + Z.of_nat colIdx)
                          (write_at colIdx cellData))
                (Some row) (startCol + Z.of_nat colIdx)
                (cellAlign cfg) (cellFont cfg) (borderConfigs cfg))
           (fun cellData colIdx old => bodyCell cfg (write_at colIdx cellData) old)
           row startCol
           ltac:(intros; cbn [setStyle updateCell ws_merges]; apply applyWrite_merges)
           ltac:(intros; now apply bodyWrite_cells)
           rowData k 0%nat ws Hclear).
  intros j _ ->. now apply Hk.
Qed.

(** The data rows from row [row] on leave every cell above [row] as it
    is. *)
Lemma placeRows_frame (rs : list (list CellData)) (k : option Z * Z) :
  forall ws row,
    (forall r, row <= r -> rowClear ws r) ->
    (forall r, row <= r -> fst k <> Some r) ->
    cellAt (fst (fold_left place_row rs (ws, Some row))) k = cellAt ws k.
Proof.
  induction rs as [|rowData rest IH]; intros ws row Hclear Hk; [reflexivity|].
  cbn [fold_left].
  change (place_row (ws, Some row) rowData)
    with (fst (place_row (ws, Some row) rowData), Some (row + 1)).
  rewrite IH.
  - apply placeRow_frame; [apply Hclear; lia | apply Hk; lia].
  - intros r Hr. eapply rowClear_merges; [apply placeRow_merges | apply Hclear; lia].
  - intros r Hr. apply Hk. lia.
Qed.

(** The cell of data row [n], column index [i]. *)
Lemma placeRows_written (rs : list (list CellData)) :
  forall ws row n rowData i cellData,
    (forall r, row <= r -> rowClear ws r) ->
    rs !! n = Some rowData ->
    rowData !! i = Some cellData ->
    cellAt (fst (fold_left place_row rs (ws, Some row)))
      (Some (row + Z.of_nat n), startCol + Z.of_nat i)
    = bodyCell cfg (write_at i cellData)
        (cellAt ws (Some (row + Z.of_nat n), startCol + Z.of_nat i)).
Proof.
  induction rs as [|first rest IH]; intros ws row n rowData i cellData Hclear Hn Hi;
    [discriminate|].
  cbn [fold_left].
  change (place_row (ws, Some row) first)
    with (fst (place_row (ws, Some row) first), Some (row + 1)).
  assert (Hclear' : forall r, row + 1 <= r ->
                      rowClear (fst (place_row (ws, Some row) first)) r).
  { intros r Hr. eapply rowClear_merges; [apply placeRow_merges | apply Hclear; lia]. }
  destruct n as [|n].
  - cbn in Hn. injection Hn as ->. rewrite Z.add_0_r.
    rewrite placeRows_frame.
    + apply placeRow_written; [apply Hclear; lia | exact Hi].
    + exact Hclear'.
    + intros r Hr E. cbn in E. injection E as E. lia.
  - cbn in Hn.
    replace (row + Z.of_nat (S n)) with (row + 1 + Z.of_nat n) by lia.
    rewrite (IH _ (row + 1) n rowData i cellData Hclear' Hn Hi).
    f_equal. apply placeRow_frame; [apply Hclear; lia|].
    cbn. intros E. injection E as E. lia.
Qed.

End Blocks.

(** ** The title block *)

Section Title.

Variable cfg : ExcelConfig.
Variable tbl : Table.
Variable startCol : Z.

Lemma placeTitle_merges (st : Worksheet * option Z) :
  ws_merges (fst (placeTitle cfg tbl startCol st))
  = ((if hasTitle tbl
      then [{| m_top := snd st; m_left := startCol; m_bottom := snd st;
               m_right := startCol + Z.of_nat (length (columns tbl)) - 1 |}]
      else [])
     ++ ws_merges (fst st))%list.
Proof.
  destruct st as [ws r]. unfold placeTitle, hasTitle.
  destruct (orElse (title tbl) None); reflexivity.
Qed.

Lemma placeTitle_widths (st : Worksheet * option Z) :
  ws_widths (fst (placeTitle cfg tbl startCol st)) = ws_widths (fst st).
Proof.
  destruct st as [ws r]. unfold placeTitle.
  destruct (orElse (title tbl) None); reflexivity.
Qed.

Lemma placeTitle_name (st : Worksheet * option Z) :
  ws_name (fst (placeTitle cfg tbl startCol st)) = ws_name (fst st).
Proof.
  destruct st as [ws r]. unfold placeTitle.
  destruct (orElse (title tbl) None); reflexivity.
Qed.

(** The merged range of a title lies on the title row alone. *)
Lemma placeTitle_rowClear (ws : Worksheet) (row r : Z) :
  rowClear ws r ->
  (hasTitle tbl = true -> r <> row) ->
  rowClear (fst (placeTitle cfg tbl startCol (ws, Some row))) r.
Proof.
  intros Hclear Hr m col. rewrite placeTitle_merges. cbn [fst snd].
  destruct (hasTitle tbl); [|apply Hclear].
  cbn [app]. intros [<- | Hin]; [|now apply Hclear].
  unfold covers. cbn [m_top m_bottom m_left m_right].
  rewrite Z.min_id, Z.max_id.
  destruct (Z.leb_spec row r); [|reflexivity].
  destruct (Z.leb_spec r row); [|reflexivity].
  exfalso. apply Hr; [reflexivity | lia].
Qed.

Lemma placeTitle_written (ws : Worksheet) (row : Z) (t : string) :
  rowClear ws row ->
  orElse (title tbl) None = Some t ->
  cellAt (fst (placeTitle cfg tbl startCol (ws, Some row))) (Some row, startCol)
  = titleCell cfg t (cellAt ws (Some row, startCol)).
Proof.
  intros Hclear Ht. unfold placeTitle. rewrite Ht. cbn [fst].
  unfold setStyle, setValue.
  rewrite (master_clear ws row startCol Hclear).
  rewrite cellAt_updateCell, decide_True by reflexivity.
  rewrite (cellAt_cells (updateCell ws (Some row, startCol) _) (mergeCells _ _ _ _ _))
    by reflexivity.
  rewrite cellAt_updateCell, decide_True by reflexivity.
  reflexivity.
Qed.

End Title.

(** ** A table as a whole *)

(** The worksheet and the row cursor after the title, the header and the
    data rows of a table. *)
Abbreviation placed Number_toString newDate cfg ws tbl startRow startCol :=
  (fold_left (placeRow Number_toString newDate cfg tbl startCol) (rows tbl)
     (placeHeader cfg tbl startCol (placeTitle cfg tbl startCol (ws, startRow)))).

Section Table.

Variable Number_toString : spec_float -> string.
Variable newDate : Prim -> option Z.
Variable Date_toString : Z -> string.
Variable cfg : ExcelConfig.

(** [placeTable] by its blocks: the cells, the merged ranges and the name
    of a worksheet that [placeTable] returns are those left by the three
    cell blocks; the widths are those of the autofit pass when it runs. *)
Lemma placeTable_unfold (ws ws' : Worksheet) (tbl : Table) :
  placeTable Number_toString newDate Date_toString cfg ws tbl = Some ws' ->
  exists startRow startCol,
    parseStartCell (default "A1" (startCell tbl)) = Some (startRow, startCol)
    /\ ws_cells ws' = ws_cells (fst (placed Number_toString newDate cfg ws tbl startRow startCol))
    /\ ws_merges ws' = ws_merges (fst (placed Number_toString newDate cfg ws tbl startRow startCol))
    /\ ws_name ws' = ws_name (fst (placed Number_toString newDate cfg ws tbl startRow startCol))
    /\ ws_widths ws'
       = if autoFitColumnWidth cfg
         then ws_widths
                (autoFitColumns Number_toString Date_toString
                   (fst (placeAutoFilter cfg tbl startRow startCol
                           (placed Number_toString newDate cfg ws tbl startRow startCol)))
                   startRow (rows tbl) (length (columns tbl)) startCol)
         else ws_widths (fst (placed Number_toString newDate cfg ws tbl startRow startCol)).
Proof.
  unfold placeTable.
  destruct (parseStartCell (default "A1" (startCell tbl))) as [[startRow startCol]|];
    [|discriminate].
  cbv zeta. intros H. apply (inj Some) in H. subst ws'.
  exists startRow, startCol. split; [reflexivity|].
  destruct (placeAutoFilter_fields cfg tbl startCol startRow
              (placed Number_toString newDate cfg ws tbl startRow startCol)) as (Hc & Hm & Hw & Hn).
  destruct (autoFitColumnWidth cfg).
  - destruct (autoFitColumns_fields Number_toString Date_toString startCol startRow
                (rows tbl) (length (columns tbl))
                (fst (placeAutoFilter cfg tbl startRow startCol
                        (placed Number_toString newDate cfg ws tbl startRow startCol)))) as (Hc' & Hm' & Hn').
    rewrite Hc', Hm', Hn', Hc, Hm, Hn. repeat split.
  - rewrite Hc, Hm, Hn, Hw. repeat split.
Qed.

(** The same for a table anchored at an integer row. *)
Lemma placeTable_blocks (ws : Worksheet) (tbl : Table) (r startCol : Z) :
  parseStartCell (default "A1" (startCell tbl)) = Some (Some r, startCol) ->
  exists ws',
    placeTable Number_toString newDate Date_toString cfg ws tbl = Some ws'
    /\ ws_cells ws' = ws_cells (fst (placed Number_toString newDate cfg ws tbl (Some r) startCol))
    /\ ws_merges ws' = ws_merges (fst (placed Number_toString newDate cfg ws tbl (Some r) startCol))
    /\ ws_name ws' = ws_name (fst (placed Number_toString newDate cfg ws tbl (Some r) startCol))
    /\ ws_widths ws'
       = if autoFitColumnWidth cfg
         then ws_widths
                (autoFitColumns Number_toString Date_toString
                   (fst (placeAutoFilter cfg tbl (Some r) startCol
                           (placed Number_toString newDate cfg ws tbl (Some r) startCol)))
                   (Some r) (rows tbl) (length (columns tbl)) startCol)
         else ws_widths (fst (placed Number_toString newDate cfg ws tbl (Some r) startCol)).
Proof.
  intros Hanchor.
  destruct (placeTable Number_toString newDate Date_toString cfg ws tbl) as [ws'|] eqn:E.
  - exists ws'. split; [reflexivity|].
    destruct (placeTable_unfold ws ws' tbl E) as (startRow & c & Hrc & H).
    rewrite Hanchor in Hrc. apply (inj Some) in Hrc.
    apply pair_equal_spec in Hrc as [<- <-]. exact H.
  - unfold placeTable in E. rewrite Hanchor in E. discriminate E.
Qed.

Lemma placed_merges (ws : Worksheet) (tbl : Table) (startRow : option Z) (startCol : Z) :
  ws_merges (fst (placed Number_toString newDate cfg ws tbl startRow startCol))
  = ((if hasTitle tbl
      then [{| m_top := startRow; m_left := startCol; m_bottom := startRow;
               m_right := startCol + Z.of_nat (length (columns tbl)) - 1 |}]
      else [])
     ++ ws_merges ws)%list.
Proof.
  rewrite (fold_keeps Number_toString newDate cfg tbl startCol ws_merges
             (placeRow_merges Number_toString newDate cfg tbl startCol)).
  rewrite placeHeader_merges, placeTitle_merges. reflexivity.
Qed.

Lemma placed_widths (ws : Worksheet) (tbl : Table) (startRow : option Z) (startCol : Z) :
  ws_widths (fst (placed Number_toString newDate cfg ws tbl startRow startCol)) = ws_widths ws.
Proof.
  rewrite (fold_keeps Number_toString newDate cfg tbl startCol ws_widths
             (placeRow_widths Number_toString newDate cfg tbl startCol)).
  rewrite placeHeader_widths, placeTitle_widths. reflexivity.
Qed.

Lemma placed_name (ws : Worksheet) (tbl : Table) (startRow : option Z) (startCol : Z) :
  ws_name (fst (placed Number_toString newDate cfg ws tbl startRow startCol)) = ws_name ws.
Proof.
  rewrite (fold_keeps Number_toString newDate cfg tbl startCol ws_name
             (placeRow_name Number_toString newDate cfg tbl startCol)).
  rewrite placeHeader_name, placeTitle_name. reflexivity.
Qed.

(** The cells of a table placed at an integer row on rows that no merged
    range reaches. *)
Lemma placed_cells (ws : Worksheet) (tbl : Table) (r startCol : Z) :
  (forall row, r <= row -> rowClear ws row) ->
  (forall t, orElse (title tbl) None = Some t ->
     exists old,
       cellAt (fst (placed Number_toString newDate cfg ws tbl (Some r) startCol)) (Some r, startCol)
       = titleCell cfg t old)
  /\ (skipHeader tbl = false ->
      forall i col, columns tbl !! i = Some col ->
        exists old,
          cellAt (fst (placed Number_toString newDate cfg ws tbl (Some r) startCol))
            (Some (r + (if hasTitle tbl then 1 else 0)), startCol + Z.of_nat i)
          = headerCell cfg col old)
  /\ (forall n rowData i cellData,
        rows tbl !! n = Some rowData -> rowData !! i = Some cellData ->
        exists old,
          cellAt (fst (placed Number_toString newDate cfg ws tbl (Some r) startCol))
            (Some (r + headRows tbl + Z.of_nat n), startCol + Z.of_nat i)
          = bodyCell cfg
              (formatCell Number_toString newDate
                 (mjoin (map col_type (columns tbl) !! i))
                 (mjoin (map columnFormat (columns tbl) !! i)) cellData)
              old).
Proof.
  intros Hclear.
  set (t1 := if hasTitle tbl then 1 else 0).
  set (h1 := if skipHeader tbl then 0 else 1).
  assert (Ht1 : 0 <= t1) by (subst t1; destruct (hasTitle tbl); lia).
  assert (Hh1 : 0 <= h1) by (subst h1; destruct (skipHeader tbl); lia).
  set (st1 := placeTitle cfg tbl startCol (ws, Some r)).
  assert (Hst1 : st1 = (fst st1, Some (r + t1))).
  { rewrite (surjective_pairing st1) at 1. f_equal.
    subst st1. rewrite (placeTitle_row cfg). reflexivity. }
  assert (Hclear1 : forall row, r + t1 <= row -> rowClear (fst st1) row).
  { intros row Hrow. subst st1. apply placeTitle_rowClear; [apply Hclear; lia|].
    intros Htitle. subst t1. rewrite Htitle in Hrow. lia. }
  set (st2 := placeHeader cfg tbl startCol st1).
  assert (Hst2 : st2 = (fst st2, Some (r + t1 + h1))).
  { rewrite (surjective_pairing st2) at 1. f_equal.
    subst st2. rewrite (placeHeader_row cfg), Hst1. cbn [snd rowAdd]. reflexivity. }
  assert (Hclear2 : forall row, r + t1 <= row -> rowClear (fst st2) row).
  { intros row Hrow. subst st2.
    eapply rowClear_merges; [apply placeHeader_merges | now apply Hclear1]. }
  change (placed Number_toString newDate cfg ws tbl (Some r) startCol)
    with (fold_left (placeRow Number_toString newDate cfg tbl startCol) (rows tbl) st2).
  rewrite Hst2.
  assert (Hclear3 : forall row, r + t1 + h1 <= row -> rowClear (fst st2) row)
    by (intros row Hrow; apply Hclear2; lia).
  split; [|split].
  - intros t Ht.
    assert (Htitle : hasTitle tbl = true) by (unfold hasTitle; now rewrite Ht).
    exists (cellAt ws (Some r, startCol)).
    rewrite placeRows_frame; [|exact Hclear3|].
    2:{ intros row Hrow E. cbn in E. injection E as E.
        subst t1. rewrite Htitle in Hrow. lia. }
    subst st2. rewrite Hst1. rewrite placeHeader_frame.
    + subst st1. apply placeTitle_written; [apply Hclear; lia | exact Ht].
    + apply Hclear1. lia.
    + cbn. intros E. injection E as E. subst t1. rewrite Htitle in E. lia.
  - intros Hskip i col Hcol.
    exists (cellAt (fst st1) (Some (r + t1), startCol + Z.of_nat i)).
    rewrite placeRows_frame; [|exact Hclear3|].
    2:{ intros row Hrow E. cbn in E. injection E as E.
        subst h1. rewrite Hskip in Hrow. lia. }
    subst st2. rewrite Hst1.
    apply placeHeader_written; [apply Hclear1; lia | exact Hskip | exact Hcol].
  - intros n rowData i cellData Hn Hi.
    eexists. unfold headRows. fold t1.
    replace ((if skipHeader tbl then 0 else 1)) with h1 by reflexivity.
    replace (r + (t1 + h1) + Z.of_nat n) with (r + t1 + h1 + Z.of_nat n) by lia.
    apply (placeRows_written Number_toString newDate cfg tbl startCol (rows tbl)
             (fst st2) (r + t1 + h1) n rowData i cellData Hclear3 Hn Hi).
Qed.

(** Under a title, every cell of the title's range has the anchor for its
    top-left cell. *)
Lemma title_master (ws : Worksheet) (tbl : Table) (r c : Z) (t : string) (i : nat) :
  orElse (title tbl) None = Some t ->
  (i < length (columns tbl))%nat ->
  match List.find (fun m => covers m (Some r) (c + Z.of_nat i))
          (ws_merges (fst (placed Number_toString newDate cfg ws tbl (Some r) c))) with
  | Some m =>
      (match m_top m, m_bottom m with
       | Some t, Some b => Some (Z.min t b)
       | _, _ => Some r
       end,
       Z.min (m_left m) (m_right m))
  | None => (Some r, c + Z.of_nat i)
  end
  = (Some r, c).
Proof.
  intros Ht Hi.
  assert (Hcov : covers {| m_top := Some r; m_left := c; m_bottom := Some r;
                           m_right := c + Z.of_nat (length (columns tbl)) - 1 |}
                   (Some r) (c + Z.of_nat i) = true).
  { unfold covers. cbn [m_top m_bottom m_left m_right].
    repeat (apply andb_true_intro; split); apply Z.leb_le; lia. }
  rewrite placed_merges.
  unfold hasTitle. rewrite Ht. cbn [app List.find]. rewrite Hcov.
  cbn [m_top m_bottom m_left m_right]. f_equal; [f_equal|]; lia.
Qed.

End Table.

Import Samples.





(** ** Column widths *)

Section Widths.

Variable Number_toString : spec_float -> string.
Variable Date_toString : Z -> string.
Variable startRow : option Z.
Variable rs : list (list CellData).
Variable startCol : Z.

Abbreviation max_length ws i :=
  (columnMaxLength Number_toString Date_toString ws startRow rs startCol i).

Abbreviation fit_columns l ws :=
  (fold_left (fun ws colIdx => setWidth ws (startCol + Z.of_nat colIdx) (max_length ws colIdx + 2))
     l ws).

(** The measured length reads the worksheet through its cells and merged
    ranges alone. *)
Lemma columnMaxLength_cells (ws ws' : Worksheet) (i : nat) :
  ws_cells ws' = ws_cells ws -> ws_merges ws' = ws_merges ws ->
  max_length ws' i = max_length ws i.
Proof.
  intros Hc Hm. unfold columnMaxLength, getValue, master.
  rewrite Hm. now rewrite (cellAt_cells ws ws' _ Hc).
Qed.


Lemma fit_columns_fields (l : list nat) (ws : Worksheet) :
  ws_cells (fit_columns l ws) = ws_cells ws
  /\ ws_merges (fit_columns l ws) = ws_merges ws.
Proof.
  revert ws. induction l as [|i l IH]; intros ws; [split; reflexivity|].
  cbn [fold_left]. destruct (IH (setWidth ws (startCol + Z.of_nat i) (max_length ws i + 2)))
    as [Hc Hm].
  rewrite Hc, Hm. split; reflexivity.
Qed.

(** A column that is not among the fitted ones keeps its width. *)
Lemma fit_columns_other (l : list nat) (ws : Worksheet) (k : Z) :
  (forall i, In i l -> k <> startCol + Z.of_nat i) ->
  ws_widths (fit_columns l ws) !! k = ws_widths ws !! k.
Proof.
  revert ws. induction l as [|i l IH]; intros ws Hk; [reflexivity|].
  cbn [fold_left]. rewrite IH by (intros j Hj; apply Hk; now right).
  cbn [setWidth ws_widths]. apply lookup_insert_ne.
  intros E. apply (Hk i); [now left | now symmetry].
Qed.

(** A fitted column gets the measured length plus two. *)
Lemma fit_columns_width (l : list nat) (ws : Worksheet) (i : nat) :
  In i l ->
  ws_widths (fit_columns l ws) !! (startCol + Z.of_nat i) = Some (max_length ws i + 2).
Proof.
  revert ws. induction l as [|x l IH]; intros ws Hin; [contradiction|].
  cbn [fold_left].
  destruct (in_dec Nat.eq_dec i l) as [Hl | Hl].
  - rewrite (IH _ Hl). reflexivity.
  - destruct Hin as [-> | Hin]; [|contradiction].
    rewrite fit_columns_other.
    + cbn [setWidth ws_widths]. apply lookup_insert_eq.
    + intros j Hj E. apply Hl. replace i with j by lia. exact Hj.
Qed.

End Widths.



(** ** What a table leaves alone *)

Section Outside.

Variable Number_toString : spec_float -> string.
Variable newDate : Prim -> option Z.
Variable Date_toString : Z -> string.
Variable cfg : ExcelConfig.
Variable tbl : Table.
Variable startCol : Z.

Lemma placeTitle_outside (ws : Worksheet) (row : Z) (k : option Z * Z) :
  rowClear ws row ->
  k <> (Some row, startCol) ->
  cellAt (fst (placeTitle cfg tbl startCol (ws, Some row))) k = cellAt ws k.
Proof.
  intros Hclear Hk. unfold placeTitle.
  destruct (orElse (title tbl) None) as [t|]; [|reflexivity]. cbn [fst].
  unfold setStyle, setValue.
  rewrite (master_clear ws row startCol Hclear).
  rewrite cellAt_updateCell, decide_False by (intros E; now apply Hk).
  rewrite (cellAt_cells (updateCell ws (Some row, startCol) _) (mergeCells _ _ _ _ _))
    by reflexivity.
  rewrite cellAt_updateCell, decide_False by (intros E; now apply Hk).
  reflexivity.
Qed.

Lemma placeHeader_outside (ws : Worksheet) (row : Z) (k : option Z * Z) :
  rowClear ws row ->
  fst k <> Some row \/ snd k < startCol ->
  cellAt (fst (placeHeader cfg tbl startCol (ws, Some row))) k = cellAt ws k.
Proof.
  intros Hclear Hk. unfold placeHeader. destruct (skipHeader tbl); [reflexivity|].
  cbn [negb fst].
  apply (forEachIdx_frame
           (fun ws col colIdx =>
              setStyle (setValue ws (Some row) (startCol + Z.of_nat colIdx)
                          (VPrim (PStr (col_name col))))
                (Some row) (startCol + Z.of_nat colIdx)
                (headerAlign cfg) (headerFont cfg) (borderConfigs cfg))
           (fun col _ old => headerCell cfg col old) row startCol
           ltac:(reflexivity)
           ltac:(intros; now apply headerWrite_cells)
           (columns tbl) k 0%nat ws Hclear).
  intros j _ ->. cbn [fst snd] in Hk. destruct Hk as [Hk | Hk]; [now apply Hk | lia].
Qed.

Lemma placeRow_outside (ws : Worksheet) (row : Z) (rowData : list CellData)
    (k : option Z * Z) :
  rowClear ws row ->
  fst k <> Some row \/ snd k < startCol ->
  cellAt (fst (placeRow Number_toString newDate cfg tbl startCol (ws, Some row) rowData)) k
  = cellAt ws k.
Proof.
  intros Hclear Hk. cbn [placeRow fst].
  apply (forEachIdx_frame
           (fun ws cellData colIdx =>
              setStyle (applyWrite ws (Some row) (startCol + Z.of_nat colIdx)
                          (formatCell Number_toString newDate
                             (mjoin (map col_type (columns tbl) !! colIdx))
                             (mjoin (map columnFormat (columns tbl) !! colIdx)) cellData))
                (Some row) (startCol + Z.of_nat colIdx)
                (cellAlign cfg) (cellFont cfg) (borderConfigs cfg))
           (fun cellData colIdx old =>
              bodyCell cfg
                (formatCell Number_toString newDate
                   (mjoin (map col_type (columns tbl) !! colIdx))
                   (mjoin (map columnFormat (columns tbl) !! colIdx)) cellData)
                old)
           row startCol
           ltac:(intros; cbn [setStyle updateCell ws_merges]; apply applyWrite_merges)
           ltac:(intros; now apply bodyWrite_cells)
           rowData k 0%nat ws Hclear).
  intros j _ ->. cbn [fst snd] in Hk. destruct Hk as [Hk | Hk]; [now apply Hk | lia].
Qed.

Lemma placeRows_outside (rs : list (list CellData)) (k : option Z * Z) :
  forall ws row,
    (forall r, row <= r -> rowClear ws r) ->
    (forall r, row <= r < row + Z.of_nat (length rs) -> fst k <> Some r)
    \/ snd k < startCol ->
    cellAt (fst (fold_left (placeRow Number_toString newDate cfg tbl startCol) rs
                   (ws, Some row))) k
    = cellAt ws k.
Proof.
  induction rs as [|rowData rest IH]; intros ws row Hclear Hk; [reflexivity|].
  cbn [fold_left].
  change (placeRow Number_toString newDate cfg tbl startCol (ws, Some row) rowData)
    with (fst (placeRow Number_toString newDate cfg tbl startCol (ws, Some row) rowData),
          Some (row + 1)).
  cbn [length] in Hk.
  rewrite IH.
  - apply placeRow_outside; [apply Hclear; lia|].
    destruct Hk as [Hk | Hk]; [left; apply Hk; lia | now right].
  - intros r Hr. eapply rowClear_merges; [apply placeRow_merges | apply Hclear; lia].
  - destruct Hk as [Hk | Hk]; [left; intros r Hr; apply Hk; lia | now right].
Qed.

(** The cell blocks of a table write on the table's rows only, at its
    first column or right of it. *)
Lemma placed_outside (ws : Worksheet) (r : Z) (k : option Z * Z) :
  (forall row, r <= row -> rowClear ws row) ->
  (forall row, r <= row < r + tableHeight tbl -> fst k <> Some row) \/ snd k < startCol ->
  cellAt (fst (placed Number_toString newDate cfg ws tbl (Some r) startCol)) k = cellAt ws k.
Proof.
  intros Hclear Hk.
  set (t1 := if hasTitle tbl then 1 else 0).
  set (h1 := if skipHeader tbl then 0 else 1).
  assert (Hheight : tableHeight tbl = t1 + h1 + Z.of_nat (length (rows tbl))) by reflexivity.
  assert (Ht1 : 0 <= t1 <= 1) by (subst t1; destruct (hasTitle tbl); lia).
  assert (Hh1 : 0 <= h1 <= 1) by (subst h1; destruct (skipHeader tbl); lia).
  set (st1 := placeTitle cfg tbl startCol (ws, Some r)).
  assert (Hst1 : st1 = (fst st1, Some (r + t1))).
  { rewrite (surjective_pairing st1) at 1. f_equal.
    subst st1. rewrite (placeTitle_row cfg). reflexivity. }
  assert (Hclear1 : forall row, r + t1 <= row -> rowClear (fst st1) row).
  { intros row Hrow. subst st1. apply placeTitle_rowClear; [apply Hclear; lia|].
    intros Htitle. subst t1. rewrite Htitle in Hrow. lia. }
  set (st2 := placeHeader cfg tbl startCol st1).
  assert (Hst2 : st2 = (fst st2, Some (r + t1 + h1))).
  { rewrite (surjective_pairing st2) at 1. f_equal.
    subst st2. rewrite (placeHeader_row cfg), Hst1. cbn [snd rowAdd]. reflexivity. }
  assert (Hclear2 : forall row, r + t1 <= row -> rowClear (fst st2) row).
  { intros row Hrow. subst st2.
    eapply rowClear_merges; [apply placeHeader_merges | now apply Hclear1]. }
  change (placed Number_toString newDate cfg ws tbl (Some r) startCol)
    with (fold_left (placeRow Number_toString newDate cfg tbl startCol) (rows tbl) st2).
  rewrite Hst2.
  rewrite placeRows_outside.
  2:{ intros row Hrow. apply Hclear2. lia. }
  2:{ destruct Hk as [Hk | Hk]; [left; intros row Hrow; apply Hk; lia | now right]. }
  subst st2. rewrite Hst1.
  destruct (skipHeader tbl) eqn:Hskip.
  - unfold placeHeader. rewrite Hskip. cbn [negb fst].
    destruct (hasTitle tbl) eqn:Htitle.
    + subst st1. apply placeTitle_outside; [apply Hclear; lia|].
      intros ->. cbn [fst snd] in Hk. destruct Hk as [Hk | Hk]; [|lia].
      apply (Hk r); [|reflexivity]. subst t1. lia.
    + subst st1. unfold placeTitle. unfold hasTitle in Htitle.
      destruct (orElse (title tbl) None); [discriminate | reflexivity].
  - rewrite placeHeader_outside.
    + destruct (hasTitle tbl) eqn:Htitle.
      * subst st1. apply placeTitle_outside; [apply Hclear; lia|].
        intros ->. cbn [fst snd] in Hk. destruct Hk as [Hk | Hk]; [|lia].
        apply (Hk r); [|reflexivity]. subst t1. lia.
      * subst st1. unfold placeTitle. unfold hasTitle in Htitle.
        destruct (orElse (title tbl) None); [discriminate | reflexivity].
    + apply Hclear1. lia.
    + destruct Hk as [Hk | Hk]; [left; apply Hk; subst h1; lia | now right].
Qed.



End Outside.

(** X13.  A table placed at a row below 2^53 on rows that no merged range
    reaches (from its first row on), with at least one column if it has a
    title (so that the title's range starts at the anchor), writes on its
    own rows only, and never left of its first column: every cell of
    another row of the worksheet, and every cell of a column before
    [startCol], is after the table what it was before. *)
Theorem table_writes_its_rows_only
    (Number_toString : spec_float -> string) (newDate : Prim -> option Z)
    (Date_toString : Z -> string)
    (cfg : ExcelConfig) (ws : Worksheet) (tbl : Table) (r c : Z) (k : option Z * Z) :
  anchored tbl r c ->
  r < 2 ^ 53 ->
  (forall row, r <= row -> rowClear ws row) ->
  (hasTitle tbl = true -> columns tbl <> []) ->
  (forall row, r <= row < r + tableHeight tbl -> fst k <> Some row) \/ snd k < c ->
  exists ws',
    placeTable Number_toString newDate Date_toString cfg ws tbl = Some ws'
    /\ cellAt ws' k = cellAt ws k.
Proof.
  intros (Hanchor & _ & _) _ Hclear _ Hk.
  destruct (placeTable_blocks Number_toString newDate Date_toString cfg ws tbl
              r c Hanchor) as (ws' & Hplace & Hcells & _).
  exists ws'. split; [exact Hplace|].
  rewrite (cellAt_cells _ _ _ Hcells).
  now apply placed_outside.
Qed.

Lemma table_writes_its_rows_only_witness :
  exists ws',
    placeTable (fun _ => "") (fun _ => None) (fun _ => "")
      (config false false) (addWorksheet "Report") stockTable = Some ws'
    /\ cellAt ws' (Some 4, 4) = emptyCell
    /\ cellAt ws' (Some 8, 4) = emptyCell
    /\ cellAt ws' (Some 6, 3) = emptyCell.
Proof.
  assert (Hanchor : anchored stockTable 5 4) by (split; [reflexivity | lia]).
  pose (place k :=
          table_writes_its_rows_only (fun _ => "") (fun _ => None) (fun _ => "")
            (config false false) (addWorksheet "Report") stockTable 5 4 k Hanchor
            ltac:(lia)
            (fun row _ m col (Hin : In m []) => match Hin with end)
            ltac:(discriminate)).
  destruct (place (Some 4, 4)) as (ws' & Hplace & H1).
  { left. intros row Hrow E. cbn in E. injection E as E. lia. }
  destruct (place (Some 8, 4)) as (ws2 & Hplace2 & H2).
  { left. intros row Hrow E. cbn in E. injection E as E.
    change (tableHeight stockTable) with 3 in Hrow. lia. }
  destruct (place (Some 6, 3)) as (ws3 & Hplace3 & H3).
  { right. cbn. lia. }
  rewrite Hplace in Hplace2, Hplace3.
  apply (inj Some) in Hplace2, Hplace3. subst ws2 ws3.
  exists ws'. split; [exact Hplace|]. rewrite H1, H2, H3. repeat split.
Defined.



(** ** What the autofit measures *)

Section Measured.

Variable Number_toString : spec_float -> string.
Variable newDate : Prim -> option Z.
Variable Date_toString : Z -> string.
Variable cfg : ExcelConfig.

(** The rows count with the length of "[object Object]" or not at all. *)
Lemma rows_objectLength (rs : list (list CellData)) (i : nat) :
  fold_left
    (fun maxLength (row : list CellData) =>
       match row !! i with
       | Some cellValue => Z.max maxLength (Z.of_nat (String.length objectToString))
       | None => maxLength
       end)
    rs 0
  = objectLength rs i.
Proof.
  unfold objectLength.
  change (Z.of_nat (String.length objectToString)) with 15.
  assert (Hgen : forall acc, acc = 0 \/ acc = 15 ->
            fold_left
              (fun maxLength (row : list CellData) =>
                 match row !! i with
                 | Some cellValue => Z.max maxLength 15
                 | None => maxLength
                 end)
              rs acc
            = if existsb (fun row : list CellData => (i <? length row)%nat) rs
              then 15 else acc).
  { induction rs as [|row rest IH]; intros acc Hacc; [reflexivity|].
    cbn [fold_left existsb].
    destruct (Nat.ltb_spec i (length row)) as [Hlt | Hge].
    - destruct (lookup_lt_is_Some_2 row i Hlt) as [x ->].
      rewrite IH by (right; lia). cbn [orb].
      destruct (existsb _ rest); [reflexivity | lia].
    - rewrite (lookup_ge_None_2 row i Hge). cbn [orb]. now apply IH. }
  apply Hgen. now left.
Qed.

(** The width the autofit pass gives column [i] of a table, from the
    value it reads at the table's first row. *)
Lemma placeTable_width (ws : Worksheet) (tbl : Table) (r c : Z) (i : nat) :
  parseStartCell (default "A1" (startCell tbl)) = Some (Some r, c) ->
  autoFitColumnWidth cfg = true ->
  (i < length (columns tbl))%nat ->
  exists ws',
    placeTable Number_toString newDate Date_toString cfg ws tbl = Some ws'
    /\ ws_widths ws' !! (c + Z.of_nat i)
       = Some (match getValue (fst (placed Number_toString newDate cfg ws tbl (Some r) c))
                       (Some r) (c + Z.of_nat i) with
               | Some v =>
                   Z.max (objectLength (rows tbl) i)
                     (Z.of_nat (String.length (valueToString Number_toString Date_toString v)))
               | None => objectLength (rows tbl) i
               end + 2).
Proof.
  intros Hanchor Hfit Hi.
  destruct (placeTable_blocks Number_toString newDate Date_toString cfg ws tbl
              r c Hanchor) as (ws' & Hplace & _ & _ & _ & Hw).
  exists ws'. split; [exact Hplace|].
  rewrite Hfit in Hw. unfold autoFitColumns in Hw. rewrite Hw.
  rewrite fit_columns_width by (apply in_seq; lia).
  destruct (placeAutoFilter_fields cfg tbl c (Some r)
              (placed Number_toString newDate cfg ws tbl (Some r) c))
    as (Hc4 & Hm4 & _ & _).
  rewrite (columnMaxLength_cells Number_toString Date_toString (Some r) (rows tbl) c
             _ _ i Hc4 Hm4).
  unfold columnMaxLength. rewrite rows_objectLength. reflexivity.
Qed.

End Measured.

(** X15.  What the autofit measures for a table placed at a row below
    2^53 on rows that no merged range reaches (from its first row on).  Under a title every
    column of the table gets the same width from its head: the cell read
    at the table's first row lies in the merged title range, so the
    title's length counts, not the column name's.  Without a title, the
    header not skipped, the column name counts.  In both cases the data
    rows add the length of "[object Object]", 15, as soon as one of them
    has an entry in the column, and nothing of what the entries hold. *)
Theorem autofit_measures
    (Number_toString : spec_float -> string) (newDate : Prim -> option Z)
    (Date_toString : Z -> string)
    (cfg : ExcelConfig) (ws : Worksheet) (tbl : Table) (r c : Z) :
  anchored tbl r c ->
  r < 2 ^ 53 ->
  (forall row, r <= row -> rowClear ws row) ->
  autoFitColumnWidth cfg = true ->
  exists ws',
    placeTable Number_toString newDate Date_toString cfg ws tbl = Some ws'
    /\ (forall t, orElse (title tbl) None = Some t ->
          forall i, (i < length (columns tbl))%nat ->
            ws_widths ws' !! (c + Z.of_nat i)
            = Some (Z.max (objectLength (rows tbl) i) (Z.of_nat (String.length t)) + 2))
    /\ (hasTitle tbl = false -> skipHeader tbl = false ->
        forall i col, columns tbl !! i = Some col ->
          ws_widths ws' !! (c + Z.of_nat i)
          = Some (Z.max (objectLength (rows tbl) i)
                    (Z.of_nat (String.length (col_name col))) + 2)).
Proof.
  intros (Hanchor & _ & _) _ Hclear Hfit.
  destruct (placeTable_blocks Number_toString newDate Date_toString cfg ws tbl
              r c Hanchor) as (ws' & Hplace & _).
  exists ws'. split; [exact Hplace|].
  destruct (placed_cells Number_toString newDate cfg ws tbl r c Hclear)
    as (Htitle & Hheader & _).
  split.
  - intros t Ht i Hi.
    destruct (placeTable_width Number_toString newDate Date_toString cfg ws tbl r c i
                Hanchor Hfit Hi) as (ws2 & Hplace2 & Hwidth).
    rewrite Hplace in Hplace2. apply (inj Some) in Hplace2. subst ws2.
    rewrite Hwidth. do 2 f_equal.
    assert (Hmaster : master (fst (placed Number_toString newDate cfg ws tbl (Some r) c))
                        (Some r) (c + Z.of_nat i) = (Some r, c))
      by (unfold master; apply (title_master Number_toString newDate cfg ws tbl r c t i Ht Hi)).
    unfold getValue. rewrite Hmaster.
    destruct (Htitle t Ht) as [old ->]. reflexivity.
  - intros Hno Hskip i col Hcol.
    assert (Hi : (i < length (columns tbl))%nat) by (now apply lookup_lt_Some in Hcol).
    destruct (placeTable_width Number_toString newDate Date_toString cfg ws tbl r c i
                Hanchor Hfit Hi) as (ws2 & Hplace2 & Hwidth).
    rewrite Hplace in Hplace2. apply (inj Some) in Hplace2. subst ws2.
    rewrite Hwidth. do 2 f_equal.
    assert (Hrow : rowClear (fst (placed Number_toString newDate cfg ws tbl (Some r) c)) r).
    { eapply rowClear_merges; [|apply (Hclear r); lia].
      rewrite placed_merges, Hno. reflexivity. }
    unfold getValue. rewrite (master_clear _ r (c + Z.of_nat i) Hrow).
    destruct (Hheader Hskip i col Hcol) as [old Hold].
    rewrite Hno, Z.add_0_r in Hold. rewrite Hold. reflexivity.
Qed.

Lemma autofit_measures_witness :
  exists ws',
    placeTable (fun _ => "") (fun _ => None) (fun _ => "")
      (config false true) (addWorksheet "Report") quantityTable = Some ws'
    /\ ws_widths ws' !! 1 = Some 3.
Proof.
  destruct (autofit_measures (fun _ => "") (fun _ => None) (fun _ => "")
              (config false true) (addWorksheet "Report") quantityTable 1 1)
    as (ws' & Hplace & Htitle & _).
  { split; [reflexivity | lia]. }
  { lia. }
  { intros row _ m col Hin. destruct Hin. }
  { reflexivity. }
  exists ws'. split; [exact Hplace|].
  exact (Htitle "T" eq_refl 0%nat ltac:(cbn; lia)).
Defined.

(** ** Sheets and the workbook *)

Section Sheets.

Variable Number_toString : spec_float -> string.
Variable newDate : Prim -> option Z.
Variable Date_toString : Z -> string.
Variable cfg : ExcelConfig.

(** A table whose anchor is the empty string raises. *)
Lemma placeTable_empty_anchor (ws : Worksheet) (tbl : Table) :
  startCell tbl = Some EmptyString ->
  placeTable Number_toString newDate Date_toString cfg ws tbl = None.
Proof. intros H. unfold placeTable, parseStartCell. rewrite H. reflexivity. Qed.

(** What the tables of a sheet leave on the worksheet apart from cells. *)
Lemma placeTables_fields (tbls : list Table) :
  forall ws ws',
    placeTables Number_toString newDate Date_toString cfg ws tbls = Some ws' ->
    ws_name ws' = ws_name ws
    /\ length (ws_merges ws')
       = (length (List.filter hasTitle tbls) + length (ws_merges ws))%nat
    /\ (autoFilter cfg = false -> ws_autoFilter ws' = ws_autoFilter ws)
    /\ (autoFitColumnWidth cfg = false -> ws_widths ws' = ws_widths ws).
Proof.
  induction tbls as [|tbl tbls IH]; intros ws ws' H; cbn [placeTables] in H.
  - apply (inj Some) in H. subst ws'. repeat split.
  - destruct (placeTable Number_toString newDate Date_toString cfg ws tbl) as [ws1|] eqn:E1;
      [|discriminate].
    destruct (IH ws1 ws' H) as (Hn & Hm & Hf & Hw).
    destruct (placeTable_unfold Number_toString newDate Date_toString cfg ws ws1 tbl E1)
      as (startRow & startCol & _ & _ & Hm1 & Hn1 & Hw1).
    destruct (placeTable_autoFilter Number_toString newDate Date_toString cfg ws ws1 tbl E1)
      as (r' & c' & _ & Hf1).
    rewrite placed_merges in Hm1. rewrite placed_name in Hn1.
    split; [congruence|]. split; [|split].
    + rewrite Hm, Hm1. cbn [List.filter]. rewrite length_app.
      destruct (hasTitle tbl); cbn [length]; lia.
    + intros Hoff. rewrite (Hf Hoff), Hf1, Hoff. reflexivity.
    + intros Hoff. rewrite (Hw Hoff), Hw1, Hoff. apply placed_widths.
Qed.

Lemma placeTables_empty_anchor (tbls : list Table) :
  Exists (fun tbl => startCell tbl = Some EmptyString) tbls ->
  forall ws, placeTables Number_toString newDate Date_toString cfg ws tbls = None.
Proof.
  induction 1 as [tbl tbls Hhd | tbl tbls _ IH]; intros ws; cbn [placeTables].
  - now rewrite (placeTable_empty_anchor ws tbl Hhd).
  - destruct (placeTable Number_toString newDate Date_toString cfg ws tbl);
      [apply IH | reflexivity].
Qed.

Lemma buildWorkbook_empty_anchor (sheets : list SheetData) :
  Exists (fun sheet => Exists (fun tbl => startCell tbl = Some EmptyString) (tables sheet))
    sheets ->
  buildWorkbook Number_toString newDate Date_toString cfg sheets = None.
Proof.
  induction 1 as [sheet sheets Hhd | sheet sheets _ IH]; cbn [buildWorkbook].
  - unfold placeSheet. now rewrite (placeTables_empty_anchor _ Hhd).
  - destruct (placeSheet Number_toString newDate Date_toString cfg sheet); [|reflexivity].
    now rewrite IH.
Qed.

(** A workbook that is built has no table with an empty anchor. *)
Lemma buildWorkbook_anchors (sheets : list SheetData) (wb : list Worksheet) :
  buildWorkbook Number_toString newDate Date_toString cfg sheets = Some wb ->
  Forall (fun sheet => Forall (fun tbl => startCell tbl <> Some EmptyString) (tables sheet))
    sheets.
Proof.
  intros Hwb. apply Forall_forall. intros sheet Hsheet.
  apply Forall_forall. intros tbl Htbl Hbad.
  rewrite buildWorkbook_empty_anchor in Hwb; [discriminate|].
  apply Exists_exists. exists sheet. split; [exact Hsheet|].
  apply Exists_exists. exists tbl. now split.
Qed.

Lemma buildWorkbook_sheets (sheets : list SheetData) :
  forall wb,
    buildWorkbook Number_toString newDate Date_toString cfg sheets = Some wb ->
    Forall2
      (fun sheet ws =>
         placeSheet Number_toString newDate Date_toString cfg sheet = Some ws)
      sheets wb.
Proof.
  induction sheets as [|sheet sheets IH]; intros wb H; cbn [buildWorkbook] in H.
  - apply (inj Some) in H. subst wb. constructor.
  - destruct (placeSheet Number_toString newDate Date_toString cfg sheet) as [ws1|] eqn:E1;
      [|discriminate].
    destruct (buildWorkbook Number_toString newDate Date_toString cfg sheets) as [wss|];
      [|discriminate].
    apply (inj Some) in H. subst wb. constructor; [exact E1 | now apply IH].
Qed.

End Sheets.

(** X16.  The workbook as a whole.  The build raises as soon as some
    table of some sheet has the empty string for [startCell].  A workbook
    that the build returns holds one worksheet per sheet of the request;
    the worksheet of a sheet has one merged range per titled table of the
    sheet, no autofilter when the switch is off and no column width when
    the autofit switch is off. *)
Theorem workbook_outcome
    (Number_toString : spec_float -> string) (newDate : Prim -> option Z)
    (Date_toString : Z -> string) (cfg : ExcelConfig) (sheets : list SheetData) :
  (Exists (fun sheet => Exists (fun tbl => startCell tbl = Some EmptyString) (tables sheet))
     sheets ->
   buildWorkbook Number_toString newDate Date_toString cfg sheets = None)
  /\ (forall wb,
        buildWorkbook Number_toString newDate Date_toString cfg sheets = Some wb ->
        length wb = length sheets
        /\ Forall2
             (fun sheet ws =>
                length (ws_merges ws) = length (List.filter hasTitle (tables sheet))
                /\ (autoFilter cfg = false -> ws_autoFilter ws = None)
                /\ (autoFitColumnWidth cfg = false -> ws_widths ws = ∅))
             sheets wb).
Proof.
  split.
  - apply buildWorkbook_empty_anchor.
  - intros wb E.
    pose proof (buildWorkbook_sheets Number_toString newDate Date_toString cfg sheets wb E)
      as Hall.
    split; [symmetry; eapply Forall2_length; exact Hall|].
    clear E. induction Hall as [|sheet ws sheets wb Hsheet Hall IH]; constructor;
      [|exact IH].
    destruct (placeTables_fields Number_toString newDate Date_toString cfg
                (tables sheet) _ ws Hsheet) as (_ & Hm & Hf & Hw).
    cbn [addWorksheet ws_merges ws_autoFilter ws_widths length] in Hm, Hf, Hw.
    split; [lia|]. split; assumption.
Qed.

(** ** The name of the file *)

Lemma digitsOnly_app (s t : string) :
  digitsOnly (s ++ t) = digitsOnly s ++ digitsOnly t.
Proof.
  induction s as [|c s IH]; [reflexivity|].
  simpl. rewrite IH.
  destruct (isDecimalDigit c); reflexivity.
Qed.

Lemma digitsOnly_digits (s : string) : allDigits s = true -> digitsOnly s = s.
Proof.
  induction s as [|c s IH]; [reflexivity|].
  cbn [allDigits digitsOnly]. intros H. apply andb_prop in H as [Hc Hs].
  rewrite Hc, (IH Hs). reflexivity.
Qed.

Lemma digitsOnly_allDigits (s : string) : allDigits (digitsOnly s) = true.
Proof.
  induction s as [|c s IH]; [reflexivity|].
  cbn [digitsOnly]. destruct (isDecimalDigit c) eqn:E; [|exact IH].
  cbn [allDigits]. now rewrite E, IH.
Qed.

(** X17.  The file name.  Whenever the workbook is built, its write to
    [exportsDir] is started under a name of the form
    [excel-file-<digits>.xlsx] and that name is returned.  For a clock
    reading in the format of [toISOString], [YYYY-MM-DDTHH:mm:ss.sssZ],
    the digits are those of the reading in order, separators dropped, so
    the name is fixed by the millisecond of the call. *)
Theorem fileName_from_timestamp
    (Number_toString : spec_float -> string) (newDate : Prim -> option Z)
    (Date_toString : Z -> string) (cfg : ExcelConfig) (exportsDir : string)
    (sheets : list SheetData) (wb : list Worksheet) :
  buildWorkbook Number_toString newDate Date_toString cfg sheets = Some wb ->
  (forall now,
     exists digits,
       allDigits digits = true
       /\ execGenExcelFuncs (R := Http.ServiceResponse) Number_toString newDate Date_toString
            exportsDir now sheets cfg
          = Some ("excel-file-" ++ digits ++ ".xlsx",
                  [WriteFile exportsDir ("excel-file-" ++ digits ++ ".xlsx") wb]))
  /\ (forall y mo d h mi sec ms,
        allDigits y = true -> allDigits mo = true -> allDigits d = true ->
        allDigits h = true -> allDigits mi = true -> allDigits sec = true ->
        allDigits ms = true ->
        fst <$> execGenExcelFuncs (R := Http.ServiceResponse) Number_toString newDate
                  Date_toString exportsDir
                  (y ++ "-" ++ mo ++ "-" ++ d ++ "T" ++ h ++ ":" ++ mi ++ ":" ++ sec
                     ++ "." ++ ms ++ "Z")
                  sheets cfg
        = Some ("excel-file-" ++ (y ++ mo ++ d ++ h ++ mi ++ sec ++ ms) ++ ".xlsx")).
Proof.
  intros Hbuild. split.
  - intros now. exists (digitsOnly now). split; [apply digitsOnly_allDigits|].
    unfold execGenExcelFuncs. rewrite Hbuild. reflexivity.
  - intros y mo d h mi sec ms Hy Hmo Hd Hh Hmi Hsec Hms.
    unfold execGenExcelFuncs. rewrite Hbuild. cbn [fmap option_fmap option_map fst].
    do 3 f_equal.
    repeat rewrite digitsOnly_app.
    rewrite (digitsOnly_digits y Hy), (digitsOnly_digits mo Hmo), (digitsOnly_digits d Hd),
      (digitsOnly_digits h Hh), (digitsOnly_digits mi Hmi), (digitsOnly_digits sec Hsec),
      (digitsOnly_digits ms Hms).
    change (digitsOnly "-") with EmptyString. change (digitsOnly "T") with EmptyString.
    change (digitsOnly ":") with EmptyString. change (digitsOnly ".") with EmptyString.
    change (digitsOnly "Z") with EmptyString.
    cbn [String.append].
    assert (Hnil : forall s, s ++ EmptyString = s)
      by (induction s as [|c s IH];
          [reflexivity | change (String c (s ++ EmptyString) = String c s); now rewrite IH]).
    rewrite Hnil. reflexivity.
Qed.

Lemma fileName_from_timestamp_witness :
  fst <$> execGenExcelFuncs (R := Http.ServiceResponse)
            (fun _ => "") (fun _ => None) (fun _ => "") "excel-exports"
            "2024-05-01T10:20:30.456Z" [reportSheet] (config false true)
  = Some "excel-file-20240501102030456.xlsx".
Proof.
  destruct (buildWorkbook (fun _ => "") (fun _ => None) (fun _ => "") (config false true)
              [reportSheet]) as [wb|] eqn:E; [|discriminate E].
  exact (proj2 (fileName_from_timestamp (fun _ => "") (fun _ => None) (fun _ => "")
                  (config false true) "excel-exports" [reportSheet] wb E)
           "2024" "05" "01" "10" "20" "30" "456"
           eq_refl eq_refl eq_refl eq_refl eq_refl eq_refl eq_refl).
Defined.

End LayoutProps.

(* ===================================================================== *)
(** * Further properties of the sweep of the output directory *)
(* ===================================================================== *)

Module SweeperProps.
Import Sweeper SweeperFacts.

(** The entry of [file] after a run over the listing [files]. *)
Lemma sweep_listing_lookup (now : Z) (files : list string) (dir : gmap string Entry)
    (file : string) :
  sweep now (Some files) dir !! file
  = if decide (file ∈ files)
    then e ← dir !! file; if removed now e then None else Some e
    else dir !! file.
Proof.
  cbn [sweep]. rewrite sweep_files_lookup.
  destruct (decide (file ∈ files)); [|reflexivity].
  destruct (dir !! file); reflexivity.
Qed.

Lemma readdir_elem_of (dir : gmap string Entry) (file : string) (files : list string) :
  readdir dir = Some files -> file ∈ files <-> is_Some (dir !! file).
Proof.
  unfold readdir. intros H. apply (inj Some) in H. subst files.
  rewrite list_elem_of_fmap. split.
  - intros [[f e] [-> Hin]]. apply elem_of_map_to_list in Hin. cbn. eauto.
  - intros [e He]. exists (file, e). split; [reflexivity|].
    now apply elem_of_map_to_list.
Qed.

(** X18.  One run of the scheduled task over the whole directory, entry
    by entry: an entry goes exactly when its modification time is read,
    its age exceeds one hour and its unlink succeeds; every other entry
    stays as it is, and the run creates nothing.  When the directory
    cannot be listed nothing changes. *)
Theorem sweep_result (now : Z) (dir : gmap string Entry) :
  (forall file,
     sweep now (readdir dir) dir !! file
     = e ← dir !! file; if removed now e then None else Some e)
  /\ sweep now (readdir dir) dir ⊆ dir
  /\ sweep now None dir = dir.
Proof.
  assert (Hlookup : forall file,
             sweep now (readdir dir) dir !! file
             = e ← dir !! file; if removed now e then None else Some e).
  { intros file. destruct (readdir dir) as [files|] eqn:Hls; [|discriminate].
    rewrite sweep_listing_lookup.
    destruct (decide (file ∈ files)) as [Hin|Hout]; [reflexivity|].
    destruct (dir !! file) as [e|] eqn:E; [|reflexivity].
    exfalso. apply Hout. apply (readdir_elem_of dir file files Hls). eauto. }
  split; [exact Hlookup|]. split; [|reflexivity].
  apply map_subseteq_spec. intros file e. rewrite Hlookup.
  destruct (dir !! file) as [e'|]; [|discriminate]. cbn.
  destruct (removed now e'); [discriminate | tauto].
Qed.

(** X19.  The outcome of a run does not depend on the order in which
    [readdir] yields the names, nor on a name being yielded twice: two
    listings with the same names leave the same directory. *)
Theorem sweep_listing_order (now : Z) (files files' : list string) (dir : gmap string Entry) :
  (forall file, file ∈ files <-> file ∈ files') ->
  sweep now (Some files) dir = sweep now (Some files') dir.
Proof.
  intros Hsame. apply map_eq. intros file. rewrite !sweep_listing_lookup.
  destruct (decide (file ∈ files)) as [Hin|Hout], (decide (file ∈ files')) as [Hin'|Hout'];
    try reflexivity.
  - exfalso. apply Hout'. now apply Hsame.
  - exfalso. apply Hout. now apply Hsame.
Qed.

Lemma sweep_listing_order_witness :
  let dir : gmap string Entry :=
    <["a.xlsx" := {| mtime := Some 0; removable := true |}]>
      (<["b.xlsx" := {| mtime := Some 9000000; removable := true |}]> ∅) in
  sweep 10000000 (Some ["a.xlsx"; "b.xlsx"]) dir
  = sweep 10000000 (Some ["b.xlsx"; "a.xlsx"; "b.xlsx"]) dir.
Proof.
  intros dir. apply sweep_listing_order. intros file.
  rewrite !elem_of_cons, !elem_of_nil. tauto.
Defined.

(** X20.  A second run at the same time, or at any earlier time, removes
    nothing more: what one run leaves, the run left for good until the
    clock advances. *)
Theorem sweep_settled (now earlier : Z) (dir : gmap string Entry) :
  earlier <= now ->
  let dir' := sweep now (readdir dir) dir in
  sweep earlier (readdir dir') dir' = dir'.
Proof.
  intros Hle dir'. apply map_eq. intros file.
  assert (Hlookup : forall t d f,
             sweep t (readdir d) d !! f
             = e ← d !! f; if removed t e then None else Some e).
  { intros t d f. destruct (readdir d) as [files|] eqn:Hls; [|discriminate].
    rewrite sweep_listing_lookup.
    destruct (decide (f ∈ files)) as [Hin|Hout]; [reflexivity|].
    destruct (d !! f) as [e|] eqn:E; [|reflexivity].
    exfalso. apply Hout. apply (readdir_elem_of d f files Hls). eauto. }
  rewrite Hlookup. subst dir'. rewrite Hlookup.
  destruct (dir !! file) as [e|]; [|reflexivity]. cbn.
  destruct (removed now e) eqn:R; [reflexivity|]. cbn.
  assert (R' : removed earlier e = false).
  { unfold removed in R |- *. destruct (mtime e) as [t|]; [|reflexivity].
    apply andb_false_iff in R as [R | R]; apply andb_false_iff; [left | now right].
    destruct (Z.gtb_spec (now - t) oneHour); [discriminate|].
    destruct (Z.gtb_spec (earlier - t) oneHour); [lia | reflexivity]. }
  now rewrite R'.
Qed.

Lemma sweep_settled_witness :
  let dir : gmap string Entry :=
    <["a.xlsx" := {| mtime := Some 0; removable := true |}]>
      (<["b.xlsx" := {| mtime := Some 9000000; removable := true |}]> ∅) in
  let dir' := sweep 10000000 (readdir dir) dir in
  sweep 10000000 (readdir dir') dir' = dir'.
Proof.
  intros dir. apply (sweep_settled 10000000 10000000 dir). lia.
Defined.

End SweeperProps.

(* ===================================================================== *)
(** * Further properties of the request handlers *)
(* ===================================================================== *)

Module HttpProps.
Import Js Excel Http Samples LayoutProps.

(** X21.  The generate handler answers every request exactly once, in the
    turn of the request, and returns nothing.  The status is 400 exactly
    when [sheetsData] is missing or empty.  It is 200 only when
    [sheetsData] is not empty, [excelConfigs] is present and no table has
    the empty string for [startCell]; every other answer is a 500, and a
    request with sheets but without [excelConfigs], or with a table whose
    [startCell] is empty, gets a 500.  A file write is started for a 200
    and for no other answer, so a refused request leaves nothing in the
    export directory. *)
Theorem generate_outcome
    (Number_toString : spec_float -> string) (newDate : Prim -> option Z)
    (Date_toString : Z -> string)
    (DEFAULT_borderStyle : option string) (DEFAULT_wrapText : bool)
    (exportsDir : string) (RENDER_EXTERNAL_URL : option string)
    (typeErrorMessage : string -> string) (now : string) (body : GenerateBody) :
  let h :=
    generate Number_toString newDate Date_toString DEFAULT_borderStyle
      DEFAULT_wrapText exportsDir RENDER_EXTERNAL_URL typeErrorMessage now body in
  let st := runHandler h idle in
  exists r,
    sent st = [r] /\ returned h = None
    /\ (statusCode r = 400 \/ statusCode r = 500 \/ statusCode r = 200)
    /\ (statusCode r = 400 <-> sheetsData body = None \/ sheetsData body = Some [])
    /\ (statusCode r = 200 ->
        exists sheets o,
          sheetsData body = Some sheets /\ sheets <> [] /\ excelConfigs body = Some o
          /\ Forall
               (fun sheet =>
                  Forall (fun tbl => startCell tbl <> Some EmptyString) (tables sheet))
               sheets)
    /\ (forall sheets,
          sheetsData body = Some sheets -> sheets <> [] ->
          excelConfigs body = None
          \/ Exists
               (fun sheet =>
                  Exists (fun tbl => startCell tbl = Some EmptyString) (tables sheet))
               sheets ->
          statusCode r = 500)
    /\ (success r = true <-> statusCode r = 200)
    /\ (pendingWrites st <> [] <-> statusCode r = 200).
Proof.
  intros h st. subst st h. unfold generate.
  destruct (sheetsData body) as [[|sheet sheets]|] eqn:Hsheets.
  - exists (validationError). repeat split; try discriminate; auto.
    + intros s Hs Hne. congruence.
    + intros H. now contradiction H.
  - destruct (excelConfigs body) as [o|] eqn:Hcfg.
    + pose proof (buildWorkbook_anchors Number_toString newDate Date_toString
                    (mergeConfigs DEFAULT_borderStyle DEFAULT_wrapText o) (sheet :: sheets))
        as Hanchors.
      pose proof (buildWorkbook_empty_anchor Number_toString newDate Date_toString
                    (mergeConfigs DEFAULT_borderStyle DEFAULT_wrapText o) (sheet :: sheets))
        as Hempty.
      unfold execGenExcelFuncs.
      destruct (buildWorkbook Number_toString newDate Date_toString
                  (mergeConfigs DEFAULT_borderStyle DEFAULT_wrapText o) (sheet :: sheets))
        as [wb|] eqn:E.
      * eexists. split; [reflexivity|]. split; [reflexivity|].
        split; [right; right; reflexivity|].
        split; [split; [discriminate | intros [H | H]; discriminate]|].
        split; [|split; [|split; [split; reflexivity | split; [reflexivity | discriminate]]]].
        -- intros _. exists (sheet :: sheets), o.
           repeat split; [discriminate|]. exact (Hanchors wb eq_refl).
        -- intros s Hs _ [Hnone | Hbad]; [discriminate|].
           apply (inj Some) in Hs. subst s. specialize (Hempty Hbad). discriminate.
      * exists (generationError typeErrorMessage "length").
        split; [reflexivity|]. split; [reflexivity|].
        split; [right; left; reflexivity|].
        split; [split; [discriminate | intros [H | H]; discriminate]|].
        split; [discriminate|].
        split; [reflexivity|].
        split; [split; discriminate | split; [intros H; now contradiction H | discriminate]].
    + exists (generationError typeErrorMessage "fontFamily").
      split; [reflexivity|]. split; [reflexivity|].
      split; [right; left; reflexivity|].
      split; [split; [discriminate | intros [H | H]; discriminate]|].
      split; [discriminate|].
      split; [reflexivity|].
      split; [split; discriminate | split; [intros H; now contradiction H | discriminate]].
  - exists (validationError). repeat split; try discriminate; auto.
    intros H. now contradiction H.
Qed.

(** What holds of every placed sheet holds of every worksheet of the
    workbook. *)
Lemma buildWorkbook_Forall
    (Number_toString : spec_float -> string) (newDate : Prim -> option Z)
    (Date_toString : Z -> string) (cfg : ExcelConfig) (P : Worksheet -> Prop)
    (sheets : list SheetData) (wb : list Worksheet) :
  buildWorkbook Number_toString newDate Date_toString cfg sheets = Some wb ->
  (forall sheet ws,
     placeSheet Number_toString newDate Date_toString cfg sheet = Some ws -> P ws) ->
  Forall P wb.
Proof.
  intros Hwb HP.
  pose proof (buildWorkbook_sheets Number_toString newDate Date_toString cfg sheets wb Hwb)
    as Hplaced.
  clear Hwb. induction Hplaced as [|sh ws shs wss Hsh _ IH]; constructor; [|exact IH].
  exact (HP sh ws Hsh).
Qed.

(** X22.  The two switches end to end.  When the workbook of an accepted
    request is built, the handler starts its write under the name made of
    the digits of the clock reading and then sends the download URL of
    that file.  Unless the request sets [autoFilter] to true no worksheet
    of that workbook has an autofilter (the default is off); if the
    request sets [autoFitColumnWidth] to false no worksheet has a column
    width set (the default is on). *)
Theorem generate_switches
    (Number_toString : spec_float -> string) (newDate : Prim -> option Z)
    (Date_toString : Z -> string)
    (DEFAULT_borderStyle : option string) (DEFAULT_wrapText : bool)
    (exportsDir : string) (RENDER_EXTERNAL_URL : option string)
    (typeErrorMessage : string -> string) (now : string) (body : GenerateBody)
    (sheets : list SheetData) (o : ConfigOverrides) (wb : list Worksheet) :
  sheetsData body = Some sheets ->
  sheets <> [] ->
  excelConfigs body = Some o ->
  buildWorkbook Number_toString newDate Date_toString
    (mergeConfigs DEFAULT_borderStyle DEFAULT_wrapText o) sheets = Some wb ->
  let fileName := "excel-file-" ++ digitsOnly now ++ ".xlsx" in
  effects (generate Number_toString newDate Date_toString DEFAULT_borderStyle
             DEFAULT_wrapText exportsDir RENDER_EXTERNAL_URL typeErrorMessage now body)
  = [WriteFile exportsDir fileName wb; Send (generated RENDER_EXTERNAL_URL fileName)]
  /\ length wb = length sheets
  /\ (o_autoFilter o <> Some true -> Forall (fun ws => ws_autoFilter ws = None) wb)
  /\ (o_autoFitColumnWidth o = Some false -> Forall (fun ws => ws_widths ws = ∅) wb).
Proof.
  intros Hsheets Hne Hcfg Hwb fileName.
  split.
  { unfold generate, execGenExcelFuncs. rewrite Hsheets, Hcfg.
    destruct sheets as [|sheet rest]; [congruence|]. rewrite Hwb. reflexivity. }
  pose proof (buildWorkbook_sheets Number_toString newDate Date_toString _ _ wb Hwb) as Hplaced.
  split; [symmetry; eapply Forall2_length; exact Hplaced|].
  split.
  - intros Hoff.
    assert (Hfilter : autoFilter (mergeConfigs DEFAULT_borderStyle DEFAULT_wrapText o) = false).
    { cbn [mergeConfigs autoFilter DEFAULT_EXCEL_CONFIGS].
      destruct (o_autoFilter o) as [[|]|]; [congruence | reflexivity | reflexivity]. }
    apply (buildWorkbook_Forall Number_toString newDate Date_toString _ _ _ wb Hwb).
    intros sh ws Hsh.
    destruct (placeTables_fields Number_toString newDate Date_toString _ _ _ ws Hsh)
      as (_ & _ & Hf & _).
    now rewrite (Hf Hfilter).
  - intros Hoff.
    assert (Hfit : autoFitColumnWidth (mergeConfigs DEFAULT_borderStyle DEFAULT_wrapText o)
                   = false).
    { cbn [mergeConfigs autoFitColumnWidth]. now rewrite Hoff. }
    apply (buildWorkbook_Forall Number_toString newDate Date_toString _ _ _ wb Hwb).
    intros sh ws Hsh.
    destruct (placeTables_fields Number_toString newDate Date_toString _ _ _ ws Hsh)
      as (_ & _ & _ & Hw).
    now rewrite (Hw Hfit).
Qed.

Lemma generate_switches_witness :
  exists wb,
    effects (generate (fun _ => "") (fun _ => None) (fun _ => "") None true
               "excel-exports" None (fun _ => "") "2024-05-01T10:20:30.456Z" reportBody)
    = [WriteFile "excel-exports" "excel-file-20240501102030456.xlsx" wb;
       Send (generated None "excel-file-20240501102030456.xlsx")]
    /\ length wb = 1%nat
    /\ Forall (fun ws => ws_autoFilter ws = None) wb.
Proof.
  destruct (buildWorkbook (fun _ => "") (fun _ => None) (fun _ => "")
              (mergeConfigs None true
                 {| o_fontFamily := None; o_titleFontSize := None;
                    o_headerFontSize := None; o_fontSize := None;
                    o_autoFilter := None; o_borderStyle := None;
                    o_wrapText := None; o_autoFitColumnWidth := None |})
              [reportSheet]) as [wb|] eqn:E; [|discriminate E].
  destruct (generate_switches (fun _ => "") (fun _ => None) (fun _ => "") None true
              "excel-exports" None (fun _ => "") "2024-05-01T10:20:30.456Z" reportBody
              [reportSheet] _ wb eq_refl ltac:(discriminate) eq_refl E)
    as (Heffects & Hlen & Hfilter & _).
  exists wb. split; [exact Heffects|]. split; [exact Hlen|].
  apply Hfilter. discriminate.
Defined.

(** X23.  The read-content handler sends a response exactly when [url] is
    a string, and then exactly one: 200 with the title and the text when
    the page is fetched, 500 when the fetch raises, with the message that
    is also logged.  It never starts a file write. *)
Theorem getContent_outcome
    (fetchAndCleanContent : string -> string + string * string) (url : QueryValue) :
  let h := getContent fetchAndCleanContent url in
  let st := runHandler h idle in
  (sent st <> [] <-> exists u, url = QString u)
  /\ (length (sent st) <= 1)%nat
  /\ pendingWrites st = []
  /\ (forall r, In r (sent st) ->
        exists u, url = QString u
        /\ match fetchAndCleanContent u with
           | inr (title, content) =>
               statusCode r = 200 /\ responseObject r = RContent title content
               /\ effects h = [Send r]
           | inl msg =>
               statusCode r = 500 /\ responseObject r = RNull
               /\ effects h = [Log (message r); Send r]
               /\ message r = "Error fetching content " ++ msg
           end).
Proof.
  intros h st. subst st h. unfold getContent.
  destruct url as [|u|l|fields]; cbn.
  2:{ destruct (fetchAndCleanContent u) as [msg|[title content]] eqn:E; cbn.
      - repeat split; try discriminate; eauto.
        intros r [<- | []]. exists u. split; [reflexivity|]. rewrite E. repeat split.
      - repeat split; try discriminate; eauto.
        intros r [<- | []]. exists u. split; [reflexivity|]. rewrite E. repeat split. }
  all: repeat split; try contradiction; try lia;
    try (intros H; now contradiction H); intros [u Hu]; discriminate.
Qed.

End HttpProps.

(* ===================================================================== *)
(** * Properties of the clean-up of a fetched page *)
(* ===================================================================== *)

Module ReaderProps.
Import Reader.

(** Induction on a node with the property at hand for all its children. *)
Lemma Node_induction (P : Node -> Prop)
    (HText : forall data, P (Text data))
    (HElement : forall name children, Forall P children -> P (Element name children)) :
  forall n, P n.
Proof.
  refine (fix IH (n : Node) : P n :=
            match n with
            | Text data => HText data
            | Element name children =>
                HElement name children
                  ((fix all (l : list Node) : Forall P l :=
                      match l with
                      | [] => @List.Forall_nil _ P
                      | c :: rest => @List.Forall_cons _ P c rest (IH c) (all rest)
                      end) children)
            end).
Qed.

(** Two removals in a row are one removal of both kinds. *)
Lemma removeIn_removeIn (p q : string -> bool) (n : Node) :
  flat_map (removeIn q) (removeIn p n) = removeIn (fun name => p name || q name) n.
Proof.
  induction n as [data | name children IH] using Node_induction; [reflexivity|].
  cbn [removeIn]. destruct (p name); [reflexivity|].
  cbn [flat_map removeIn orb]. rewrite app_nil_r.
  destruct (q name); [reflexivity|]. do 2 f_equal.
  induction IH as [|c rest Hc _ IHrest]; [reflexivity|].
  cbn [flat_map]. rewrite flat_map_app, Hc, IHrest. reflexivity.
Qed.

Lemma removeAll_removeAll (p q : string -> bool) (doc : list Node) :
  flat_map (removeIn q) (flat_map (removeIn p) doc)
  = flat_map (removeIn (fun name => p name || q name)) doc.
Proof.
  induction doc as [|n doc IH]; [reflexivity|].
  cbn [flat_map]. rewrite flat_map_app, removeIn_removeIn, IH. reflexivity.
Qed.

Lemma removeIn_ext (p q : string -> bool) (n : Node) :
  (forall name, p name = q name) -> removeIn p n = removeIn q n.
Proof.
  intros Hpq. induction n as [data | name children IH] using Node_induction; [reflexivity|].
  cbn [removeIn]. rewrite Hpq. destruct (q name); [reflexivity|]. do 2 f_equal.
  induction IH as [|c rest Hc _ IHrest]; [reflexivity|].
  cbn [flat_map]. now rewrite Hc, IHrest.
Qed.

Lemma removeAll_ext (p q : string -> bool) (doc : list Node) :
  (forall name, p name = q name) ->
  flat_map (removeIn p) doc = flat_map (removeIn q) doc.
Proof.
  intros Hpq. induction doc as [|n doc IH]; [reflexivity|].
  cbn [flat_map]. now rewrite (removeIn_ext p q n Hpq), IH.
Qed.

(** Where no selected element occurs nothing changes. *)
Lemma removeIn_absent (p : string -> bool) (n : Node) :
  occursIn p n = false -> removeIn p n = [n].
Proof.
  induction n as [data | name children IH] using Node_induction; [reflexivity|].
  cbn [occursIn removeIn]. intros H. apply orb_false_iff in H as [Hname Hchildren].
  rewrite Hname. do 2 f_equal.
  induction IH as [|c rest Hc _ IHrest]; [reflexivity|].
  cbn [existsb] in Hchildren. apply orb_false_iff in Hchildren as [H1 H2].
  cbn [flat_map]. now rewrite (Hc H1), (IHrest H2).
Qed.

Lemma removeAll_absent (p : string -> bool) (doc : list Node) :
  existsb (occursIn p) doc = false -> flat_map (removeIn p) doc = doc.
Proof.
  induction doc as [|n doc IH]; [reflexivity|].
  cbn [existsb flat_map]. intros H. apply orb_false_iff in H as [H1 H2].
  now rewrite (removeIn_absent p n H1), (IH H2).
Qed.

(** After a removal no selected element occurs. *)
Lemma removeIn_clean (p : string -> bool) (n : Node) :
  existsb (occursIn p) (removeIn p n) = false.
Proof.
  induction n as [data | name children IH] using Node_induction; [reflexivity|].
  cbn [removeIn]. destruct (p name) eqn:Hname; [reflexivity|].
  cbn [existsb occursIn]. rewrite Hname, orb_false_r. cbn [orb].
  induction IH as [|c rest Hc _ IHrest]; [reflexivity|].
  cbn [flat_map]. rewrite existsb_app, Hc, IHrest. reflexivity.
Qed.

Lemma removeAll_clean (p : string -> bool) (doc : list Node) :
  existsb (occursIn p) (flat_map (removeIn p) doc) = false.
Proof.
  induction doc as [|n doc IH]; [reflexivity|].
  cbn [flat_map]. now rewrite existsb_app, removeIn_clean, IH.
Qed.

Lemma occursIn_weaken (p q : string -> bool) (n : Node) :
  (forall name, q name = true -> p name = true) ->
  occursIn p n = false -> occursIn q n = false.
Proof.
  intros Hqp. induction n as [data | name children IH] using Node_induction; [reflexivity|].
  cbn [occursIn]. intros H. apply orb_false_iff in H as [Hname Hchildren].
  apply orb_false_iff. split.
  - destruct (q name) eqn:E; [|reflexivity]. rewrite (Hqp name E) in Hname. discriminate.
  - induction IH as [|c rest Hc _ IHrest]; [reflexivity|].
    cbn [existsb] in Hchildren |- *. apply orb_false_iff in Hchildren as [H1 H2].
    now rewrite (Hc H1), (IHrest H2).
Qed.

(** The loop over a list of tag names is one removal of the elements
    whose name is in the list. *)
Lemma removeElements_one_pass (elements : list string) :
  forall (p : string -> bool) (doc : list Node),
    removeElements elements (flat_map (removeIn p) doc)
    = flat_map (removeIn (fun name => p name || existsb (String.eqb name) elements)) doc.
Proof.
  unfold removeElements.
  induction elements as [|element rest IH]; intros p doc; cbn [fold_left existsb].
  - apply removeAll_ext. intros name. now rewrite orb_false_r.
  - unfold remove at 2. rewrite removeAll_removeAll, IH.
    apply removeAll_ext. intros name.
    rewrite (String.eqb_sym element name). now rewrite orb_assoc.
Qed.

Lemma removeElements_selected (elements : list string) (doc : list Node) :
  removeElements elements doc
  = flat_map (removeIn (fun name => existsb (String.eqb name) elements)) doc.
Proof.
  rewrite <- (removeAll_absent (fun _ => false) doc) at 1.
  - rewrite removeElements_one_pass. reflexivity.
  - induction doc as [|n doc IH]; [reflexivity|].
    cbn [existsb]. rewrite IH, orb_false_r.
    induction n as [data | name children IHn] using Node_induction; [reflexivity|].
    cbn [occursIn orb].
    induction IHn as [|c rest Hc _ IHrest]; [reflexivity|].
    cbn [existsb]. now rewrite Hc, IHrest.
Qed.

(** X24.  The twenty-three removals amount to one: an element stays in
    the document exactly when neither it nor an element that contains it
    bears one of the names of [elementsToRemove]; what stays keeps its
    place and its order.  Hence the order of the names in the list, and a
    name being listed twice, make no difference. *)
Theorem removeUnwantedElements_one_pass (doc : list Node) :
  removeUnwantedElements doc = flat_map (removeIn unwanted) doc
  /\ (forall elements,
        (forall name, In name elements <-> In name elementsToRemove) ->
        removeElements elements doc = removeUnwantedElements doc).
Proof.
  split.
  - apply removeElements_selected.
  - intros elements Hsame. unfold removeUnwantedElements.
    rewrite !removeElements_selected. apply removeAll_ext. intros name.
    destruct (existsb (String.eqb name) elementsToRemove) eqn:E.
    + apply existsb_exists in E as (x & Hin & Hx).
      apply existsb_exists. exists x. split; [now apply Hsame | exact Hx].
    + destruct (existsb (String.eqb name) elements) eqn:E'; [|reflexivity].
      apply existsb_exists in E' as (x & Hin & Hx).
      assert (Htrue : existsb (String.eqb name) elementsToRemove = true)
        by (apply existsb_exists; exists x; split; [now apply Hsame | exact Hx]).
      congruence.
Qed.

(** X25.  After the clean-up the document holds no [footer], [header],
    [nav], [script], [style], ... element at any depth. *)
Theorem removeUnwantedElements_clean (doc : list Node) :
  existsb (occursIn unwanted) (removeUnwantedElements doc) = false
  /\ (forall element,
        In element elementsToRemove ->
        existsb (occursIn (String.eqb element)) (removeUnwantedElements doc) = false).
Proof.
  assert (Hclean : existsb (occursIn unwanted) (removeUnwantedElements doc) = false).
  { unfold removeUnwantedElements. rewrite removeElements_selected. apply removeAll_clean. }
  split; [exact Hclean|].
  intros element Hin.
  induction (removeUnwantedElements doc) as [|n rest IH]; [reflexivity|].
  cbn [existsb] in Hclean |- *. apply orb_false_iff in Hclean as [H1 H2].
  rewrite (IH H2), orb_false_r.
  apply (occursIn_weaken unwanted (String.eqb element) n); [|exact H1].
  intros name Hname. apply String.eqb_eq in Hname. subst name.
  apply existsb_exists. exists element. split; [exact Hin | apply String.eqb_refl].
Qed.

(** X26.  A document without any of the unwanted elements comes out of
    the clean-up as it went in, and a second clean-up changes nothing. *)
Theorem removeUnwantedElements_fixed (doc : list Node) :
  (existsb (occursIn unwanted) doc = false -> removeUnwantedElements doc = doc)
  /\ removeUnwantedElements (removeUnwantedElements doc) = removeUnwantedElements doc.
Proof.
  assert (Hfixed : forall d, existsb (occursIn unwanted) d = false ->
                             removeUnwantedElements d = d).
  { intros d Hd. unfold removeUnwantedElements. rewrite removeElements_selected.
    now apply removeAll_absent. }
  split; [apply Hfixed|].
  apply Hfixed. unfold removeUnwantedElements at 1.
  rewrite removeElements_selected. apply removeAll_clean.
Qed.

End ReaderProps.
